(** * SBEMimage: hardware-synchronous dialogs of [main_controls_dlg_windows.py]

    A shallow embedding of the three run dialogs of the module
    (stage calibration, approach cutting, motor test) and the properties
    their specification states about them, followed by the dialogs that
    work on text and on the microscope (acquisition settings, saving the
    configuration, export of the image list, beam control, focus tool
    move) with properties read off their code.

    Conventions of the embedding.
    - Python floats are idealised: real numbers ([R]) where the code needs
      [atan] and [sqrt] (the calibration arithmetic), rationals ([Q]) for
      stage coordinates, which are only added, scaled and compared.
    - Values of a [QSpinBox] are Python ints, hence [Z] or [nat].
    - The hardware error register is sticky: a call that fails stores its
      code, a call that succeeds leaves the register as it was, and only
      [reset_error_state] clears it.
    - What the hardware, the random generator and the user do is an explicit
      environment argument; what the code does to the outside world is a
      list of events in the order the statements are executed. *)

From stdpp Require Import base option strings gmap.
From Stdlib Require Import ZArith QArith Qabs Reals Psatz Lia List.
Import ListNotations.

(* ===================================================================== *)
(** * Part I: the embedding                                              *)
(* ===================================================================== *)

(** ** Stage calibration: parameters from pixel shifts *)

Module StageCalibration.

Local Open Scope R_scope.

(** The four values shown in the 'Calculated parameters' box. *)
Record StageParams : Type := mkStageParams {
  scale_x : R;
  scale_y : R;
  rot_x : R;
  rot_y : R
}.

(** Python's [a / b].  With a zero divisor there is no quotient: ints and
    Python floats raise [ZeroDivisionError], numpy floats yield inf or nan. *)
Definition py_truediv (a b : R) : option R :=
  if Req_dec_T b 0 then None else Some (a / b).

(** [StageCalibrationDlg.calculate_stage_parameters].  [shift] and
    [pixel_size] are the values of [spinBox_shift] and [spinBox_pixelsize];
    the two vectors are [self.x_shift_vector] and [self.y_shift_vector].
    The result is [None] when one of the four quotients has a zero divisor,
    otherwise the parameters proposed to the user.  In the [None] case the
    program raises when the operands are ints or Python floats (the manual
    path); with the numpy floats of the automatic path it carries inf or
    nan into the 'Calculated parameters' box. *)
Definition calculate_stage_parameters
    (shift pixel_size : Z) (x_shift_vector y_shift_vector : R * R)
    : option StageParams :=
  let delta_xx := Rabs (fst x_shift_vector) in
  let delta_xy := Rabs (snd x_shift_vector) in
  let delta_yx := Rabs (fst y_shift_vector) in
  let delta_yy := Rabs (snd y_shift_vector) in
  qx ← py_truediv delta_xy delta_xx;
  let rx := atan qx in
  qy ← py_truediv delta_yx delta_yy;
  let ry := atan qy in
  sx ← py_truediv (IZR shift)
         (sqrt (delta_xx ^ 2 + delta_xy ^ 2) * IZR pixel_size / 1000);
  sy ← py_truediv (IZR shift)
         (sqrt (delta_yx ^ 2 + delta_yy ^ 2) * IZR pixel_size / 1000);
  Some {| scale_x := sx; scale_y := sy; rot_x := rx; rot_y := ry |}.

(** What a calibration attempt ends in. *)
Inductive attempt_outcome : Type :=
  | InputRejected                       (* 'Please check your input values.' *)
  | TranslationFailed (e : string)      (* 'An exception occured while ...' *)
  | Proposed (p : StageParams)          (* 'Calculated parameters' box *)
  | DivisionByZero.                     (* a quotient with a zero divisor *)

Definition run_calculation
    (shift pixel_size : Z) (xv yv : R * R) : attempt_outcome :=
  match calculate_stage_parameters shift pixel_size xv yv with
  | Some p => Proposed p
  | None => DivisionByZero
  end.

(** [StageCalibrationDlg.calculate_stage_parameters_from_user_input]: the
    eight pixel positions typed into the spin boxes. *)
Definition calculate_stage_parameters_from_user_input
    (shift pixel_size : Z) (x1x x1y x2x x2y y1x y1y y2x y2y : Z)
    : attempt_outcome :=
  let delta_xx := Z.abs (x1x - x2x) in
  let delta_xy := Z.abs (x1y - x2y) in
  let delta_yx := Z.abs (y1x - y2x) in
  let delta_yy := Z.abs (y1y - y2y) in
  if (delta_xx =? 0)%Z || (delta_yy =? 0)%Z then InputRejected
  else run_calculation shift pixel_size
         (IZR delta_xx, IZR delta_xy) (IZR delta_yx, IZR delta_yy).

(** [StageCalibrationDlg.process_results], the slot of the finish trigger of
    the automatic calibration.  [calc_exception] and the two vectors are what
    the acquisition thread left in the dialog. *)
Definition process_results
    (shift pixel_size : Z) (calc_exception : option string)
    (x_shift_vector y_shift_vector : R * R) : attempt_outcome :=
  match calc_exception with
  | None => run_calculation shift pixel_size x_shift_vector y_shift_vector
  | Some e => TranslationFailed e
  end.

(** The formulas as the specification words them: the Euclidean norm of the
    measured vector, the angle from the absolute components. *)
Definition norm (v : R * R) : R := sqrt (fst v ^ 2 + snd v ^ 2).

Definition compute_parameters_spec
    (shift_x shift_y : R * R) (known_shift_distance pixel_size_nm : R)
    : StageParams :=
  {| scale_x := known_shift_distance / (norm shift_x * pixel_size_nm / 1000);
     scale_y := known_shift_distance / (norm shift_y * pixel_size_nm / 1000);
     rot_x := atan (Rabs (snd shift_x) / Rabs (fst shift_x));
     rot_y := atan (Rabs (fst shift_y) / Rabs (snd shift_y)) |}.

(** *** The acquisition thread of the automatic calibration *)

(** What the thread asks of the microscope and the stage, and the signals it
    emits, in program order. *)
Inductive acq_event : Type :=
  | ApplyFrameSettings (frame_size_selector pixel_size : Z) (dwell_time : Q)
  | GetXY
  | AcquireFrame (path : string)
  | MoveToXY (target : Q * Q)
  | ImRead (path : string)
  | EmitUpdateCalc
  | EmitFinish.

(** The stage (it is where the last move sent it) and the events so far. *)
Record rig : Type := mkRig {
  stage_xy : Q * Q;
  acq_trace : list acq_event
}.

Definition acq_emit (ev : acq_event) (r : rig) : rig :=
  {| stage_xy := stage_xy r; acq_trace := acq_trace r ++ [ev] |}.

(** Modelled from the spec: the stage class is not part of the module;
    [get_xy] answers with the position of the stage. *)
Definition get_xy (r : rig) : (Q * Q) * rig :=
  (stage_xy r, acq_emit GetXY r).

(** Modelled from the spec: the stage class is not part of the module;
    [move_to_xy] leaves the stage at its target (the thread has no error
    handling to tell otherwise). *)
Definition move_to_xy (target : Q * Q) (r : rig) : rig :=
  {| stage_xy := target; acq_trace := acq_trace r ++ [MoveToXY target] |}.

(** What the thread leaves behind for [process_results]. *)
Record acq_result : Type := mkAcqResult {
  acq_rig : rig;
  acq_calc_exception : option string;
  acq_x_shift_vector : R * R;
  acq_y_shift_vector : R * R
}.

(** [tvec[::-1]]: the registration packages answer in (row, column) order. *)
Definition reversed (tvec : R * R) : R * R := (snd tvec, fst tvec).

(** [StageCalibrationDlg.stage_calibration_acq_thread].  [store_res] is
    [len(self.sem.STORE_RES)]; [translations] is what the selected package
    returns for (start, shift_x) and (start, shift_y), or the text of the
    exception it raises; [old_x], [old_y] are the vectors held before. *)
Definition stage_calibration_acq_thread
    (base_dir : string) (shift pixel_size : Z) (dwell_time : Q)
    (store_res : nat)
    (translations : string + (R * R) * (R * R))
    (old_x old_y : R * R) (r : rig) : acq_result :=
  let frame_size_selector := if (4 <? store_res)%nat then 4%Z else 3%Z in
  let r := acq_emit
             (ApplyFrameSettings frame_size_selector pixel_size dwell_time) r in
  let '((start_x, start_y), r) := get_xy r in
  let r := acq_emit (AcquireFrame (base_dir +:+ "\start.tif")) r in
  let r := move_to_xy ((start_x + inject_Z shift)%Q, start_y) r in
  let r := acq_emit (AcquireFrame (base_dir +:+ "\shift_x.tif")) r in
  let r := move_to_xy (start_x, (start_y + inject_Z shift)%Q) r in
  let r := acq_emit (AcquireFrame (base_dir +:+ "\shift_y.tif")) r in
  let r := move_to_xy (start_x, start_y) r in
  let r := acq_emit EmitUpdateCalc r in
  let r := acq_emit (ImRead (base_dir +:+ "\start.tif")) r in
  let r := acq_emit (ImRead (base_dir +:+ "\shift_x.tif")) r in
  let r := acq_emit (ImRead (base_dir +:+ "\shift_y.tif")) r in
  match translations with
  | inr (x_tvec, y_tvec) =>
      {| acq_rig := acq_emit EmitFinish r;
         acq_calc_exception := None;
         acq_x_shift_vector := reversed x_tvec;
         acq_y_shift_vector := reversed y_tvec |}
  | inl e =>
      {| acq_rig := acq_emit EmitFinish r;
         acq_calc_exception := Some e;
         acq_x_shift_vector := old_x;
         acq_y_shift_vector := old_y |}
  end.

(** One automatic attempt: the thread, then the slot of its finish trigger. *)
Definition automatic_attempt
    (base_dir : string) (shift pixel_size : Z) (dwell_time : Q)
    (store_res : nat) (translations : string + (R * R) * (R * R))
    (old_x old_y : R * R) (r : rig) : attempt_outcome :=
  let a := stage_calibration_acq_thread base_dir shift pixel_size dwell_time
             store_res translations old_x old_y r in
  process_results shift pixel_size (acq_calc_exception a)
    (acq_x_shift_vector a) (acq_y_shift_vector a).

(** The moves and captures among the events, the part the stage and the
    detector see. *)
Definition is_motion_or_capture (ev : acq_event) : bool :=
  match ev with
  | GetXY | AcquireFrame _ | MoveToXY _ => true
  | _ => false
  end.

End StageCalibration.

(** ** Approach: cutting a number of slices without imaging *)

Module Approach.

Local Open Scope Q_scope.

Inductive hw_call : Type :=
  | GetStageZ (wait_interval : Z)
  | NearKnife
  | MoveStageToZ (z : Q)
  | DoFullApproachCut
  | ClearKnife
  | ResetErrorState.

(** Entries of the main window log; the two with a formatted number keep
    the number. *)
Inductive log_msg : Type :=
  | Text (s : string)
  | MoveToNewZ (z : Q)              (* '3VIEW: Move to new Z: {0:.3f}' *)
  | CuttingInProgress (nm : Z).     (* '3VIEW: Cutting in progress (...' *)

Inductive message_box : Type :=
  | WarnClearKnifeFailed                        (* 'Warning: Clearing the knife failed. ...' *)
  | InfoApproachFinished (slices : nat) (nm : Z) (* 'Approach finished' *)
  | WarnZMismatch                               (* 'Z position mismatch' *)
  | WarnApproachAborted (slices : nat) (nm : Z). (* 'Approach aborted' *)

Inductive event : Type :=
  | Log (m : log_msg)
  | QueuePut (cmd : string)
  | Hw (c : hw_call)
  | Sleep (seconds : Z)
  | ProgressTrigger
  | FinishTrigger
  | Box (b : message_box)
  | PyRaise (exc : string).

(** The fields of [ApproachDlg] the run reads and writes, the error register
    of its microtome, and the events since the start button was pressed. *)
Record ApproachDlg : Type := mkApproachDlg {
  spinBox_numberSlices : nat;
  spinBox_thickness : Z;
  slice_counter : nat;
  max_slices : nat;
  thickness : Z;
  approach_in_progress : bool;
  aborted : bool;
  z_mismatch : bool;
  error_state : Z;
  trace : list event
}.

Definition set_slice_counter (n : nat) (d : ApproachDlg) : ApproachDlg :=
  mkApproachDlg (spinBox_numberSlices d) (spinBox_thickness d) n
    (max_slices d) (thickness d) (approach_in_progress d) (aborted d)
    (z_mismatch d) (error_state d) (trace d).

Definition set_max_slices (n : nat) (d : ApproachDlg) : ApproachDlg :=
  mkApproachDlg (spinBox_numberSlices d) (spinBox_thickness d)
    (slice_counter d) n (thickness d) (approach_in_progress d) (aborted d)
    (z_mismatch d) (error_state d) (trace d).

Definition set_thickness (t : Z) (d : ApproachDlg) : ApproachDlg :=
  mkApproachDlg (spinBox_numberSlices d) (spinBox_thickness d)
    (slice_counter d) (max_slices d) t (approach_in_progress d) (aborted d)
    (z_mismatch d) (error_state d) (trace d).

Definition set_approach_in_progress (b : bool) (d : ApproachDlg) : ApproachDlg :=
  mkApproachDlg (spinBox_numberSlices d) (spinBox_thickness d)
    (slice_counter d) (max_slices d) (thickness d) b (aborted d)
    (z_mismatch d) (error_state d) (trace d).

Definition set_aborted (b : bool) (d : ApproachDlg) : ApproachDlg :=
  mkApproachDlg (spinBox_numberSlices d) (spinBox_thickness d)
    (slice_counter d) (max_slices d) (thickness d) (approach_in_progress d) b
    (z_mismatch d) (error_state d) (trace d).

Definition set_z_mismatch (b : bool) (d : ApproachDlg) : ApproachDlg :=
  mkApproachDlg (spinBox_numberSlices d) (spinBox_thickness d)
    (slice_counter d) (max_slices d) (thickness d) (approach_in_progress d)
    (aborted d) b (error_state d) (trace d).

Definition set_error_state (c : Z) (d : ApproachDlg) : ApproachDlg :=
  mkApproachDlg (spinBox_numberSlices d) (spinBox_thickness d)
    (slice_counter d) (max_slices d) (thickness d) (approach_in_progress d)
    (aborted d) (z_mismatch d) c (trace d).

Definition emit (ev : event) (d : ApproachDlg) : ApproachDlg :=
  mkApproachDlg (spinBox_numberSlices d) (spinBox_thickness d)
    (slice_counter d) (max_slices d) (thickness d) (approach_in_progress d)
    (aborted d) (z_mismatch d) (error_state d) (trace d ++ [ev]).

(** Modelled from the spec: the microtome class is not part of the module.
    A call into it that fails leaves its code in the error register, a call
    that succeeds leaves the register as it was: [fault] is that code, or
    [None]. *)
Definition hw (c : hw_call) (fault : option Z) (d : ApproachDlg) : ApproachDlg :=
  let d := emit (Hw c) d in
  match fault with
  | Some code => set_error_state code d
  | None => d
  end.

(** Modelled from the spec: [reset_error_state] of the microtome clears the
    register. *)
Definition reset_error_state (d : ApproachDlg) : ApproachDlg :=
  set_error_state 0%Z (emit (Hw ResetErrorState) d).

(** [ApproachDlg.add_to_log]: an entry for the main window, and its trigger
    (the trigger carries nothing and is left out of the trace). *)
Definition add_to_log (m : log_msg) (d : ApproachDlg) : ApproachDlg :=
  emit (Log m) d.

Definition queue_put (cmd : string) (d : ApproachDlg) : ApproachDlg :=
  emit (QueuePut cmd) d.

Definition box (b : message_box) (d : ApproachDlg) : ApproachDlg :=
  emit (Box b) d.

(** [ApproachDlg.update_progress]; the label and the progress bar are not
    modelled. *)
Definition update_progress (d : ApproachDlg) : ApproachDlg :=
  set_max_slices (spinBox_numberSlices d) d.

(** [ApproachDlg.abort_approach], the slot of the abort button. *)
Definition abort_approach (d : ApproachDlg) : ApproachDlg :=
  set_aborted true d.

(** What happens around one pass of the approach loop. *)
Record cycle_env : Type := mkCycleEnv {
  move_fault : option Z;       (* move_stage_to_z *)
  cut_fault : option Z;        (* do_full_approach_cut *)
  abort_clicked : bool         (* abort pressed before the loop test *)
}.

(** What happens around one run. *)
Record env : Type := mkEnv {
  z_read_1 : option Q * option Z;   (* get_stage_z(wait_interval=1) *)
  z_read_2 : option Q * option Z;   (* get_stage_z(wait_interval=2) *)
  near_fault : option Z;            (* near_knife *)
  abort_before_near : bool;
  abort_before_loop : bool;
  cycle : nat -> cycle_env;         (* by the slice counter at its start *)
  clear_fault : option Z;           (* clear_knife *)
  full_cut_duration : Z
}.

Definition get_stage_z (wait_interval : Z) (reply : option Q * option Z)
    (d : ApproachDlg) : option Q * ApproachDlg :=
  (fst reply, hw (GetStageZ wait_interval) (snd reply) d).

(** [z_position is None or z_position < 0] *)
Definition unreadable (z_position : option Q) : bool :=
  match z_position with
  | None => true
  | Some z => negb (Qle_bool 0 z)
  end.

Definition when (b : bool) (f : ApproachDlg -> ApproachDlg) (d : ApproachDlg)
    : ApproachDlg :=
  if b then f d else d.

(** The [while] loop of [approach_thread].  [inl] is an uncaught exception
    (the finish trigger is then never emitted), [inr] the fall through to
    the end of the loop.  [sleep] raises [ValueError] when its argument is
    negative, that is when the cut takes less than five seconds.  [fuel]
    bounds the number of passes. *)
Fixpoint approach_loop (fuel : nat) (e : env) (z_position : option Q)
    (d : ApproachDlg) : ApproachDlg + ApproachDlg :=
  if (slice_counter d <? max_slices d)%nat && negb (aborted d) then
    match fuel with
    | O => inr d
    | S fuel' =>
      match z_position with
      | None => inl (emit (PyRaise "TypeError") d)
      | Some z =>
        let c := cycle e (slice_counter d) in
        let z := z + inject_Z (thickness d) / 1000 in
        let d := add_to_log (MoveToNewZ z) d in
        let d := hw (MoveStageToZ z) (move_fault c) d in
        let d := queue_put "UPDATE Z" d in
        if (0 <? error_state d)%Z then
          let d := add_to_log
                     (Text "CTRL: Z stage problem detected. Approach aborted.") d in
          let d := set_aborted true d in
          inr (reset_error_state d)
        else
          let d := add_to_log (CuttingInProgress (thickness d)) d in
          let d := hw DoFullApproachCut (cut_fault c) d in
          if (full_cut_duration e - 5 <? 0)%Z then
            inl (emit (PyRaise "ValueError") d)
          else
          let d := emit (Sleep (full_cut_duration e - 5)) d in
          if (0 <? error_state d)%Z then
            let d := add_to_log
                       (Text "CTRL: Cutting problem detected. Approach aborted.") d in
            let d := set_aborted true d in
            inr (reset_error_state d)
          else
            let d := add_to_log (Text "3VIEW: Approach cut completed.") d in
            let d := set_slice_counter (slice_counter d + 1) d in
            let d := emit ProgressTrigger d in
            let d := when (abort_clicked c) abort_approach d in
            approach_loop fuel' e (Some z) d
      end
    end
  else inr d.

(** The statements of [ApproachDlg.approach_thread] before its loop, in
    four blocks.  First the flags and counters (lines 2292 to 2298). *)
Definition init_run (d : ApproachDlg) : ApproachDlg :=
  let d := set_approach_in_progress true d in
  let d := set_aborted false d in
  let d := set_z_mismatch false d in
  let d := set_slice_counter 0 d in
  let d := set_max_slices (spinBox_numberSlices d) d in
  let d := set_thickness (spinBox_thickness d) d in
  emit ProgressTrigger d.

(** Reading the Z position, a second time if need be (lines 2300 to 2308);
    the result is the local [z_position] and the dialog. *)
Definition read_z_position (e : env) (d : ApproachDlg)
    : option Q * ApproachDlg :=
  let '(z_position, d) := get_stage_z 1 (z_read_1 e) d in
  if unreadable z_position then
    let '(z_position, d) := get_stage_z 2 (z_read_2 e) d in
    if unreadable z_position then
      let d := add_to_log
                 (Text "CTRL: Error reading Z position. Approach aborted.") d in
      let d := reset_error_state d in
      (z_position, set_aborted true d)
    else (z_position, d)
  else (z_position, d).

(** The test for error 206 (lines 2309 to 2316). *)
Definition check_z_mismatch (d : ApproachDlg) : ApproachDlg :=
  let d :=
    if (error_state d =? 206)%Z then
      let d := reset_error_state d in
      let d := set_z_mismatch true d in
      let d := set_aborted true d in
      add_to_log (Text "CTRL: Z position mismatch. Approach aborted.") d
    else d in
  queue_put "UPDATE Z" d.

(** Moving the knife to the near position (lines 2317 to 2325). *)
Definition move_knife_near (e : env) (d : ApproachDlg) : ApproachDlg :=
  if negb (aborted d) then
    let d := hw NearKnife (near_fault e) d in
    let d := add_to_log (Text "3VIEW: Moving knife to near position.") d in
    if (0 <? error_state d)%Z then
      let d := add_to_log
                 (Text "CTRL: Error moving knife to near position. Approach aborted.") d in
      let d := set_aborted true d in
      reset_error_state d
    else d
  else d.

Definition approach_startup (e : env) (d : ApproachDlg)
    : option Q * ApproachDlg :=
  let d := init_run d in
  let '(z_position, d) := read_z_position e d in
  let d := check_z_mismatch d in
  let d := when (abort_before_near e) abort_approach d in
  let d := move_knife_near e d in
  (z_position, when (abort_before_loop e) abort_approach d).

(** [ApproachDlg.approach_thread]: the start, the loop, the finish trigger.
    At most [max_slices] passes can increment the counter, so that much fuel
    lets the loop run to its own end. *)
Definition approach_thread (e : env) (d : ApproachDlg) : ApproachDlg :=
  let '(z_position, d) := approach_startup e d in
  match approach_loop (max_slices d) e z_position d with
  | inr d => emit FinishTrigger d
  | inl d => d
  end.

(** [ApproachDlg.finish_approach], the slot of the finish trigger. *)
Definition finish_approach (e : env) (d : ApproachDlg) : ApproachDlg :=
  let d := add_to_log (Text "3VIEW: Clearing knife.") d in
  let d := hw ClearKnife (clear_fault e) d in
  let d :=
    if (0 <? error_state d)%Z then
      let d := add_to_log (Text "CTRL: Error clearing knife.") d in
      let d := reset_error_state d in
      box WarnClearKnifeFailed d
    else d in
  let d := queue_put "STATUS IDLE" d in
  let d :=
    if negb (aborted d) then
      let d := box (InfoApproachFinished (max_slices d) (thickness d)) d in
      let d := set_slice_counter 0 d in
      update_progress d
    else if z_mismatch d then
      let d := reset_error_state d in
      box WarnZMismatch d
    else
      let d := box (WarnApproachAborted (slice_counter d) (thickness d)) d in
      let d := set_slice_counter 0 d in
      update_progress d in
  set_approach_in_progress false d.

(** [ApproachDlg.start_approach]; the trace starts afresh with the run. *)
Definition start_approach (d : ApproachDlg) : ApproachDlg :=
  mkApproachDlg (spinBox_numberSlices d) (spinBox_thickness d)
    (slice_counter d) (max_slices d) (thickness d) (approach_in_progress d)
    (aborted d) (z_mismatch d) (error_state d)
    [QueuePut "STATUS BUSY APPROACH"].

(** The finish trigger is connected to [finish_approach]: the slot runs once
    for each emission found after the thread ended. *)
Definition is_finish_trigger (ev : event) : bool :=
  match ev with FinishTrigger => true | _ => false end.

Definition deliver_finish (e : env) (d : ApproachDlg) : ApproachDlg :=
  fold_left (fun d _ => finish_approach e d)
    (List.filter is_finish_trigger (trace d)) d.

Definition run_approach (e : env) (d : ApproachDlg) : ApproachDlg :=
  deliver_finish e (approach_thread e (start_approach d)).

(** Observations on a trace. *)
Definition is_clear_knife (ev : event) : bool :=
  match ev with Hw ClearKnife => true | _ => false end.

Definition boxes (tr : list event) : list message_box :=
  flat_map (fun ev => match ev with Box b => [b] | _ => [] end) tr.

(** The outcome of a run as the thread left it: completed, Z mismatch, or
    aborted with the slices cut so far. *)
Definition outcome_box (d : ApproachDlg) : message_box :=
  if negb (aborted d) then InfoApproachFinished (max_slices d) (thickness d)
  else if z_mismatch d then WarnZMismatch
  else WarnApproachAborted (slice_counter d) (thickness d).

(** Whether the register shows an error once [clear_knife] has been called
    on the state the thread left. *)
Definition clear_failed (e : env) (d : ApproachDlg) : bool :=
  (0 <? match clear_fault e with
        | Some code => code
        | None => error_state d
        end)%Z.

(** The events a worker thread produces before its last one: no knife
    clearing, no message box, no finish trigger, no exception. *)
Definition quiet (ev : event) : bool :=
  match ev with
  | Hw ClearKnife | Box _ | FinishTrigger | PyRaise _ => false
  | _ => true
  end.

(** [d'] has the trace of [d] followed by quiet events. *)
Definition extends_quietly (d d' : ApproachDlg) : Prop :=
  exists evs, trace d' = trace d ++ evs /\ forallb quiet evs = true.

(** What [finish_approach] does to report the outcome the thread left. *)
Definition report_events (d : ApproachDlg) : list event :=
  if negb (aborted d) then
    [Box (InfoApproachFinished (max_slices d) (thickness d))]
  else if z_mismatch d then [Hw ResetErrorState; Box WarnZMismatch]
  else [Box (WarnApproachAborted (slice_counter d) (thickness d))].

(** What it does when the register shows an error after [clear_knife]. *)
Definition clear_failure_events : list event :=
  [Log (Text "CTRL: Error clearing knife."); Hw ResetErrorState;
   Box WarnClearKnifeFailed].

(** [d'] continues [d]: quiet events only, the settings of the run kept,
    and an abort, once set, still set. *)
Definition continues (d d' : ApproachDlg) : Prop :=
  extends_quietly d d'
  /\ max_slices d' = max_slices d
  /\ thickness d' = thickness d
  /\ spinBox_numberSlices d' = spinBox_numberSlices d
  /\ (aborted d = true -> aborted d' = true).

(** A run of five slices of 100 nm in which the move of the third cycle
    leaves error 206 in the register and nothing else goes wrong. *)
Definition five_slices : ApproachDlg :=
  mkApproachDlg 5 100 0 5 0 false false false 0 [].

Definition error_206_in_cycle_3 : env :=
  mkEnv (Some 10, None) (None, None) None false false
    (fun i => if (i =? 2)%nat then mkCycleEnv (Some 206%Z) None false
              else mkCycleEnv None None false)
    None 12.

(** Three more runs of five slices: nothing goes wrong; the user aborts
    during the second cycle; the first Z read finds the mismatch (206). *)
Definition no_trouble : env :=
  mkEnv (Some 10, None) (None, None) None false false
    (fun _ => mkCycleEnv None None false) None 12.

Definition abort_in_cycle_2 : env :=
  mkEnv (Some 10, None) (None, None) None false false
    (fun i => mkCycleEnv None None (i =? 1)%nat) None 12.

Definition mismatch_at_start : env :=
  mkEnv (Some 10, Some 206%Z) (None, None) None false false
    (fun _ => mkCycleEnv None None false) (Some 301%Z) 12.

(** The same fault after a first read of the Z position that gave
    nothing and a second one that succeeded. *)
Definition error_206_after_second_read : env :=
  mkEnv (None, None) (Some 10, None) None false false
    (fun i => if (i =? 2)%nat then mkCycleEnv (Some 206%Z) None false
              else mkCycleEnv None None false)
    None 12.

(** A microtome whose full cut takes three seconds. *)
Definition cut_of_three_seconds : env :=
  mkEnv (Some 10, None) (None, None) None false false
    (fun _ => mkCycleEnv None None false) None 3.

(** The state a run of the loop ends in, raised or not. *)
Definition state_of (r : ApproachDlg + ApproachDlg) : ApproachDlg :=
  match r with
  | inl d => d
  | inr d => d
  end.

(** [d'] is as fit for the loop as [d]: the counter is kept, the Z
    mismatch flag is newly set only on an aborted run, and an abort, once
    set, is still set. *)
Definition stays_fit (d d' : ApproachDlg) : Prop :=
  slice_counter d' = slice_counter d
  /\ (z_mismatch d' = true -> z_mismatch d = true \/ aborted d' = true)
  /\ (aborted d = true -> aborted d' = true).

(** Counting the cuts and the Z moves sent to the microtome. *)
Definition is_cut (ev : event) : bool :=
  match ev with Hw DoFullApproachCut => true | _ => false end.

Definition is_z_move (ev : event) : bool :=
  match ev with Hw (MoveStageToZ _) => true | _ => false end.

Definition count_events (f : event -> bool) (tr : list event) : nat :=
  length (List.filter f tr).

(** [d'] comes after [d] by statements that neither cut nor move in Z, and
    that leave the slice counter and the flag of the run alone. *)
Definition keeps (d d' : ApproachDlg) : Prop :=
  slice_counter d' = slice_counter d
  /\ approach_in_progress d' = approach_in_progress d
  /\ count_events is_cut (trace d') = count_events is_cut (trace d)
  /\ count_events is_z_move (trace d') = count_events is_z_move (trace d).

(** A fault with [code] is seen in a cycle: by the move, or by the cut after
    a move that succeeded. *)
Definition fault_observed (c : cycle_env) (code : Z) : Prop :=
  move_fault c = Some code
  \/ (move_fault c = None /\ cut_fault c = Some code).

End Approach.

(** ** Motor test: a random walk of the stage *)

Module MotorTest.

Local Open Scope Q_scope.

Inductive hw_call : Type :=
  | MoveStageToXY (x y : Q)
  | MoveStageToZ (z : Q) (safe_mode : bool)
  | ResetErrorState.

(** Lines of [motor_test_log.txt]. *)
Inductive log_line : Type :=
  | Position (x y z : Q)                 (* '{0:.3f}, {0:.3f}, {0:.3f}' *)
  | ErrorDuringXYMove (info : string)    (* 'ERROR DURING XY MOVE: ' + info *)
  | ErrorDuringZMove (info : string)     (* 'ERROR DURING Z MOVE: ' + info *)
  | OK                                   (* 'OK' *)
  | NumberOfErrors (n : nat).            (* 'NUMBER OF ERRORS: ' + str(n) *)

Inductive message_box : Type :=
  | WarnMovingBack             (* 'Error moving stage back to starting position. ...' *)
  | InfoAborted (z : Q)        (* 'Motor test was aborted by user. ...' *)
  | InfoComplete (tests errors : nat) (z : Q).   (* 'Motor test complete. ...' *)

(** The fields of [MotorTestDlg] the run uses, the error register and error
    text of its microtome, the log file, and what was sent to the hardware
    and shown to the user since the run started. *)
Record MotorTestDlg : Type := mkMotorTestDlg {
  start_z : Q;
  aborted : bool;
  number_tests : nat;
  number_errors : nat;
  error_state : Z;
  error_info : string;
  logfile : list log_line;
  commands : list hw_call;
  shown : list message_box
}.

Definition set_counters (tests errors : nat) (d : MotorTestDlg) : MotorTestDlg :=
  mkMotorTestDlg (start_z d) (aborted d) tests errors (error_state d)
    (error_info d) (logfile d) (commands d) (shown d).

Definition set_register (code : Z) (info : string) (d : MotorTestDlg)
    : MotorTestDlg :=
  mkMotorTestDlg (start_z d) (aborted d) (number_tests d) (number_errors d)
    code info (logfile d) (commands d) (shown d).

Definition set_logfile (l : list log_line) (d : MotorTestDlg) : MotorTestDlg :=
  mkMotorTestDlg (start_z d) (aborted d) (number_tests d) (number_errors d)
    (error_state d) (error_info d) l (commands d) (shown d).

Definition logfile_write (l : log_line) (d : MotorTestDlg) : MotorTestDlg :=
  set_logfile (logfile d ++ [l]) d.

Definition box (b : message_box) (d : MotorTestDlg) : MotorTestDlg :=
  mkMotorTestDlg (start_z d) (aborted d) (number_tests d) (number_errors d)
    (error_state d) (error_info d) (logfile d) (commands d) (shown d ++ [b]).

(** Modelled from the spec: the microtome class is not part of the module.
    A call into it that fails leaves its code and its text in the error
    register, a call that succeeds leaves both as they were: [fault] is that
    code and text, or [None]. *)
Definition hw (c : hw_call) (fault : option (Z * string)) (d : MotorTestDlg)
    : MotorTestDlg :=
  let d := mkMotorTestDlg (start_z d) (aborted d) (number_tests d)
             (number_errors d) (error_state d) (error_info d) (logfile d)
             (commands d ++ [c]) (shown d) in
  match fault with
  | Some (code, info) => set_register code info d
  | None => d
  end.

(** Modelled from the spec: [reset_error_state] of the microtome clears the
    register and its text. *)
Definition reset_error_state (d : MotorTestDlg) : MotorTestDlg :=
  set_register 0%Z "" (hw ResetErrorState None d).

(** What happens around one pass of the loop: the values of the calls of
    [random()] (the third is drawn on even passes only) and the faults of
    the two moves. *)
Record iter_env : Type := mkIterEnv {
  random_x : Q;
  random_y : Q;
  random_z : Q;
  xy_fault : option (Z * string);
  z_fault : option (Z * string)
}.

Definition Qltb (a b : Q) : bool := negb (Qle_bool b a).

(** The safety clamp: lines 2788 to 2795 of the source. *)
Definition clamp (start : Q) (p : Q * Q * Q) : Q * Q * Q :=
  let '(current_x, current_y, current_z) := p in
  let current_z := if Qltb current_z 0 then 0 else current_z in
  if Qltb 600 (Qabs current_x) || Qltb 600 (Qabs current_y)
     || Qltb 600 current_z
  then (0, 0, start)
  else (current_x, current_y, current_z).

(** The position the walk computes before the clamp. *)
Definition displaced (ie : iter_env) (tests : nat) (p : Q * Q * Q) : Q * Q * Q :=
  let '(current_x, current_y, current_z) := p in
  let dist := if (tests mod 10 =? 0)%nat then 300 else 50 in
  let current_x := current_x + (random_x ie - 0.5) * dist in
  let current_y := current_y + (random_y ie - 0.5) * dist in
  let current_z :=
    if (tests mod 2 =? 0)%nat then current_z + (random_z ie - 0.5) * 0.2
    else current_z + 0.025 in
  (current_x, current_y, current_z).

(** One pass of the [while] loop of [random_walk_thread]. *)
Definition random_walk_step (ie : iter_env) (p : Q * Q * Q) (d : MotorTestDlg)
    : (Q * Q * Q) * MotorTestDlg :=
  let '(current_x, current_y, current_z) :=
    clamp (start_z d) (displaced ie (number_tests d) p) in
  let d := logfile_write (Position current_x current_y current_z) d in
  let d := hw (MoveStageToXY current_x current_y) (xy_fault ie) d in
  let d :=
    if (0 <? error_state d)%Z then
      let d := set_counters (number_tests d) (number_errors d + 1) d in
      let d := logfile_write (ErrorDuringXYMove (error_info d)) d in
      reset_error_state d
    else
      let d := hw (MoveStageToZ current_z false) (z_fault ie) d in
      if (0 <? error_state d)%Z then
        let d := set_counters (number_tests d) (number_errors d + 1) d in
        let d := logfile_write (ErrorDuringZMove (error_info d)) d in
        reset_error_state d
      else logfile_write OK d in
  let d := set_counters (number_tests d + 1) (number_errors d) d in
  ((current_x, current_y, current_z), d).

(** The loop runs while [self.test_in_progress] is set, a flag the other
    thread clears when the time is up or the user aborts: [envs] has one
    entry for each time the loop test found the flag still set. *)
Fixpoint random_walk_loop (envs : list iter_env) (p : Q * Q * Q)
    (d : MotorTestDlg) : MotorTestDlg :=
  match envs with
  | [] => d
  | ie :: envs' =>
      let '(p, d) := random_walk_step ie p d in
      random_walk_loop envs' p d
  end.

(** [MotorTestDlg.random_walk_thread]; the file is opened with mode 'w'. *)
Definition random_walk_thread (envs : list iter_env) (d : MotorTestDlg)
    : MotorTestDlg :=
  let d := set_counters 0 0 d in
  let d := set_logfile [] d in
  let d := random_walk_loop envs (0, 0, start_z d) d in
  logfile_write (NumberOfErrors (number_errors d)) d.

(** [MotorTestDlg.test_finished], the slot of the finish trigger. *)
Definition test_finished (back_fault : option (Z * string)) (d : MotorTestDlg)
    : MotorTestDlg :=
  let d := hw (MoveStageToZ (start_z d) false) back_fault d in
  let d :=
    if (0 <? error_state d)%Z then box WarnMovingBack (reset_error_state d)
    else d in
  if aborted d then box (InfoAborted (start_z d)) d
  else box (InfoComplete (number_tests d) (number_errors d) (start_z d)) d.

(** [MotorTestDlg.start_random_walk] when the Z position could be read; the
    record of commands and boxes starts afresh with the run. *)
Definition start_random_walk (z : Q) (d : MotorTestDlg) : MotorTestDlg :=
  mkMotorTestDlg z false (number_tests d) (number_errors d) (error_state d)
    (error_info d) (logfile d) [] [].

(** A whole run, [abort_clicked] telling whether the user ended it. *)
Definition run_motor_test (z : Q) (envs : list iter_env) (abort_clicked : bool)
    (back_fault : option (Z * string)) (d : MotorTestDlg) : MotorTestDlg :=
  let d := random_walk_thread envs (start_random_walk z d) in
  let d := mkMotorTestDlg (start_z d) (abort_clicked || aborted d)
             (number_tests d) (number_errors d) (error_state d)
             (error_info d) (logfile d) (commands d) (shown d) in
  test_finished back_fault d.

(** Observations. *)
Definition in_range (x y z : Q) : Prop :=
  Qabs x <= 600 /\ Qabs y <= 600 /\ 0 <= z /\ z <= 600.

Definition line_in_range (l : log_line) : Prop :=
  match l with
  | Position x y z => in_range x y z
  | _ => True
  end.

Definition call_in_range (c : hw_call) : Prop :=
  match c with
  | MoveStageToXY x y => Qabs x <= 600 /\ Qabs y <= 600
  | MoveStageToZ z _ => 0 <= z /\ z <= 600
  | ResetErrorState => True
  end.

Definition is_error_line (l : log_line) : bool :=
  match l with
  | ErrorDuringXYMove _ | ErrorDuringZMove _ => true
  | _ => false
  end.

Definition is_outcome_line (l : log_line) : bool :=
  match l with
  | ErrorDuringXYMove _ | ErrorDuringZMove _ | OK => true
  | _ => false
  end.

Definition is_move_z (c : hw_call) : bool :=
  match c with MoveStageToZ _ _ => true | _ => false end.

Definition count {A : Type} (f : A -> bool) (l : list A) : nat :=
  length (List.filter f l).

(** A dialog as [__init__] leaves it, and a walk of three passes: the first
    without fault, the second with a fault of the XY move, the third with a
    fault of the Z move. *)
Definition fresh_dialog : MotorTestDlg :=
  mkMotorTestDlg 0 false 0 0 0 "" [] [] [].

Definition sample_walk : list iter_env :=
  [ mkIterEnv 0.9 0.5 0.1 None None;
    mkIterEnv 0.5 0.5 0.5 (Some (301%Z, "XY timeout")) None;
    mkIterEnv 0.5 0.5 0.5 None (Some (202%Z, "Z timeout")) ].

(** A pass in which a move that is made fails. *)
Definition faulty (ie : iter_env) : bool :=
  match xy_fault ie, z_fault ie with
  | None, None => false
  | _, _ => true
  end.

(** The codes the microtome leaves on a failure are positive. *)
Definition positive_codes (ie : iter_env) : Prop :=
  (forall code info, xy_fault ie = Some (code, info) -> (0 < code)%Z)
  /\ (forall code info, z_fault ie = Some (code, info) -> (0 < code)%Z).

(** Whether the register shows an error once the move back to the starting
    Z has been sent. *)
Definition move_back_failed (back_fault : option (Z * string))
    (d : MotorTestDlg) : bool :=
  (0 <? match back_fault with
        | Some (code, _) => code
        | None => error_state d
        end)%Z.

(** Whether the register shows an error once the XY move has been sent. *)
Definition xy_move_failed (ie : iter_env) (d : MotorTestDlg) : bool :=
  (0 <? match xy_fault ie with
        | Some (code, _) => code
        | None => error_state d
        end)%Z.

End MotorTest.

(** ** Closing a dialog while its run is in progress *)

Module DialogGuards.

(** The values the flags of the dialogs take. *)
Inductive pyval : Type :=
  | PyBool (b : bool)
  | PyNone.

(** [not v] *)
Definition py_not (v : pyval) : bool :=
  match v with
  | PyBool b => negb b
  | PyNone => true
  end.

(** What a close request or a press on OK or Cancel leads to. *)
Inductive reaction : Type :=
  | Closes
  | StaysOpen
  | Raises (exc attr : string).

(** An instance is the dictionary of its attributes; reading an attribute
    that was never assigned raises [AttributeError]. *)
Definition guarded (self : gmap string pyval) (attr : string) : reaction :=
  match self !! attr with
  | None => Raises "AttributeError" attr
  | Some v => if py_not v then Closes else StaysOpen
  end.

(** The flags [__init__] assigns. *)
Definition StageCalibrationDlg_init : gmap string pyval :=
  <["busy" := PyBool false]> (<["calc_exception" := PyNone]> ∅).

Definition ApproachDlg_init : gmap string pyval :=
  <["z_mismatch" := PyBool false]>
    (<["aborted" := PyBool false]>
      (<["approach_in_progress" := PyBool false]> ∅)).

Definition MotorTestDlg_init : gmap string pyval :=
  <["start_time" := PyNone]> (<["test_in_progress" := PyBool false]> ∅).

(** The statements that raise and lower the flag of a run. *)
Definition StageCalibrationDlg_set_busy (b : bool) (self : gmap string pyval)
    : gmap string pyval := <["busy" := PyBool b]> self.

Definition ApproachDlg_set_in_progress (b : bool) (self : gmap string pyval)
    : gmap string pyval := <["approach_in_progress" := PyBool b]> self.

Definition MotorTestDlg_set_in_progress (b : bool) (self : gmap string pyval)
    : gmap string pyval := <["test_in_progress" := PyBool b]> self.

(** [StageCalibrationDlg.accept], [.reject], [.closeEvent] *)
Definition StageCalibrationDlg_accept (self : gmap string pyval) : reaction :=
  guarded self "busy".
Definition StageCalibrationDlg_reject (self : gmap string pyval) : reaction :=
  guarded self "busy".
Definition StageCalibrationDlg_closeEvent (self : gmap string pyval) : reaction :=
  guarded self "busy".

(** [ApproachDlg.closeEvent], [.accept] *)
Definition ApproachDlg_closeEvent (self : gmap string pyval) : reaction :=
  guarded self "approach_in_progress".
Definition ApproachDlg_accept (self : gmap string pyval) : reaction :=
  guarded self "approach_in_progress".

(** [MotorTestDlg.closeEvent], [.accept] *)
Definition MotorTestDlg_closeEvent (self : gmap string pyval) : reaction :=
  guarded self "test_in_progress".
Definition MotorTestDlg_accept (self : gmap string pyval) : reaction :=
  guarded self "approach_in_progress".

End DialogGuards.

(** ** Python strings, as far as the dialogs use them *)

Module PyStr.

Import Stdlib.Strings.Ascii.
Local Open Scope char_scope.
Local Open Scope string_scope.

(** [s.replace(a, b)] for one-character [a] and [b] *)
Fixpoint replace_char (a b : ascii) (s : string) : string :=
  match s with
  | "" => ""
  | String c s' => String (if (c =? a)%char then b else c) (replace_char a b s')
  end.

Fixpoint mem_char (c : ascii) (cs : list ascii) : bool :=
  match cs with
  | [] => false
  | x :: cs' => (c =? x)%char || mem_char c cs'
  end.

(** [s.rstrip(cs)]: the trailing characters that are in [cs] removed *)
Fixpoint rstrip (cs : list ascii) (s : string) : string :=
  match s with
  | "" => ""
  | String c s' =>
      match rstrip cs s' with
      | "" => if mem_char c cs then "" else String c ""
      | r => String c r
      end
  end.

(** [s[:n]] and [s[n:]] *)
Fixpoint take (n : nat) (s : string) : string :=
  match n, s with
  | S n', String c s' => String c (take n' s')
  | _, _ => ""
  end.

Fixpoint drop (n : nat) (s : string) : string :=
  match n, s with
  | S n', String _ s' => drop n' s'
  | _, _ => s
  end.

(** [s.rfind(c)]: the last index of [c], or -1 *)
Fixpoint rfind_from (c : ascii) (s : string) (i : Z) (found : Z) : Z :=
  match s with
  | "" => found
  | String x s' => rfind_from c s' (i + 1) (if (x =? c)%char then i else found)
  end.

Definition rfind (c : ascii) (s : string) : Z := rfind_from c s 0 (-1).

Fixpoint contains_char (c : ascii) (s : string) : bool :=
  match s with
  | "" => false
  | String x s' => (x =? c)%char || contains_char c s'
  end.

Fixpoint all_chars (f : ascii -> bool) (s : string) : bool :=
  match s with
  | "" => true
  | String x s' => f x && all_chars f s'
  end.

Fixpoint last_char (s : string) : option ascii :=
  match s with
  | "" => None
  | String x "" => Some x
  | String _ s' => last_char s'
  end.

(** Whether the last character of [s] is one of [cs]. *)
Definition ends_in (cs : list ascii) (s : string) : bool :=
  match last_char s with
  | Some c => mem_char c cs
  | None => false
  end.

(** The last index of [c] by structural recursion, to reason about
    [rfind]. *)
Fixpoint last_index (c : ascii) (s : string) : option nat :=
  match s with
  | "" => None
  | String x s' =>
      match last_index c s' with
      | Some k => Some (S k)
      | None => if (x =? c)%char then Some O else None
      end
  end.

(** The longest prefix of characters satisfying [f], and the rest. *)
Fixpoint span (f : ascii -> bool) (s : string) : string * string :=
  match s with
  | "" => ("", "")
  | String x s' =>
      if f x then let '(w, r) := span f s' in (String x w, r) else ("", s)
  end.

(** [s.split(sep)] for a one-character separator *)
Fixpoint split_on (sep : ascii) (s : string) : list string :=
  match s with
  | "" => [""]
  | String x s' =>
      if (x =? sep)%char then "" :: split_on sep s'
      else match split_on sep s' with
           | h :: t => String x h :: t
           | [] => [String x ""]
           end
  end.

(** [a-zA-Z] and [0-9] *)
Definition is_letter (c : ascii) : bool :=
  (("a" <=? c) && (c <=? "z") || ("A" <=? c) && (c <=? "Z"))%char.

Definition is_digit (c : ascii) : bool := (("0" <=? c) && (c <=? "9"))%char.

(** [str(b)] for a bool *)
Definition str_of_bool (b : bool) : string := if b then "True" else "False".

End PyStr.

(** ** Acquisition settings: the base directory and the stack name *)

Module AcqSettings.

Import Stdlib.Strings.Ascii.
Import PyStr.
Local Open Scope string_scope.

(** The characters of [r'\/ '] *)
Definition trailing : list ascii := ["\"%char; "/"%char; " "%char].

(** [selected_dir.rstrip(r'\/ ').replace(' ', '_').replace('/', '\\')] *)
Definition modified_dir (selected_dir : string) : string :=
  replace_char "/" "\" (replace_char " " "_" (rstrip trailing selected_dir)).

(** [re.compile('^[a-zA-Z]:\\\$').match(s[:3])]: the pattern is a letter, a
    colon, a backslash and the end of the string. *)
Definition has_drive_letter (s : string) : bool :=
  match take 3 s with
  | String c (String c1 (String c2 "")) =>
      is_letter c && (c1 =? ":")%char && (c2 =? "\")%char
  | _ => false
  end.

(** [AcqSettingsDlg.update_stack_name]: the text of the stack name label *)
Definition stack_name (lineEdit_baseDir : string) : string :=
  let base_dir := rstrip trailing lineEdit_baseDir in
  drop (Z.to_nat (rfind "\" base_dir + 1)) base_dir.

(** The widgets [accept] reads. *)
Record form : Type := mkForm {
  lineEdit_baseDir : string;
  spinBox_sliceThickness : Z;
  spinBox_numberSlices : Z;
  spinBox_sliceCounter : Z;
  doubleSpinBox_zDiff : Q;
  checkBox_EHTOff : bool;
  checkBox_sendMetaData : bool;
  lineEdit_metaDataServer : string;
  lineEdit_projectName : string
}.

(** What the file system and the URL validator answer. *)
Record world : Type := mkWorld {
  makedirs_raises : option string;   (* os.path.exists / os.makedirs *)
  url_is_valid : bool                (* validators.url *)
}.

Inductive event : Type :=
  | SetBaseDirText (s : string)
  | UpdateStackName (name : string)
  | InfoModified            (* 'Base directory name modified' *)
  | WarnNoDriveLetter       (* 'Please specify the full path ...' *)
  | WarnInaccessible (e : string)
  | SetSliceThickness (v : Z)
  | SetNumberSlices (v : Z)
  | SetSliceCounter (v : Z)
  | SetTotalZDiff (v : Q)
  | WarnInvalidUrl
  | WarnSliceCounter        (* 'Slice counter must be smaller than ...' *)
  | SuperAccept.

Definition emit_if (b : bool) (evs : list event) : list event :=
  if b then evs else [].

(** [AcqSettingsDlg.accept]: the new configuration and what the dialog did,
    in order.  [__init__] connects [textChanged] of the line edit to
    [update_stack_name], so setting the modified text updates the stack
    name once through the signal and once through the call that follows. *)
Definition accept (cfg : gmap (string * string) string) (f : form) (w : world)
    : gmap (string * string) string * list event :=
  let selected_dir := lineEdit_baseDir f in
  let modified := modified_dir selected_dir in
  let ev1 :=
    emit_if (negb (String.eqb modified selected_dir))
      [SetBaseDirText modified; UpdateStackName (stack_name modified);
       UpdateStackName (stack_name modified); InfoModified] in
  let '(success, ev2) :=
    if negb (has_drive_letter modified) then (false, [WarnNoDriveLetter])
    else match makedirs_raises w with
         | Some e => (false, [WarnInaccessible e])
         | None => (true, [])
         end in
  let ev3 :=
    emit_if ((5 <=? spinBox_sliceThickness f)%Z
             && (spinBox_sliceThickness f <=? 200)%Z)
      [SetSliceThickness (spinBox_sliceThickness f)] in
  let number_slices := spinBox_numberSlices f in
  let ev4 := [SetNumberSlices number_slices] in
  let ev5 :=
    emit_if ((spinBox_sliceCounter f <=? number_slices)%Z
             || (number_slices =? 0)%Z)
      [SetSliceCounter (spinBox_sliceCounter f)] in
  let ev6 := [SetTotalZDiff (doubleSpinBox_zDiff f)] in
  let cfg := <[("acq", "eht_off_after_stack") :=
                 str_of_bool (checkBox_EHTOff f)]> cfg in
  let cfg := <[("sys", "send_metadata") :=
                 str_of_bool (checkBox_sendMetaData f)]> cfg in
  let '(cfg, ev7) :=
    if checkBox_sendMetaData f then
      (<[("sys", "metadata_project_name") := lineEdit_projectName f]> cfg,
       emit_if (negb (url_is_valid w)) [WarnInvalidUrl])
    else (cfg, []) in
  let too_large :=
    (0 <? number_slices)%Z && (number_slices <? spinBox_sliceCounter f)%Z in
  let ev8 := emit_if too_large [WarnSliceCounter] in
  let success := success && negb too_large in
  let evs := (ev1 ++ ev2 ++ ev3 ++ ev4 ++ ev5 ++ ev6 ++ ev7 ++ ev8)%list in
  if success then
    (<[("acq", "base_dir") := modified]> cfg, (evs ++ [SuperAccept])%list)
  else (cfg, evs).

Definition closes (evs : list event) : bool :=
  existsb (fun ev => match ev with SuperAccept => true | _ => false end) evs.

(** The last test of [accept]: a slice counter above a positive target. *)
Definition too_large (f : form) : bool :=
  (0 <? spinBox_numberSlices f)%Z
  && (spinBox_numberSlices f <? spinBox_sliceCounter f)%Z.

End AcqSettings.

(** ** Saving the configuration under a new name *)

Module SaveConfig.

Import Stdlib.Strings.Ascii.
Import PyStr.
Local Open Scope string_scope.

(** The class [[a-zA-Z0-9_-]] *)
Definition allowed (c : ascii) : bool :=
  is_letter c || is_digit c || (c =? "_")%char || (c =? "-")%char.

(** [re.compile('^[a-zA-Z0-9_-]+$').match(s)]: one or more allowed characters
    up to the end of the string, where [$] also matches before a newline
    that ends the string. *)
Definition name_matches (s : string) : bool :=
  let '(w, rest) := span allowed s in
  negb (String.eqb w "")
  && (String.eqb rest "" || String.eqb rest (String "010"%char "")).

Inductive event : Type :=
  | SetText (s : string)
  | WarnForbidden          (* 'Name contains forbidden characters.' *)
  | SuperAccept.

(** [SaveConfigDlg.accept]: the new [self.file_name], if it is set, and what
    the dialog did.  The second test of the source compares the bound method
    [text().lower] with a string, which are never equal. *)
Definition accept (lineEdit_cfgFileName : string) : option string * list event :=
  let without_spaces := replace_char " " "_" lineEdit_cfgFileName in
  let lower_is_not_default := true in
  if name_matches without_spaces && lower_is_not_default then
    (Some (without_spaces ++ ".ini"), [SetText without_spaces; SuperAccept])
  else (None, [SetText without_spaces; WarnForbidden]).

(** A character the check accepts once spaces are underscores. *)
Definition plain (c : ascii) : bool := allowed c || (c =? " ")%char.

End SaveConfig.

(** ** Export of the image list *)

Module ExportList.

Import Stdlib.Strings.Ascii.
Import PyStr.
Local Open Scope string_scope.

(** An entry of [imagelist_data] *)
Record item : Type := mkItem {
  item_path : string;
  item_x : Z;
  item_y : Z;
  item_slice : Z
}.

Inductive outcome : Type :=
  | Raised (exc : string)        (* an exception nothing catches *)
  | NoMetadata                   (* 'No image metadata found.' *)
  | WriteFailed                  (* 'An error ocurred while writing ...' *)
  | Exported (items : list item). (* the lines written, 'Export completed' *)

Section WithInt.

(** Python's [int()] on a string, and [int(n / pixel_size)] on an integer
    and the float of the spin box; [inl] is the exception raised. *)
Variable py_int : string -> string + Z.
Variable to_pixels : Z -> string + Z.

(** The body of the first [for] loop, for one line: the new minima and the
    entry appended, if any.  Once [elements[4]] exists, so do the elements
    before it. *)
Definition scan_line (target_grid_index : string) (start_slice end_slice : Z)
    (line : string) (min_x min_y : Z) : string + (Z * Z * option item) :=
  let elements := split_on ";" line in
  match nth_error elements 4 with
  | None => inl "IndexError"
  | Some e4 =>
    match py_int e4 with
    | inl exc => inl exc
    | inr slice_number =>
      let e0 := nth 0 elements "" in
      let grid_index := take 4 (drop 7 e0) in
      if (start_slice <=? slice_number)%Z && (slice_number <=? end_slice)%Z
         && String.eqb grid_index target_grid_index
      then
        match py_int (nth 1 elements "") with
        | inl exc => inl exc
        | inr x_nm =>
          match to_pixels x_nm with
          | inl exc => inl exc
          | inr x =>
            let min_x := if (x <? min_x)%Z then x else min_x in
            match py_int (nth 2 elements "") with
            | inl exc => inl exc
            | inr y_nm =>
              match to_pixels y_nm with
              | inl exc => inl exc
              | inr y =>
                let min_y := if (y <? min_y)%Z then y else min_y in
                inr (min_x, min_y, Some (mkItem e0 x y slice_number))
              end
            end
          end
        end
      else inr (min_x, min_y, None)
    end
  end.

(** The first loop: the minima and [imagelist_data]. *)
Fixpoint scan (target_grid_index : string) (start_slice end_slice : Z)
    (lines : list string) (min_x min_y : Z) (data : list item)
    : string + (Z * Z * list item) :=
  match lines with
  | [] => inr (min_x, min_y, data)
  | line :: lines' =>
      match scan_line target_grid_index start_slice end_slice
              line min_x min_y with
      | inl exc => inl exc
      | inr (min_x, min_y, entry) =>
          scan target_grid_index start_slice end_slice lines' min_x min_y
            (match entry with
             | Some it => (data ++ [it])%list
             | None => data
             end)
      end
  end.

(** The second loop: [item[1] -= min_x; item[2] -= min_y]. *)
Definition shift_to_origin (min_x min_y : Z) (data : list item) : list item :=
  map (fun it => mkItem (item_path it) (item_x it - min_x)
                   (item_y it - min_y) (item_slice it)) data.

(** [ExportDlg.export_list]: [imagelist_str] is the lines of the image list
    files, [write_ok] whether the output file could be written. *)
Definition export_list (target_grid_index : string)
    (start_slice end_slice : Z) (imagelist_str : list string)
    (write_ok : bool) : outcome :=
  match imagelist_str with
  | [] => NoMetadata
  | _ =>
      match scan target_grid_index start_slice end_slice
              imagelist_str 1000000 1000000 [] with
      | inl exc => Raised exc
      | inr (min_x, min_y, data) =>
          if write_ok then Exported (shift_to_origin min_x min_y data)
          else WriteFailed
      end
  end.

End WithInt.

(** Decimal digits with an optional minus sign, and a pixel size of 10 nm:
    one choice of the two conversions, for the examples. *)
Fixpoint read_digits (s : string) (acc : Z) : option Z :=
  match s with
  | "" => Some acc
  | String c s' =>
      if is_digit c
      then read_digits s' (10 * acc + (Z.of_nat (nat_of_ascii c) - 48))%Z
      else None
  end.

Definition sample_int (s : string) : string + Z :=
  match s with
  | "" => inl "ValueError"
  | String c s' =>
      if (c =? "-")%char then
        match s', read_digits s' 0 with
        | String _ _, Some n => inr (- n)%Z
        | _, _ => inl "ValueError"
        end
      else
        match read_digits s 0 with
        | Some n => inr n
        | None => inl "ValueError"
        end
  end.

Definition sample_to_pixels (n : Z) : string + Z := inr (Z.quot n 10).

Definition sample_lines : list string :=
  ["tiles\g0001\a.tif;300;200;0;5"; "tiles\g0001\b.tif;100;400;0;6";
   "tiles\g0002\c.tif;0;0;0;6"].

(** What the first loop keeps true of the minima and the entries: no entry
    is below a minimum, a minimum is the start value or attained, and it
    never exceeds the start value. *)
Definition minima_ok (min_x min_y : Z) (data : list item) : Prop :=
  Forall (fun it => (min_x <= item_x it)%Z /\ (min_y <= item_y it)%Z) data
  /\ (min_x = 1000000%Z \/ Exists (fun it => item_x it = min_x) data)
  /\ (min_y = 1000000%Z \/ Exists (fun it => item_y it = min_y) data)
  /\ (min_x <= 1000000)%Z /\ (min_y <= 1000000)%Z.

End ExportList.

(** ** Switching the beam on and off *)

Module EHT.

Inductive event : Type :=
  | TurnOn                      (* sem.turn_eht_on() *)
  | TurnOff                     (* sem.turn_eht_off() *)
  | Poll (answer : bool)        (* sem.is_eht_on() or sem.is_eht_off() *)
  | Sleep1                      (* sleep(1) *)
  | ButtonText (s : string)
  | Status (beam_on : bool).    (* what update_status displays *)

(** The [while] loop of [send_on_cmd_and_wait] and [send_off_cmd_and_wait]:
    [answers i] is what the i-th call of the status function returns; the
    result is the events and the number of calls made. *)
Fixpoint wait_loop (max_wait_time : nat) (answers : nat -> bool) (i : nat)
    : list event * nat :=
  if answers i then ([Poll true], S i)
  else
    match max_wait_time with
    | O => ([Poll false], S i)
    | S m =>
        let '(evs, n) := wait_loop m answers (S i) in
        (Poll false :: Sleep1 :: evs, n)
    end.

(** [EHTDlg.send_on_cmd_and_wait]; [is_eht_on] is indexed by its calls. *)
Definition send_on_cmd_and_wait (is_eht_on : nat -> bool) : list event :=
  let '(evs, n) := wait_loop 15 is_eht_on 0 in
  TurnOn :: evs
    ++ [ButtonText "ON"; Poll (is_eht_on n); Status (is_eht_on n)].

(** [EHTDlg.send_off_cmd_and_wait]; the loop asks [is_eht_off],
    [update_status] asks [is_eht_on]. *)
Definition send_off_cmd_and_wait (is_eht_off : nat -> bool) (is_eht_on : bool)
    : list event :=
  let '(evs, n) := wait_loop 15 is_eht_off 0 in
  TurnOff :: evs ++ [ButtonText "OFF"; Poll is_eht_on; Status is_eht_on].

Definition is_sleep (ev : event) : bool :=
  match ev with Sleep1 => true | _ => false end.

Definition is_poll (ev : event) : bool :=
  match ev with Poll _ => true | _ => false end.

Definition is_command (ev : event) : bool :=
  match ev with TurnOn | TurnOff => true | _ => false end.

Definition count (f : event -> bool) (evs : list event) : nat :=
  length (List.filter f evs).

End EHT.

(** ** Moving the stage from the focus tool *)

Module FTMove.

(** The values of the attributes of the dialog. *)
Inductive attr : Type :=
  | AInt (z : Z)
  | ABool (b : bool)
  | AObj (name : string).

Inductive event : Type :=
  | MoveStageToXY (x y : Q)
  | ResetErrorState
  | FinishTrigger.

(** How [move_and_wait] ends: by an exception, or at its last statement. *)
Inductive ending : Type :=
  | Raises (exc what : string)
  | Returns.

(** The attributes [FTMoveDlg.__init__] assigns. *)
Definition FTMoveDlg_init (grid_index tile_index ov_index : Z)
    : gmap string attr :=
  <["finish_trigger" := AObj "Trigger"]>
    (<["error" := ABool false]>
      (<["tile_index" := AInt tile_index]>
        (<["grid_index" := AInt grid_index]>
          (<["ov_index" := AInt ov_index]>
            (<["gm" := AObj "grid_manager"]>
              (<["cs" := AObj "coordinate_system"]>
                (<["microtome" := AObj "microtome"]> ∅))))))).

(** [FTMoveDlg.start_move], as far as the attributes go. *)
Definition start_move (self : gmap string attr) : gmap string attr :=
  <["error" := ABool false]> self.

(** What the objects the dialog talks to answer: the centre of an overview,
    whether a grid exists, the position of a tile, and the error state of
    the microtome after the move. *)
Record world : Type := mkWorld {
  ovm_centre : Z -> option (Q * Q);
  gm_grid : Z -> bool;
  gm_tile : Z -> Z -> option (Q * Q);
  error_state_after_move : Z
}.

(** The result of the thread: how it ends, the attributes, the calls. *)
Definition result : Type := ending * gmap string attr * list event.

(** Reading an attribute: [AttributeError] when it was never assigned. *)
Definition getattr (self : gmap string attr) (name : string)
    (k : attr -> result) : result :=
  match self !! name with
  | None => (Raises "AttributeError" name, self, [])
  | Some v => k v
  end.

(** An attribute used as a number: a bool counts as 0 or 1. *)
Definition as_int (self : gmap string attr) (v : attr) (k : Z -> result)
    : result :=
  match v with
  | AInt z => k z
  | ABool b => k (if b then 1 else 0)%Z
  | AObj _ => (Raises "TypeError" "not a number", self, [])
  end.

(** The statements after the target is known. *)
Definition move_to (self : gmap string attr) (w : world) (target : Q * Q)
    : result :=
  getattr self "microtome" (fun _ =>
    let moved := [MoveStageToXY (fst target) (snd target)] in
    if (0 <? error_state_after_move w)%Z then
      getattr self "finish_trigger" (fun _ =>
        (Returns, <["error" := ABool true]> self,
         moved ++ [ResetErrorState; FinishTrigger]))
    else
      getattr self "finish_trigger" (fun _ =>
        (Returns, self, moved ++ [FinishTrigger]))).

(** [FTMoveDlg.move_and_wait] *)
Definition move_and_wait (self : gmap string attr) (w : world) : result :=
  getattr self "ov_index" (fun v => as_int self v (fun ov_index =>
    if (0 <=? ov_index)%Z then
      getattr self "ovm" (fun _ =>
        match ovm_centre w ov_index with
        | None => (Raises "IndexError" "ovm", self, [])
        | Some target => move_to self w target
        end)
    else
      getattr self "tile_index" (fun v => as_int self v (fun tile_index =>
        if (0 <=? tile_index)%Z then
          getattr self "gm" (fun _ =>
            getattr self "grid_index" (fun v => as_int self v (fun grid_index =>
              if gm_grid w grid_index then
                getattr self "tile_number" (fun v =>
                  as_int self v (fun tile_number =>
                    match gm_tile w grid_index tile_number with
                    | None => (Raises "IndexError" "tile", self, [])
                    | Some target => move_to self w target
                    end))
              else (Raises "IndexError" "grid", self, []))))
        else
          getattr self "microtome" (fun _ =>
            (Raises "UnboundLocalError" "stage_x", self, [])))))).

End FTMove.

(* ===================================================================== *)
(** * Part II: the properties                                            *)
(* ===================================================================== *)

Section StageCalibrationFacts.

Import StageCalibration.
Local Open Scope R_scope.

Lemma py_truediv_defined (a b : R) :
  b <> 0 -> py_truediv a b = Some (a / b).
Proof.
  intros Hb. unfold py_truediv.
  destruct (Req_dec_T b 0) as [E | _]; [contradiction | reflexivity].
Qed.

Lemma py_truediv_zero (a : R) : py_truediv a 0 = None.
Proof.
  unfold py_truediv.
  destruct (Req_dec_T 0 0) as [_ | N]; [reflexivity | now destruct N].
Qed.

Lemma scale_divisor_nonzero (a b : R) (pixel_size : Z) :
  a <> 0 -> (pixel_size <> 0)%Z ->
  sqrt (Rabs a ^ 2 + Rabs b ^ 2) * IZR pixel_size / 1000 <> 0.
Proof.
  intros Ha Hp.
  assert (Hs : 0 < sqrt (Rabs a ^ 2 + Rabs b ^ 2)).
  { apply sqrt_lt_R0.
    pose proof (Rabs_pos_lt a Ha) as H1. pose proof (Rabs_pos b) as H2. nra. }
  assert (Hz : IZR pixel_size <> 0) by (now apply not_0_IZR).
  intros E. apply Hz.
  assert (E' : sqrt (Rabs a ^ 2 + Rabs b ^ 2) * IZR pixel_size = 0) by lra.
  apply Rmult_integral in E'. destruct E' as [E' | E']; [lra | exact E'].
Qed.

Lemma norm_abs (a b : R) :
  sqrt (Rabs a ^ 2 + Rabs b ^ 2) = norm (a, b).
Proof.
  unfold norm. cbn [fst snd]. f_equal.
  rewrite <- !Rsqr_pow2, <- !Rsqr_abs. reflexivity.
Qed.

End StageCalibrationFacts.

Section StageCalibrationProperties.

Import StageCalibration.
Local Open Scope R_scope.

(** With nonzero primary components and a nonzero pixel size all four
    quotients exist. *)
Lemma calculate_stage_parameters_defined
    (shift pixel_size : Z) (xx xy yx yy : R) :
  xx <> 0 -> yy <> 0 -> (pixel_size <> 0)%Z ->
  calculate_stage_parameters shift pixel_size (xx, xy) (yx, yy) =
  Some {| scale_x := IZR shift /
            (sqrt (Rabs xx ^ 2 + Rabs xy ^ 2) * IZR pixel_size / 1000);
          scale_y := IZR shift /
            (sqrt (Rabs yx ^ 2 + Rabs yy ^ 2) * IZR pixel_size / 1000);
          rot_x := atan (Rabs xy / Rabs xx);
          rot_y := atan (Rabs yx / Rabs yy) |}.
Proof.
  intros Hx Hy Hp. unfold calculate_stage_parameters. cbn [fst snd].
  rewrite (py_truediv_defined (Rabs xy) (Rabs xx)) by now apply Rabs_no_R0.
  cbn [mbind option_bind].
  rewrite (py_truediv_defined (Rabs yx) (Rabs yy)) by now apply Rabs_no_R0.
  cbn [mbind option_bind].
  rewrite (py_truediv_defined (IZR shift)
             (sqrt (Rabs xx ^ 2 + Rabs xy ^ 2) * IZR pixel_size / 1000))
    by now apply scale_divisor_nonzero.
  cbn [mbind option_bind].
  assert (Hd : sqrt (Rabs yx ^ 2 + Rabs yy ^ 2) * IZR pixel_size / 1000 <> 0).
  { replace (Rabs yx ^ 2 + Rabs yy ^ 2) with (Rabs yy ^ 2 + Rabs yx ^ 2) by ring.
    now apply scale_divisor_nonzero. }
  rewrite (py_truediv_defined _ _ Hd).
  reflexivity.
Qed.

(** A zero primary component of the X vector: the first quotient has no
    value, whatever the other inputs are. *)
Lemma calculate_stage_parameters_zero_xx
    (shift pixel_size : Z) (xy : R) (yv : R * R) :
  calculate_stage_parameters shift pixel_size (0, xy) yv = None.
Proof.
  unfold calculate_stage_parameters. cbn [fst snd].
  rewrite Rabs_R0, py_truediv_zero. reflexivity.
Qed.

(** The same for the Y vector. *)
Lemma calculate_stage_parameters_zero_yy
    (shift pixel_size : Z) (xv : R * R) (yx : R) :
  calculate_stage_parameters shift pixel_size xv (yx, 0) = None.
Proof.
  unfold calculate_stage_parameters. cbn [fst snd].
  rewrite Rabs_R0, py_truediv_zero.
  destruct (py_truediv (Rabs (snd xv)) (Rabs (fst xv))); reflexivity.
Qed.

(** C1. For shift vectors whose primary components (the x component of the
    X shift, the y component of the Y shift) are nonzero, and a nonzero pixel
    size, [calculate_stage_parameters] returns rot_x = atan(delta_xy/delta_xx),
    rot_y = atan(delta_yx/delta_yy), scale_x = shift / (sqrt(delta_xx^2 +
    delta_xy^2) * pixel_size / 1000) and scale_y = shift / (sqrt(delta_yx^2 +
    delta_yy^2) * pixel_size / 1000), the deltas being the absolute values of
    the components; these are the values of the specification's formulas,
    which take the norm of the measured vector itself. *)
Theorem C1_stage_parameters_formulas
    (shift pixel_size : Z) (xx xy yx yy : R) :
  xx <> 0 -> yy <> 0 -> (pixel_size <> 0)%Z ->
  let delta_xx := Rabs xx in
  let delta_xy := Rabs xy in
  let delta_yx := Rabs yx in
  let delta_yy := Rabs yy in
  calculate_stage_parameters shift pixel_size (xx, xy) (yx, yy) =
    Some {| scale_x := IZR shift /
              (sqrt (delta_xx ^ 2 + delta_xy ^ 2) * IZR pixel_size / 1000);
            scale_y := IZR shift /
              (sqrt (delta_yx ^ 2 + delta_yy ^ 2) * IZR pixel_size / 1000);
            rot_x := atan (delta_xy / delta_xx);
            rot_y := atan (delta_yx / delta_yy) |}
  /\ calculate_stage_parameters shift pixel_size (xx, xy) (yx, yy) =
    Some (compute_parameters_spec (xx, xy) (yx, yy)
            (IZR shift) (IZR pixel_size)).
Proof.
  intros Hx Hy Hp. cbv zeta.
  rewrite (calculate_stage_parameters_defined _ _ _ _ _ _ Hx Hy Hp).
  split; [reflexivity |].
  unfold compute_parameters_spec. rewrite !norm_abs. reflexivity.
Qed.

Lemma C1_stage_parameters_formulas_witness :
  calculate_stage_parameters 10 10 (3, 4) (4, 3) =
    Some (compute_parameters_spec (3, 4) (4, 3) 10 10).
Proof.
  apply (C1_stage_parameters_formulas 10 10 3 4 4 3); [lra | lra | lia].
Defined.

(** C9. For shift vectors with nonzero primary components (and a nonzero
    pixel size) the computation is a function of its inputs, it yields
    parameters, and doubling the shift distance and the pixel size together
    leaves scale_x and scale_y as they were. *)
Theorem C9_deterministic_and_scale_invariant
    (shift pixel_size : Z) (xx xy yx yy : R) :
  xx <> 0 -> yy <> 0 -> (pixel_size <> 0)%Z ->
  (forall r1 r2,
      calculate_stage_parameters shift pixel_size (xx, xy) (yx, yy) = r1 ->
      calculate_stage_parameters shift pixel_size (xx, xy) (yx, yy) = r2 ->
      r1 = r2)
  /\ exists p q,
      calculate_stage_parameters shift pixel_size (xx, xy) (yx, yy) = Some p
      /\ calculate_stage_parameters (2 * shift) (2 * pixel_size)
           (xx, xy) (yx, yy) = Some q
      /\ scale_x q = scale_x p /\ scale_y q = scale_y p.
Proof.
  intros Hx Hy Hp. split; [intros r1 r2 <- <-; reflexivity |].
  assert (Hp2 : (2 * pixel_size <> 0)%Z) by lia.
  do 2 eexists.
  rewrite (calculate_stage_parameters_defined _ _ _ _ _ _ Hx Hy Hp).
  rewrite (calculate_stage_parameters_defined _ _ _ _ _ _ Hx Hy Hp2).
  split; [reflexivity |]. split; [reflexivity |]. cbn [scale_x scale_y].
  rewrite !mult_IZR.
  pose proof (scale_divisor_nonzero xx xy pixel_size Hx Hp) as Dx.
  assert (Dy : sqrt (Rabs yx ^ 2 + Rabs yy ^ 2) * IZR pixel_size / 1000 <> 0).
  { replace (Rabs yx ^ 2 + Rabs yy ^ 2) with (Rabs yy ^ 2 + Rabs yx ^ 2) by ring.
    now apply scale_divisor_nonzero. }
  assert (Hz : IZR pixel_size <> 0) by (now apply not_0_IZR).
  assert (Sx : sqrt (Rabs xx ^ 2 + Rabs xy ^ 2) <> 0)
    by (intros E; apply Dx; rewrite E; lra).
  assert (Sy : sqrt (Rabs yx ^ 2 + Rabs yy ^ 2) <> 0)
    by (intros E; apply Dy; rewrite E; lra).
  split; field; split; assumption.
Qed.

Lemma C9_deterministic_and_scale_invariant_witness :
  exists p q,
    calculate_stage_parameters 10 10 (3, 4) (4, 3) = Some p
    /\ calculate_stage_parameters (2 * 10) (2 * 10) (3, 4) (4, 3) = Some q
    /\ scale_x q = scale_x p /\ scale_y q = scale_y p.
Proof.
  apply (C9_deterministic_and_scale_invariant 10 10 3 4 4 3); [lra | lra | lia].
Defined.

(** The manual path refuses a zero primary component before it computes. *)
Lemma user_input_zero_primary_rejected
    (shift pixel_size x1x x1y x2x x2y y1x y1y y2x y2y : Z) :
  (x1x - x2x = 0 \/ y1y - y2y = 0)%Z ->
  calculate_stage_parameters_from_user_input shift pixel_size
    x1x x1y x2x x2y y1x y1y y2x y2y = InputRejected.
Proof.
  intros H. unfold calculate_stage_parameters_from_user_input.
  destruct H as [H | H]; rewrite H; cbn [Z.abs Z.eqb orb];
    [reflexivity | now rewrite orb_true_r].
Qed.

(** The automatic path has no such test: a zero primary component in what
    the registration returns reaches the division. *)
Lemma process_results_zero_primary_divides
    (shift pixel_size : Z) (xv yv : R * R) :
  fst xv = 0 \/ snd yv = 0 ->
  process_results shift pixel_size None xv yv = DivisionByZero.
Proof.
  intros H. unfold process_results, run_calculation.
  destruct xv as [xx xy], yv as [yx yy]. cbn [fst snd] in H.
  destruct H as [-> | ->].
  - now rewrite calculate_stage_parameters_zero_xx.
  - now rewrite calculate_stage_parameters_zero_yy.
Qed.

(** C2. An automatic attempt whose registration returns the X shift (0, 5)
    and the Y shift (3, 7) (as row and column: (5, 0) and (7, 3)) is not
    rejected: it runs into the division by the zero component, while the
    same shifts typed in by hand are rejected. *)
Theorem C2_automatic_zero_shift_not_rejected :
  automatic_attempt "C:\base" 10 10 0.8%Q 5 (inr ((5, 0), (7, 3)))
    (0, 0) (0, 0) (mkRig (0%Q, 0%Q) []) = DivisionByZero
  /\ calculate_stage_parameters_from_user_input 10 10 0 0 0 5 0 0 3 7
     = InputRejected.
Proof.
  split.
  - unfold automatic_attempt, stage_calibration_acq_thread.
    cbn [get_xy stage_xy acq_emit acq_calc_exception acq_x_shift_vector
         acq_y_shift_vector reversed fst snd].
    apply process_results_zero_primary_divides. left. reflexivity.
  - apply user_input_zero_primary_rejected. left. reflexivity.
Qed.

(** C7. Every automatic acquisition reads the position (x, y), acquires the
    reference image, moves to (x + shift, y), acquires the X image, moves to
    (x, y + shift), acquires the Y image and moves back to (x, y): these are
    its moves and captures, in this order, and the stage ends at (x, y). *)
Theorem C7_acquisition_sequence
    (base_dir : string) (shift pixel_size : Z) (dwell_time : Q)
    (store_res : nat) (translations : string + (R * R) * (R * R))
    (old_x old_y : R * R) (x y : Q) (before : list acq_event) :
  let a := stage_calibration_acq_thread base_dir shift pixel_size dwell_time
             store_res translations old_x old_y (mkRig (x, y) before) in
  exists evs : list acq_event,
    acq_trace (acq_rig a) = before ++ evs
    /\ List.filter is_motion_or_capture evs =
       [ GetXY;
         AcquireFrame (base_dir +:+ "\start.tif");
         MoveToXY ((x + inject_Z shift)%Q, y);
         AcquireFrame (base_dir +:+ "\shift_x.tif");
         MoveToXY (x, (y + inject_Z shift)%Q);
         AcquireFrame (base_dir +:+ "\shift_y.tif");
         MoveToXY (x, y) ]
    /\ stage_xy (acq_rig a) = (x, y).
Proof.
  cbv zeta. unfold stage_calibration_acq_thread.
  destruct translations as [e | [x_tvec y_tvec]];
    unfold get_xy, move_to_xy, acq_emit; cbn [acq_rig acq_trace stage_xy];
    rewrite <- !app_assoc; cbn [app];
    (eexists; split; [reflexivity | split; reflexivity]).
Qed.

End StageCalibrationProperties.

Section ApproachProperties.

Import Approach.
Local Open Scope Q_scope.

Ltac dlg_simpl :=
  cbn [spinBox_numberSlices spinBox_thickness slice_counter max_slices
       thickness approach_in_progress aborted z_mismatch error_state trace
       set_slice_counter set_max_slices set_thickness
       set_approach_in_progress set_aborted set_z_mismatch set_error_state
       emit hw reset_error_state add_to_log queue_put box update_progress
       abort_approach when get_stage_z fst snd] in *.

Ltac dlg_simpl_goal :=
  cbn [spinBox_numberSlices spinBox_thickness slice_counter max_slices
       thickness approach_in_progress aborted z_mismatch error_state trace
       set_slice_counter set_max_slices set_thickness
       set_approach_in_progress set_aborted set_z_mismatch set_error_state
       emit hw reset_error_state add_to_log queue_put box update_progress
       abort_approach when get_stage_z fst snd negb].

(** *** The trace only grows, and quietly so in the thread *)

Lemma extends_quietly_refl (d : ApproachDlg) : extends_quietly d d.
Proof. exists []. split; [now rewrite app_nil_r | reflexivity]. Qed.

Lemma extends_quietly_trans (d1 d2 d3 : ApproachDlg) :
  extends_quietly d1 d2 -> extends_quietly d2 d3 -> extends_quietly d1 d3.
Proof.
  intros [evs1 [E1 Q1]] [evs2 [E2 Q2]]. exists (evs1 ++ evs2). split.
  - rewrite E2, E1, app_assoc. reflexivity.
  - rewrite forallb_app, Q1, Q2. reflexivity.
Qed.

Lemma extends_quietly_same_trace (d d' : ApproachDlg) :
  trace d' = trace d -> extends_quietly d d'.
Proof.
  intros E. exists []. split; [now rewrite app_nil_r | reflexivity].
Qed.

Lemma extends_quietly_emit (ev : event) (d : ApproachDlg) :
  quiet ev = true -> extends_quietly d (emit ev d).
Proof.
  intros Hq. exists [ev]. split; [reflexivity |].
  cbn [forallb]. now rewrite Hq.
Qed.

Lemma extends_quietly_hw (c : hw_call) (fault : option Z) (d : ApproachDlg) :
  quiet (Hw c) = true -> extends_quietly d (hw c fault d).
Proof.
  intros Hq. exists [Hw c]. split.
  - destruct fault; reflexivity.
  - cbn [forallb]. now rewrite Hq.
Qed.

Lemma extends_quietly_reset (d : ApproachDlg) :
  extends_quietly d (reset_error_state d).
Proof. exists [Hw ResetErrorState]. split; reflexivity. Qed.

Lemma extends_quietly_when_abort (b : bool) (d : ApproachDlg) :
  extends_quietly d (when b abort_approach d).
Proof. destruct b; apply extends_quietly_same_trace; reflexivity. Qed.

(** The setters leave the trace alone. *)
Lemma extends_quietly_set_slice_counter (n : nat) (d : ApproachDlg) :
  extends_quietly d (set_slice_counter n d).
Proof. now apply extends_quietly_same_trace. Qed.

Lemma extends_quietly_set_max_slices (n : nat) (d : ApproachDlg) :
  extends_quietly d (set_max_slices n d).
Proof. now apply extends_quietly_same_trace. Qed.

Lemma extends_quietly_set_thickness (t : Z) (d : ApproachDlg) :
  extends_quietly d (set_thickness t d).
Proof. now apply extends_quietly_same_trace. Qed.

Lemma extends_quietly_set_approach_in_progress (b : bool) (d : ApproachDlg) :
  extends_quietly d (set_approach_in_progress b d).
Proof. now apply extends_quietly_same_trace. Qed.

Lemma extends_quietly_set_aborted (b : bool) (d : ApproachDlg) :
  extends_quietly d (set_aborted b d).
Proof. now apply extends_quietly_same_trace. Qed.

Lemma extends_quietly_set_z_mismatch (b : bool) (d : ApproachDlg) :
  extends_quietly d (set_z_mismatch b d).
Proof. now apply extends_quietly_same_trace. Qed.

Lemma extends_quietly_set_error_state (c : Z) (d : ApproachDlg) :
  extends_quietly d (set_error_state c d).
Proof. now apply extends_quietly_same_trace. Qed.

Lemma extends_quietly_abort_approach (d : ApproachDlg) :
  extends_quietly d (abort_approach d).
Proof. now apply extends_quietly_same_trace. Qed.

Create HintDb quietly.
#[local] Hint Resolve extends_quietly_refl extends_quietly_emit
  extends_quietly_hw extends_quietly_reset extends_quietly_when_abort
  : quietly.

(** One step of a proof that a chain of statements is quiet: peel the
    outermost statement off, by the lemma that fits it. *)
Ltac quiet_peel x lem :=
  apply (extends_quietly_trans _ x _); [| exact lem].

Ltac quiet_step :=
  lazymatch goal with
  | |- extends_quietly _ (emit ?ev ?x) =>
      quiet_peel x (extends_quietly_emit ev x eq_refl)
  | |- extends_quietly _ (add_to_log ?m ?x) =>
      quiet_peel x (extends_quietly_emit (Log m) x eq_refl)
  | |- extends_quietly _ (queue_put ?c ?x) =>
      quiet_peel x (extends_quietly_emit (QueuePut c) x eq_refl)
  | |- extends_quietly _ (hw ?c ?f ?x) =>
      quiet_peel x (extends_quietly_hw c f x eq_refl)
  | |- extends_quietly _ (reset_error_state ?x) =>
      quiet_peel x (extends_quietly_reset x)
  | |- extends_quietly _ (when ?b abort_approach ?x) =>
      quiet_peel x (extends_quietly_when_abort b x)
  | |- extends_quietly _ (abort_approach ?x) =>
      quiet_peel x (extends_quietly_abort_approach x)
  | |- extends_quietly _ (set_slice_counter ?n ?x) =>
      quiet_peel x (extends_quietly_set_slice_counter n x)
  | |- extends_quietly _ (set_max_slices ?n ?x) =>
      quiet_peel x (extends_quietly_set_max_slices n x)
  | |- extends_quietly _ (set_thickness ?n ?x) =>
      quiet_peel x (extends_quietly_set_thickness n x)
  | |- extends_quietly _ (set_approach_in_progress ?n ?x) =>
      quiet_peel x (extends_quietly_set_approach_in_progress n x)
  | |- extends_quietly _ (set_aborted ?n ?x) =>
      quiet_peel x (extends_quietly_set_aborted n x)
  | |- extends_quietly _ (set_z_mismatch ?n ?x) =>
      quiet_peel x (extends_quietly_set_z_mismatch n x)
  | |- extends_quietly _ (set_error_state ?n ?x) =>
      quiet_peel x (extends_quietly_set_error_state n x)
  | |- extends_quietly ?a ?b => constr_eq a b; apply extends_quietly_refl
  end.

(** Once aborted, the loop is not entered. *)
Lemma approach_loop_aborted (fuel : nat) (e : env) (z_position : option Q)
    (d : ApproachDlg) :
  aborted d = true -> approach_loop fuel e z_position d = inr d.
Proof.
  intros H. destruct fuel; cbn [approach_loop]; rewrite H, andb_false_r;
    reflexivity.
Qed.

(** The two ways the loop ends.  It falls through, by its own test or by a
    break, after quiet events only; or, when the cut takes less than five
    seconds, [sleep] raises [ValueError] after a cut, the events before it
    being quiet.  Without a Z position the loop would raise on its first
    statement, but it is entered without one only when the run is already
    aborted. *)
Lemma approach_loop_outcome (fuel : nat) (e : env) :
  forall (z_position : option Q) (d : ApproachDlg),
    (z_position = None -> aborted d = true) ->
    match approach_loop fuel e z_position d with
    | inr d' => extends_quietly d d'
                /\ max_slices d' = max_slices d
                /\ thickness d' = thickness d
                /\ z_mismatch d' = z_mismatch d
    | inl d' => (full_cut_duration e < 5)%Z
                /\ exists d'', d' = emit (PyRaise "ValueError") d''
                               /\ extends_quietly d d''
                               /\ max_slices d'' = max_slices d
                               /\ thickness d'' = thickness d
    end.
Proof.
  induction fuel as [| fuel IH]; intros z_position d Hz; cbn [approach_loop].
  - destruct ((slice_counter d <? max_slices d)%nat && negb (aborted d));
      auto with quietly.
  - destruct (aborted d) eqn:Hab.
    + rewrite andb_false_r. auto with quietly.
    + destruct (slice_counter d <? max_slices d)%nat;
        [| cbn [andb]; auto with quietly].
      cbn [andb negb].
      destruct z_position as [z |]; [| specialize (Hz eq_refl); discriminate].
      set (c := cycle e (slice_counter d)).
      set (z' := z + inject_Z (thickness d) / 1000).
      match goal with |- context [if (0 <? error_state ?x)%Z then _ else _] =>
        set (d1 := x) end.
      assert (X1 : extends_quietly d d1).
      { subst d1. repeat quiet_step. }
      assert (F1 : max_slices d1 = max_slices d /\ thickness d1 = thickness d
                   /\ z_mismatch d1 = z_mismatch d).
      { subst d1. now destruct (move_fault c). }
      destruct (0 <? error_state d1)%Z.
      { split; [| exact F1].
        eapply extends_quietly_trans; [exact X1 |]. repeat quiet_step. }
      match goal with |- context [emit (PyRaise "ValueError") ?x] =>
        set (dc := x) end.
      assert (Xc : extends_quietly d1 dc).
      { subst dc. repeat quiet_step. }
      assert (Fc : max_slices dc = max_slices d /\ thickness dc = thickness d
                   /\ z_mismatch dc = z_mismatch d).
      { subst dc. destruct (cut_fault c); exact F1. }
      destruct (Z.ltb_spec (full_cut_duration e - 5) 0) as [Lt | Ge].
      { split; [lia |]. exists dc. split; [reflexivity |].
        split; [eapply extends_quietly_trans; eassumption |].
        split; apply Fc. }
      match goal with |- context [if (0 <? error_state ?x)%Z then _ else _] =>
        set (d2 := x) end.
      assert (X2 : extends_quietly dc d2).
      { subst d2. repeat quiet_step. }
      assert (F2 : max_slices d2 = max_slices d /\ thickness d2 = thickness d
                   /\ z_mismatch d2 = z_mismatch d).
      { subst d2. exact Fc. }
      destruct (0 <? error_state d2)%Z.
      { split; [| exact F2].
        eapply extends_quietly_trans; [exact X1 |].
        eapply extends_quietly_trans; [exact Xc |].
        eapply extends_quietly_trans; [exact X2 |]. repeat quiet_step. }
      match goal with |- context [approach_loop fuel e (Some z') ?x] =>
        set (d3 := x) end.
      assert (X3 : extends_quietly d d3).
      { eapply extends_quietly_trans; [exact X1 |].
        eapply extends_quietly_trans; [exact Xc |].
        eapply extends_quietly_trans; [exact X2 |].
        subst d3. repeat quiet_step. }
      assert (F3 : max_slices d3 = max_slices d /\ thickness d3 = thickness d
                   /\ z_mismatch d3 = z_mismatch d).
      { subst d3. destruct (abort_clicked c); exact F2. }
      assert (N3 : Some z' = None -> aborted d3 = true) by discriminate.
      specialize (IH (Some z') d3 N3). clearbody d3 d2 dc d1.
      destruct F3 as (M3 & T3 & Z3).
      destruct (approach_loop fuel e (Some z') d3) as [dl | dr].
      * destruct IH as (Lt & d'' & E & X & M & T). split; [exact Lt |].
        exists d''. split; [exact E |].
        split; [eapply extends_quietly_trans; eassumption |].
        split; congruence.
      * destruct IH as (X & M & T & Zm).
        split; [eapply extends_quietly_trans; eassumption |].
        repeat split; congruence.
Qed.

(** When [sleep] cannot raise, or the run is aborted before the loop, the
    loop falls through. *)
Lemma approach_loop_returns (fuel : nat) (e : env) (z_position : option Q)
    (d : ApproachDlg) :
  (z_position = None -> aborted d = true) ->
  (5 <= full_cut_duration e)%Z \/ aborted d = true ->
  exists d', approach_loop fuel e z_position d = inr d'
             /\ extends_quietly d d'
             /\ max_slices d' = max_slices d
             /\ thickness d' = thickness d
             /\ z_mismatch d' = z_mismatch d.
Proof.
  intros Hz [Hs | Ha].
  - pose proof (approach_loop_outcome fuel e z_position d Hz) as O.
    destruct (approach_loop fuel e z_position d) as [dl | dr].
    + destruct O as [Lt _]. lia.
    + exists dr. split; [reflexivity | exact O].
  - rewrite (approach_loop_aborted fuel e z_position d Ha).
    exists d. split; [reflexivity |]. auto with quietly.
Qed.

(** With [max_slices] passes of fuel the loop ends by its own test. *)
Lemma approach_loop_runs_out (fuel : nat) (e : env) :
  forall (z_position : option Q) (d d' : ApproachDlg),
    (max_slices d <= fuel + slice_counter d)%nat ->
    approach_loop fuel e z_position d = inr d' ->
    (slice_counter d' <? max_slices d')%nat && negb (aborted d') = false.
Proof.
  induction fuel as [| fuel IH]; intros z_position d d' Hf; cbn [approach_loop].
  - destruct ((slice_counter d <? max_slices d)%nat && negb (aborted d)) eqn:C;
      intros [= <-]; [| exact C].
    apply andb_prop in C. destruct C as [C _].
    apply Nat.ltb_lt in C. lia.
  - destruct ((slice_counter d <? max_slices d)%nat && negb (aborted d)) eqn:C;
      [| intros [= <-]; exact C].
    destruct z_position as [z |]; [| discriminate].
    set (c := cycle e (slice_counter d)).
    set (z' := z + inject_Z (thickness d) / 1000).
    match goal with |- context [if (0 <? error_state ?x)%Z then _ else _] =>
      set (d1 := x) end.
    destruct (0 <? error_state d1)%Z.
    { intros [= <-]. apply andb_false_r. }
    destruct (full_cut_duration e - 5 <? 0)%Z; [discriminate |].
    match goal with |- context [if (0 <? error_state ?x)%Z then _ else _] =>
      set (d2 := x) end.
    destruct (0 <? error_state d2)%Z.
    { intros [= <-]. apply andb_false_r. }
    apply IH.
    assert (M : max_slices d2 = max_slices d /\ slice_counter d2 = slice_counter d).
    { subst d2 d1. now destruct (move_fault c), (cut_fault c). }
    destruct M as [M S].
    destruct (abort_clicked c); cbn [when abort_approach set_aborted emit
      add_to_log set_slice_counter max_slices slice_counter];
      rewrite M, S; lia.
Qed.

(** *** The blocks before the loop *)

Lemma continues_refl (d : ApproachDlg) : continues d d.
Proof. unfold continues. auto using extends_quietly_refl. Qed.

Lemma continues_trans (d1 d2 d3 : ApproachDlg) :
  continues d1 d2 -> continues d2 d3 -> continues d1 d3.
Proof.
  intros (X1 & M1 & T1 & S1 & A1) (X2 & M2 & T2 & S2 & A2).
  unfold continues. split; [eapply extends_quietly_trans; eassumption |].
  rewrite M2, T2, S2. repeat split; auto.
Qed.

Lemma continues_when_abort (b : bool) (d : ApproachDlg) :
  continues d (when b abort_approach d).
Proof.
  unfold continues. split; [apply extends_quietly_when_abort |].
  destruct b; cbn; auto.
Qed.

Lemma init_run_facts (d : ApproachDlg) :
  extends_quietly d (init_run d)
  /\ max_slices (init_run d) = spinBox_numberSlices d
  /\ thickness (init_run d) = spinBox_thickness d
  /\ spinBox_numberSlices (init_run d) = spinBox_numberSlices d
  /\ slice_counter (init_run d) = 0%nat
  /\ aborted (init_run d) = false
  /\ z_mismatch (init_run d) = false
  /\ error_state (init_run d) = error_state d.
Proof.
  unfold init_run. split; [repeat quiet_step | repeat split].
Qed.

Lemma read_z_position_continues (e : env) (d : ApproachDlg) :
  continues d (snd (read_z_position e d))
  /\ (fst (read_z_position e d) = None ->
      aborted (snd (read_z_position e d)) = true).
Proof.
  unfold read_z_position.
  destruct (z_read_1 e) as [z1 f1], (z_read_2 e) as [z2 f2].
  cbn [get_stage_z fst snd].
  destruct (unreadable z1) eqn:U1; [destruct (unreadable z2) eqn:U2 |];
    cbn [fst snd]; unfold continues;
    (split; [split; [repeat quiet_step | destruct f1, f2; cbn; auto] |]);
    intros ->; first [reflexivity | discriminate].
Qed.

Lemma check_z_mismatch_continues (d : ApproachDlg) :
  continues d (check_z_mismatch d).
Proof.
  unfold check_z_mismatch, continues.
  destruct (error_state d =? 206)%Z;
    (split; [repeat quiet_step | cbn; auto]).
Qed.

Lemma move_knife_near_continues (e : env) (d : ApproachDlg) :
  continues d (move_knife_near e d).
Proof.
  unfold move_knife_near.
  destruct (negb (aborted d)); [| apply continues_refl].
  match goal with |- context [if (0 <? error_state ?x)%Z then _ else _] =>
    destruct (0 <? error_state x)%Z end;
    unfold continues;
    (split; [repeat quiet_step | destruct (near_fault e); cbn; auto]).
Qed.

(** The blocks keep the run fit for the loop. *)
Lemma stays_fit_trans (d1 d2 d3 : ApproachDlg) :
  stays_fit d1 d2 -> stays_fit d2 d3 -> stays_fit d1 d3.
Proof.
  intros (S1 & Z1 & A1) (S2 & Z2 & A2). unfold stays_fit.
  split; [congruence |]. split; [| auto].
  intros H. destruct (Z2 H) as [H2 | H3]; [| auto].
  destruct (Z1 H2) as [H1 | H1]; auto.
Qed.

Lemma read_z_position_fit (e : env) (d : ApproachDlg) :
  stays_fit d (snd (read_z_position e d)).
Proof.
  unfold read_z_position, stays_fit.
  destruct (z_read_1 e) as [z1 f1], (z_read_2 e) as [z2 f2].
  cbn [get_stage_z fst snd].
  destruct (unreadable z1); [destruct (unreadable z2) |];
    destruct f1, f2; cbn; auto.
Qed.

Lemma check_z_mismatch_fit (d : ApproachDlg) : stays_fit d (check_z_mismatch d).
Proof.
  unfold check_z_mismatch, stays_fit.
  destruct (error_state d =? 206)%Z; cbn; auto.
Qed.

Lemma when_abort_fit (b : bool) (d : ApproachDlg) :
  stays_fit d (when b abort_approach d).
Proof. unfold stays_fit. destruct b; cbn; auto. Qed.

Lemma move_knife_near_fit (e : env) (d : ApproachDlg) :
  stays_fit d (move_knife_near e d).
Proof.
  unfold move_knife_near, stays_fit.
  destruct (negb (aborted d)); [| auto].
  match goal with |- context [if (0 <? error_state ?x)%Z then _ else _] =>
    destruct (0 <? error_state x)%Z end;
    destruct (near_fault e); cbn; auto.
Qed.

(** A run that is not aborted after the move to the near position has a
    register without error. *)
Lemma move_knife_near_register (e : env) (d : ApproachDlg) :
  aborted (move_knife_near e d) = false ->
  (error_state (move_knife_near e d) <= 0)%Z.
Proof.
  unfold move_knife_near. destruct (aborted d) eqn:A; cbn [negb].
  - rewrite A. discriminate.
  - match goal with |- context [if (0 <? error_state ?x)%Z then _ else _] =>
      destruct (Z.ltb_spec 0 (error_state x)) as [L | G] end.
    + cbn. discriminate.
    + intros _. exact G.
Qed.

(** The start of the thread leaves the counter at zero; the Z mismatch
    flag is set only on an aborted run; and a run that is not aborted has a
    register without error. *)
Lemma approach_startup_fit (e : env) (d : ApproachDlg) :
  let ds := snd (approach_startup e d) in
  slice_counter ds = 0%nat
  /\ (z_mismatch ds = true -> aborted ds = true)
  /\ (aborted ds = false -> (error_state ds <= 0)%Z).
Proof.
  cbv zeta. unfold approach_startup.
  destruct (init_run_facts d) as (_ & _ & _ & _ & S0 & _ & Z0 & _).
  generalize dependent (init_run d). intros d0 S0 Z0.
  pose proof (read_z_position_fit e d0) as N1.
  destruct (read_z_position e d0) as [z d1]. cbn [fst snd] in *.
  pose proof (check_z_mismatch_fit d1) as N2.
  generalize dependent (check_z_mismatch d1). intros d2 N2.
  pose proof (when_abort_fit (abort_before_near e) d2) as N3.
  generalize dependent (when (abort_before_near e) abort_approach d2).
  intros d3 N3.
  pose proof (conj (move_knife_near_fit e d3) (move_knife_near_register e d3))
    as N4.
  generalize dependent (move_knife_near e d3). intros d4 [N4 R4].
  destruct (stays_fit_trans _ _ _ N1
              (stays_fit_trans _ _ _ N2 (stays_fit_trans _ _ _ N3 N4)))
    as (S & Z & _).
  destruct (abort_before_loop e); cbn [when].
  - cbn. split; [congruence |]. split; [reflexivity | discriminate].
  - split; [congruence |]. split; [| exact R4].
    intros H. destruct (Z H) as [H0 | H4]; [congruence | exact H4].
Qed.

(** The start of the thread: quiet, and without a Z position only when the
    run is aborted. *)
Lemma approach_startup_facts (e : env) (d : ApproachDlg) :
  extends_quietly d (snd (approach_startup e d))
  /\ (fst (approach_startup e d) = None ->
      aborted (snd (approach_startup e d)) = true)
  /\ max_slices (snd (approach_startup e d)) = spinBox_numberSlices d
  /\ thickness (snd (approach_startup e d)) = spinBox_thickness d.
Proof.
  unfold approach_startup.
  destruct (init_run_facts d) as (X0 & M0 & T0 & _).
  generalize dependent (init_run d). intros d0 X0 M0 T0.
  destruct (read_z_position_continues e d0) as [K1 A1].
  destruct (read_z_position e d0) as [z d1]. cbn [fst snd] in *.
  pose proof (check_z_mismatch_continues d1) as K2.
  generalize dependent (check_z_mismatch d1). intros d2 K2.
  pose proof (continues_when_abort (abort_before_near e) d2) as K3.
  generalize dependent (when (abort_before_near e) abort_approach d2).
  intros d3 K3.
  pose proof (move_knife_near_continues e d3) as K4.
  generalize dependent (move_knife_near e d3). intros d4 K4.
  pose proof (continues_when_abort (abort_before_loop e) d4) as K5.
  generalize dependent (when (abort_before_loop e) abort_approach d4).
  intros d5 K5.
  pose proof (continues_trans _ _ _ K2
               (continues_trans _ _ _ K3
                 (continues_trans _ _ _ K4 K5))) as K15.
  destruct (continues_trans _ _ _ K1 K15) as (X & M & T & _ & _).
  destruct K15 as (_ & _ & _ & _ & A15).
  split; [eapply extends_quietly_trans; eassumption |].
  split; [intros Hz; auto |]. rewrite M, T. auto.
Qed.

(** A run that reaches the loop: not aborted after the start of the
    thread.  It then has a Z position, a counter at zero, no Z mismatch and
    a register without error. *)
Lemma approach_startup_reaches_loop (e : env) (d : ApproachDlg) :
  aborted (snd (approach_startup e d)) = false ->
  exists z ds,
    approach_startup e d = (Some z, ds)
    /\ slice_counter ds = 0%nat
    /\ aborted ds = false
    /\ z_mismatch ds = false
    /\ (error_state ds <= 0)%Z
    /\ max_slices ds = spinBox_numberSlices d
    /\ thickness ds = spinBox_thickness d.
Proof.
  intros Ha.
  destruct (approach_startup_facts e d) as (_ & An & M & T).
  destruct (approach_startup_fit e d) as (S & Zm & Er).
  destruct (approach_startup e d) as [z ds]. cbn [fst snd] in *.
  destruct z as [z |]; [| rewrite (An eq_refl) in Ha; discriminate].
  exists z, ds. split; [reflexivity |].
  repeat split; auto.
  destruct (z_mismatch ds); [| reflexivity].
  rewrite (Zm eq_refl) in Ha. discriminate.
Qed.

(** The two ways the thread ends: by emitting the finish trigger, after
    quiet events only, the loop having run to its own end; or, when the cut
    takes less than five seconds, by the [ValueError] of [sleep], without
    the finish trigger. *)
Lemma approach_thread_outcome (e : env) (d : ApproachDlg) :
  (exists d',
     approach_thread e d = emit FinishTrigger d'
     /\ extends_quietly d d'
     /\ max_slices d' = spinBox_numberSlices d
     /\ thickness d' = spinBox_thickness d
     /\ (slice_counter d' <? max_slices d')%nat && negb (aborted d') = false)
  \/ ((full_cut_duration e < 5)%Z
      /\ aborted (snd (approach_startup e d)) = false
      /\ exists d'',
           approach_thread e d = emit (PyRaise "ValueError") d''
           /\ extends_quietly d d'').
Proof.
  unfold approach_thread.
  destruct (approach_startup_facts e d) as (X & A & M & T).
  destruct (approach_startup e d) as [z ds]. cbn [fst snd] in *.
  pose proof (approach_loop_outcome (max_slices ds) e z ds A) as O.
  destruct (approach_loop (max_slices ds) e z ds) as [dl | dr] eqn:E.
  - right. destruct O as (Lt & d'' & -> & X' & _). split; [exact Lt |].
    split.
    + destruct (aborted ds) eqn:Ab; [| reflexivity].
      rewrite approach_loop_aborted in E by exact Ab. discriminate.
    + exists d''. split; [reflexivity |].
      eapply extends_quietly_trans; eassumption.
  - left. destruct O as (X' & M' & T' & _). exists dr.
    split; [reflexivity |].
    split; [eapply extends_quietly_trans; eassumption |].
    split; [congruence |]. split; [congruence |].
    apply (approach_loop_runs_out _ _ _ _ _ (Nat.le_add_r _ _) E).
Qed.

(** When [sleep] cannot raise, or the run is aborted before the loop, the
    thread ends by emitting the finish trigger. *)
Lemma approach_thread_finishes (e : env) (d : ApproachDlg) :
  (5 <= full_cut_duration e)%Z
  \/ aborted (snd (approach_startup e d)) = true ->
  exists d',
    approach_thread e d = emit FinishTrigger d'
    /\ extends_quietly d d'
    /\ max_slices d' = spinBox_numberSlices d
    /\ thickness d' = spinBox_thickness d
    /\ (slice_counter d' <? max_slices d')%nat && negb (aborted d') = false.
Proof.
  intros H.
  destruct (approach_thread_outcome e d) as [F | (Lt & Ab & _)];
    [exact F |].
  destruct H as [H | H]; [lia | congruence].
Qed.

(** *** The finish slot *)

Lemma finish_approach_trace (e : env) (d : ApproachDlg) :
  trace (finish_approach e d) =
  trace d ++ [Log (Text "3VIEW: Clearing knife."); Hw ClearKnife]
    ++ (if clear_failed e d then clear_failure_events else [])
    ++ [QueuePut "STATUS IDLE"] ++ report_events d.
Proof.
  unfold finish_approach, clear_failed, report_events, clear_failure_events.
  destruct (clear_fault e) as [code |]; dlg_simpl_goal;
    match goal with |- context [(0 <? ?c)%Z] => destruct (0 <? c)%Z end;
    dlg_simpl_goal; destruct (aborted d), (z_mismatch d); dlg_simpl_goal;
    rewrite <- ?app_assoc; reflexivity.
Qed.

Lemma boxes_app (l1 l2 : list event) : boxes (l1 ++ l2) = boxes l1 ++ boxes l2.
Proof. unfold boxes. apply flat_map_app. Qed.

Lemma boxes_report_events (d : ApproachDlg) :
  boxes (report_events d) = [outcome_box d].
Proof.
  unfold report_events, outcome_box.
  destruct (aborted d), (z_mismatch d); reflexivity.
Qed.

Lemma quiet_no_boxes (evs : list event) :
  forallb quiet evs = true -> boxes evs = [].
Proof.
  induction evs as [| ev evs IH]; [reflexivity |]. cbn [forallb].
  intros H. apply andb_prop in H. destruct H as [Hq Hr].
  destruct ev as [m | c | c | n | | | b | x]; try discriminate;
    cbn; now apply IH.
Qed.

Lemma quiet_no_clear (evs : list event) :
  forallb quiet evs = true -> List.filter is_clear_knife evs = [].
Proof.
  induction evs as [| ev evs IH]; [reflexivity |]. cbn [forallb].
  intros H. apply andb_prop in H. destruct H as [Hq Hr].
  destruct ev as [m | c | c | n | | | b | x]; try discriminate;
    try (cbn; now apply IH).
  destruct c; try discriminate; cbn; now apply IH.
Qed.

Lemma quiet_no_finish (evs : list event) :
  forallb quiet evs = true -> List.filter is_finish_trigger evs = [].
Proof.
  induction evs as [| ev evs IH]; [reflexivity |]. cbn [forallb].
  intros H. apply andb_prop in H. destruct H as [Hq Hr].
  destruct ev as [m | c | c | n | | | b | x]; try discriminate;
    cbn; now apply IH.
Qed.

Lemma no_clear_in_report (d : ApproachDlg) :
  List.filter is_clear_knife (report_events d) = [].
Proof.
  unfold report_events. destruct (aborted d), (z_mismatch d); reflexivity.
Qed.

(** A whole run in which the thread emits the finish trigger: it does so
    once, as its last event, so the slot runs once, on the state the thread
    left. *)
Lemma run_approach_finished_thread (e : env) (d0 d' : ApproachDlg) :
  approach_thread e (start_approach d0) = emit FinishTrigger d' ->
  extends_quietly (start_approach d0) d' ->
  let d1 := approach_thread e (start_approach d0) in
  run_approach e d0 = finish_approach e d1
  /\ exists evs,
      forallb quiet evs = true
      /\ trace d1 = QueuePut "STATUS BUSY APPROACH" :: evs ++ [FinishTrigger]
      /\ trace (run_approach e d0) =
         trace d1 ++ [Log (Text "3VIEW: Clearing knife."); Hw ClearKnife]
           ++ (if clear_failed e d1 then clear_failure_events else [])
           ++ [QueuePut "STATUS IDLE"] ++ report_events d1.
Proof.
  intros E (evs & Etr & Q). cbv zeta. unfold run_approach.
  assert (T1 : trace (approach_thread e (start_approach d0)) =
               QueuePut "STATUS BUSY APPROACH" :: evs ++ [FinishTrigger]).
  { rewrite E. cbn [emit trace]. rewrite Etr. reflexivity. }
  assert (D : deliver_finish e (approach_thread e (start_approach d0)) =
              finish_approach e (approach_thread e (start_approach d0))).
  { unfold deliver_finish. rewrite T1.
    cbn [List.filter is_finish_trigger]. rewrite List.filter_app.
    rewrite (quiet_no_finish evs Q). reflexivity. }
  rewrite D. split; [reflexivity |].
  exists evs. split; [exact Q |]. split; [exact T1 |].
  apply finish_approach_trace.
Qed.

Lemma run_approach_trace (e : env) (d0 : ApproachDlg) :
  (5 <= full_cut_duration e)%Z
  \/ aborted (snd (approach_startup e (start_approach d0))) = true ->
  let d1 := approach_thread e (start_approach d0) in
  run_approach e d0 = finish_approach e d1
  /\ exists evs,
      forallb quiet evs = true
      /\ trace d1 = QueuePut "STATUS BUSY APPROACH" :: evs ++ [FinishTrigger]
      /\ trace (run_approach e d0) =
         trace d1 ++ [Log (Text "3VIEW: Clearing knife."); Hw ClearKnife]
           ++ (if clear_failed e d1 then clear_failure_events else [])
           ++ [QueuePut "STATUS IDLE"] ++ report_events d1.
Proof.
  intros H.
  destruct (approach_thread_finishes e (start_approach d0) H)
    as (d' & E & X & _).
  exact (run_approach_finished_thread e d0 d' E X).
Qed.

(** A run in which the thread dies of the [ValueError]: no finish trigger
    was emitted, so the slot never runs and the dialog stays as the thread
    left it. *)
Lemma run_approach_dead_thread (e : env) (d0 d'' : ApproachDlg) :
  approach_thread e (start_approach d0) = emit (PyRaise "ValueError") d'' ->
  extends_quietly (start_approach d0) d'' ->
  run_approach e d0 = approach_thread e (start_approach d0)
  /\ exists evs,
       forallb quiet evs = true
       /\ trace (run_approach e d0) =
          QueuePut "STATUS BUSY APPROACH" :: evs ++ [PyRaise "ValueError"].
Proof.
  intros E (evs & Etr & Q).
  assert (T1 : trace (approach_thread e (start_approach d0)) =
               QueuePut "STATUS BUSY APPROACH" :: evs ++ [PyRaise "ValueError"]).
  { rewrite E. cbn [emit trace]. rewrite Etr. reflexivity. }
  assert (D : run_approach e d0 = approach_thread e (start_approach d0)).
  { unfold run_approach, deliver_finish. rewrite T1.
    cbn [List.filter is_finish_trigger]. rewrite List.filter_app.
    rewrite (quiet_no_finish evs Q). reflexivity. }
  split; [exact D |]. exists evs. split; [exact Q |]. rewrite D. exact T1.
Qed.

(** *** A run without trouble up to a faulty cycle *)

Lemma read_z_position_readable (e : env) (d : ApproachDlg) (z0 : Q)
    (fault : option Z) :
  z_read_1 e = (Some z0, fault) -> 0 <= z0 ->
  read_z_position e d = (Some z0, hw (GetStageZ 1) fault d).
Proof.
  intros H1 Hz. unfold read_z_position. rewrite H1.
  cbn [get_stage_z fst snd unreadable].
  apply Qle_bool_iff in Hz. rewrite Hz. reflexivity.
Qed.

(** With a cut of five seconds or more, a fault in cycle [j + 1] after [j]
    cycles without fault or abort ends the loop with the counter at [j]. *)
Lemma approach_loop_fault (e : env) (j : nat) (code : Z) :
  (5 <= full_cut_duration e)%Z ->
  (0 < code)%Z ->
  fault_observed (cycle e j) code ->
  (forall i, (i < j)%nat -> cycle e i = mkCycleEnv None None false) ->
  forall (fuel : nat) (z : Q) (d : ApproachDlg),
    aborted d = false -> (error_state d <= 0)%Z ->
    (slice_counter d <= j)%nat -> (j < max_slices d)%nat ->
    (j - slice_counter d < fuel)%nat ->
    exists d',
      approach_loop fuel e (Some z) d = inr d'
      /\ slice_counter d' = j
      /\ aborted d' = true
      /\ z_mismatch d' = z_mismatch d
      /\ error_state d' = 0%Z
      /\ thickness d' = thickness d.
Proof.
  intros Hdur Hcode Hfault Hclean.
  assert (Ls : (full_cut_duration e - 5 <? 0)%Z = false)
    by (apply Z.ltb_ge; lia).
  induction fuel as [| fuel IH]; intros z d Ha He Hs Hm Hf; [lia |].
  cbn [approach_loop].
  assert (C : (slice_counter d <? max_slices d)%nat && negb (aborted d) = true).
  { rewrite Ha. cbn [negb]. rewrite andb_true_r. apply Nat.ltb_lt. lia. }
  rewrite C.
  assert (L0 : (0 <? error_state d)%Z = false) by (apply Z.ltb_ge; exact He).
  assert (Lc : (0 <? code)%Z = true) by (apply Z.ltb_lt; exact Hcode).
  destruct (Nat.eq_dec (slice_counter d) j) as [Ej | Nj].
  - rewrite Ej.
    destruct Hfault as [Hmv | [Hmv Hct]]; rewrite Hmv; dlg_simpl_goal.
    + rewrite Lc. eexists. split; [reflexivity |]. dlg_simpl_goal.
      repeat split; assumption.
    + rewrite L0, Ls, Hct. dlg_simpl_goal. rewrite Lc.
      eexists. split; [reflexivity |]. dlg_simpl_goal.
      repeat split; assumption.
  - rewrite (Hclean (slice_counter d)) by lia.
    cbn [move_fault cut_fault abort_clicked]. dlg_simpl_goal.
    rewrite Ls, !L0. dlg_simpl_goal.
    match goal with |- context [approach_loop fuel e (Some ?z') ?x] =>
      destruct (IH z' x) as (d' & E & S' & A' & Z' & E' & T')
    end; dlg_simpl_goal; try assumption; try lia.
    exists d'. split; [exact E |]. dlg_simpl.
    repeat split; assumption.
Qed.

(** *** What a run shows the user *)

Lemma run_approach_boxes (e : env) (d0 : ApproachDlg) :
  (5 <= full_cut_duration e)%Z
  \/ aborted (snd (approach_startup e (start_approach d0))) = true ->
  let d1 := approach_thread e (start_approach d0) in
  boxes (trace (run_approach e d0)) =
  (if clear_failed e d1 then [WarnClearKnifeFailed] else [])
    ++ [outcome_box d1].
Proof.
  intros H. cbv zeta.
  destruct (run_approach_trace e d0 H) as (_ & evs & Q & T1 & T2).
  rewrite T2, T1.
  change (QueuePut "STATUS BUSY APPROACH" :: evs ++ [FinishTrigger])
    with ([QueuePut "STATUS BUSY APPROACH"] ++ evs ++ [FinishTrigger]).
  rewrite !boxes_app, (quiet_no_boxes evs Q), boxes_report_events.
  destruct (clear_failed e (approach_thread e (start_approach d0)));
    reflexivity.
Qed.

Lemma outcome_box_reported (d : ApproachDlg) :
  In (Box (outcome_box d)) (report_events d).
Proof.
  unfold report_events, outcome_box.
  destruct (aborted d), (z_mismatch d); cbn; auto.
Qed.

(** C8. With a full cut of five seconds or more (so that [sleep] does not
    raise), on every exit of the approach loop the thread emits the finish
    trigger once and its slot runs once: [clear_knife] is called exactly once
    in the run; if the register then shows an error, that is logged, the
    register is reset and a warning is shown, and in either case the box
    reporting the outcome the thread left (completed, Z mismatch, or aborted
    with the slices cut so far) is shown afterwards, as the last box. *)
Theorem C8_knife_cleared_once_outcome_kept (e : env) (d0 : ApproachDlg) :
  (5 <= full_cut_duration e)%Z ->
  let d1 := approach_thread e (start_approach d0) in
  let d2 := run_approach e d0 in
  d2 = finish_approach e d1
  /\ length (List.filter is_clear_knife (trace d2)) = 1%nat
  /\ boxes (trace d2) =
     (if clear_failed e d1 then [WarnClearKnifeFailed] else [])
       ++ [outcome_box d1]
  /\ (clear_failed e d1 = true ->
      exists pre post,
        trace d2 = pre ++ Hw ClearKnife :: clear_failure_events ++ post
        /\ In (Box (outcome_box d1)) post).
Proof.
  intros Hdur. cbv zeta.
  destruct (run_approach_trace e d0 (or_introl Hdur)) as (D & evs & Q & T1 & T2).
  split; [exact D |]. split; [| split].
  - rewrite T2, T1.
    change (QueuePut "STATUS BUSY APPROACH" :: evs ++ [FinishTrigger])
      with ([QueuePut "STATUS BUSY APPROACH"] ++ evs ++ [FinishTrigger]).
    rewrite !List.filter_app, (quiet_no_clear evs Q), no_clear_in_report.
    destruct (clear_failed e (approach_thread e (start_approach d0)));
      reflexivity.
  - apply run_approach_boxes. left. exact Hdur.
  - intros F. rewrite T2, F.
    exists (trace (approach_thread e (start_approach d0))
              ++ [Log (Text "3VIEW: Clearing knife.")]).
    exists (QueuePut "STATUS IDLE"
              :: report_events (approach_thread e (start_approach d0))).
    split.
    + rewrite <- !app_assoc. reflexivity.
    + right. apply outcome_box_reported.
Qed.

Lemma C8_knife_cleared_once_outcome_kept_witness :
  (5 <= full_cut_duration mismatch_at_start)%Z
  /\ length (List.filter is_clear_knife
               (trace (run_approach mismatch_at_start five_slices))) = 1%nat
  /\ boxes (trace (run_approach mismatch_at_start five_slices)) =
     [WarnClearKnifeFailed; WarnZMismatch].
Proof.
  assert (H : (5 <= full_cut_duration mismatch_at_start)%Z) by (cbn; lia).
  split; [exact H |].
  destruct (C8_knife_cleared_once_outcome_kept mismatch_at_start five_slices H)
    as (_ & C & B & _).
  split; [exact C | exact B].
Defined.

(** Error 206 left in the register by the first read of the Z position is
    the Z mismatch: no slice is cut and 'Z position mismatch' is shown. *)
Lemma mismatch_at_first_read (e : env) (d0 : ApproachDlg) (z0 : Q) :
  z_read_1 e = (Some z0, Some 206%Z) -> 0 <= z0 ->
  let d1 := approach_thread e (start_approach d0) in
  slice_counter d1 = 0%nat
  /\ z_mismatch d1 = true
  /\ boxes (trace (run_approach e d0)) =
     (if clear_failed e d1 then [WarnClearKnifeFailed] else [])
       ++ [WarnZMismatch].
Proof.
  intros H1 Hz. cbv zeta.
  assert (St : exists ds,
             approach_startup e (start_approach d0) = (Some z0, ds)
             /\ slice_counter ds = 0%nat
             /\ aborted ds = true
             /\ z_mismatch ds = true).
  { unfold approach_startup.
    destruct (init_run_facts (start_approach d0))
      as (_ & _ & _ & _ & S0 & _ & _ & _).
    generalize dependent (init_run (start_approach d0)). intros d S0.
    rewrite (read_z_position_readable e d z0 _ H1 Hz).
    unfold check_z_mismatch. dlg_simpl_goal. cbn [Z.eqb Pos.eqb].
    destruct (abort_before_near e); dlg_simpl_goal;
      unfold move_knife_near; dlg_simpl_goal;
      destruct (abort_before_loop e); dlg_simpl_goal;
      (eexists; split; [reflexivity |]); dlg_simpl_goal; auto. }
  destruct St as (ds & E & S & A & Zm).
  assert (Ab : aborted (snd (approach_startup e (start_approach d0))) = true)
    by (rewrite E; exact A).
  assert (F : approach_thread e (start_approach d0) = emit FinishTrigger ds).
  { unfold approach_thread. rewrite E.
    rewrite approach_loop_aborted by exact A. reflexivity. }
  rewrite (run_approach_boxes e d0 (or_intror Ab)), F.
  unfold outcome_box. dlg_simpl_goal. rewrite A, Zm.
  repeat split; assumption.
Qed.

(** C3. In a run that reaches the loop (not aborted after the start of the
    thread, whichever read gave the Z position) with a full cut of five
    seconds or more, if a fault (any positive code, 206 included) is seen in
    cycle k, by the move or by the cut, after k-1 cycles without fault or
    abort, the loop halts before incrementing the counter for cycle k: the
    thread ends with the counter at k-1, the run aborted, the register reset
    and the Z mismatch flag not set, and the run is reported as 'Approach
    aborted' with k-1 slices cut. *)
Theorem C3_fault_in_cycle_k_keeps_k_minus_1
    (e : env) (d0 : ApproachDlg) (k : nat) (code : Z) :
  (5 <= full_cut_duration e)%Z ->
  aborted (snd (approach_startup e (start_approach d0))) = false ->
  (1 <= k <= spinBox_numberSlices d0)%nat ->
  (forall i, (i < k - 1)%nat -> cycle e i = mkCycleEnv None None false) ->
  (0 < code)%Z ->
  fault_observed (cycle e (k - 1)) code ->
  let d1 := approach_thread e (start_approach d0) in
  slice_counter d1 = (k - 1)%nat
  /\ aborted d1 = true
  /\ z_mismatch d1 = false
  /\ error_state d1 = 0%Z
  /\ boxes (trace (run_approach e d0)) =
     (if clear_failed e d1 then [WarnClearKnifeFailed] else [])
       ++ [WarnApproachAborted (k - 1) (spinBox_thickness d0)].
Proof.
  intros Hdur Hloop Hk Hclean Hcode Hfault. cbv zeta.
  assert (F : slice_counter (approach_thread e (start_approach d0)) = (k - 1)%nat
              /\ aborted (approach_thread e (start_approach d0)) = true
              /\ z_mismatch (approach_thread e (start_approach d0)) = false
              /\ error_state (approach_thread e (start_approach d0)) = 0%Z
              /\ thickness (approach_thread e (start_approach d0)) =
                 spinBox_thickness d0).
  { unfold approach_thread.
    destruct (approach_startup_reaches_loop e (start_approach d0) Hloop)
      as (z0 & ds & E & S & A & Zm & Er & M & T).
    rewrite E. cbn [start_approach spinBox_numberSlices spinBox_thickness] in *.
    destruct (approach_loop_fault e (k - 1) code Hdur Hcode Hfault Hclean
                (max_slices ds) z0 ds)
      as (d' & E' & S' & A' & Zm' & Er' & T'); try assumption; try lia.
    rewrite E'. dlg_simpl_goal. repeat split; congruence. }
  destruct F as (S & A & Zm & Er & T).
  repeat split; try assumption.
  rewrite (run_approach_boxes e d0 (or_introl Hdur)). unfold outcome_box.
  rewrite A, Zm, S, T. reflexivity.
Qed.

Lemma C3_fault_in_cycle_k_keeps_k_minus_1_witness :
  (let d1 := approach_thread error_206_in_cycle_3 (start_approach five_slices) in
   slice_counter d1 = (3 - 1)%nat
   /\ aborted d1 = true
   /\ z_mismatch d1 = false
   /\ error_state d1 = 0%Z
   /\ boxes (trace (run_approach error_206_in_cycle_3 five_slices)) =
      (if clear_failed error_206_in_cycle_3 d1
       then [WarnClearKnifeFailed] else [])
        ++ [WarnApproachAborted (3 - 1) (spinBox_thickness five_slices)])
  /\ (let d1 := approach_thread error_206_after_second_read
                  (start_approach five_slices) in
      slice_counter d1 = (3 - 1)%nat
      /\ aborted d1 = true
      /\ z_mismatch d1 = false
      /\ error_state d1 = 0%Z
      /\ boxes (trace (run_approach error_206_after_second_read five_slices)) =
         (if clear_failed error_206_after_second_read d1
          then [WarnClearKnifeFailed] else [])
           ++ [WarnApproachAborted (3 - 1) (spinBox_thickness five_slices)]).
Proof.
  split.
  - apply (C3_fault_in_cycle_k_keeps_k_minus_1
             error_206_in_cycle_3 five_slices 3 206).
    + cbn. lia.
    + vm_compute. reflexivity.
    + cbn. lia.
    + intros i Hi. destruct i as [| [| i]]; [reflexivity | reflexivity |].
      cbn in Hi. lia.
    + lia.
    + left. reflexivity.
  - apply (C3_fault_in_cycle_k_keeps_k_minus_1
             error_206_after_second_read five_slices 3 206).
    + cbn. lia.
    + vm_compute. reflexivity.
    + cbn. lia.
    + intros i Hi. destruct i as [| [| i]]; [reflexivity | reflexivity |].
      cbn in Hi. lia.
    + lia.
    + left. reflexivity.
Defined.

(** C3, counterexample to the report as a Z mismatch: with error 206 left
    by the move of cycle 3 of 5 the counter ends at 2, but the Z mismatch
    flag stays unset and the user is shown 'Approach aborted' with 2 slices,
    not 'Z position mismatch'. *)
Lemma C3_error_206_in_loop_not_reported_as_mismatch :
  let d1 := approach_thread error_206_in_cycle_3 (start_approach five_slices) in
  slice_counter d1 = 2%nat
  /\ z_mismatch d1 = false
  /\ boxes (trace (run_approach error_206_in_cycle_3 five_slices)) =
     [WarnApproachAborted 2 100]
  /\ ~ In WarnZMismatch
        (boxes (trace (run_approach error_206_in_cycle_3 five_slices))).
Proof.
  cbv zeta. repeat split; try (vm_compute; reflexivity).
  vm_compute. intros [H | []]. discriminate H.
Qed.

(** The three ways out of a run, computed. *)
Example run_completed :
  slice_counter (approach_thread no_trouble (start_approach five_slices)) = 5%nat
  /\ boxes (trace (run_approach no_trouble five_slices))
     = [InfoApproachFinished 5 100].
Proof. split; vm_compute; reflexivity. Qed.

Example run_aborted_by_user :
  slice_counter (approach_thread abort_in_cycle_2 (start_approach five_slices))
    = 2%nat
  /\ boxes (trace (run_approach abort_in_cycle_2 five_slices))
     = [WarnApproachAborted 2 100].
Proof. split; vm_compute; reflexivity. Qed.

Example run_with_mismatch_and_failed_clear :
  boxes (trace (run_approach mismatch_at_start five_slices))
    = [WarnClearKnifeFailed; WarnZMismatch]
  /\ length (List.filter is_clear_knife
               (trace (run_approach mismatch_at_start five_slices))) = 1%nat.
Proof. split; vm_compute; reflexivity. Qed.

End ApproachProperties.

Section MotorTestProperties.

Import MotorTest.
Local Open Scope Q_scope.

Ltac mt_simpl :=
  cbn [start_z aborted number_tests number_errors error_state error_info
       logfile commands shown set_counters set_register set_logfile
       logfile_write box hw reset_error_state fst snd].

(** *** The clamp *)

Lemma Qltb_true (a b : Q) : Qltb a b = true <-> a < b.
Proof.
  unfold Qltb. rewrite negb_true_iff. split.
  - intros H. apply Qnot_le_lt. intros L.
    apply Qle_bool_iff in L. congruence.
  - intros H. destruct (Qle_bool b a) eqn:E; [| reflexivity].
    apply Qle_bool_iff in E. lra.
Qed.

Lemma Qltb_false (a b : Q) : Qltb a b = false <-> b <= a.
Proof.
  unfold Qltb. rewrite negb_false_iff. apply Qle_bool_iff.
Qed.

Lemma Qabs_zero_le_600 : Qabs 0 <= 600.
Proof. apply Qabs_Qle_condition. split; lra. Qed.

Lemma clamp_in_range (start : Q) (p : Q * Q * Q) :
  0 <= start -> start <= 600 ->
  let '(x, y, z) := clamp start p in in_range x y z.
Proof.
  intros H0 H600. destruct p as [[x y] z]. unfold clamp, in_range.
  destruct (Qltb 600 (Qabs x)) eqn:Bx; cbn [orb];
    [auto using Qabs_zero_le_600 |].
  destruct (Qltb 600 (Qabs y)) eqn:By; cbn [orb];
    [auto using Qabs_zero_le_600 |].
  apply Qltb_false in Bx, By.
  destruct (Qltb z 0) eqn:Bz.
  - destruct (Qltb 600 0) eqn:B0; [auto using Qabs_zero_le_600 |].
    repeat split; auto; lra.
  - apply Qltb_false in Bz.
    destruct (Qltb 600 z) eqn:B6; [auto using Qabs_zero_le_600 |].
    apply Qltb_false in B6. repeat split; auto.
Qed.

Lemma clamp_negative_z (start x y z : Q) :
  z < 0 -> Qabs x <= 600 -> Qabs y <= 600 ->
  clamp start (x, y, z) = (x, y, 0).
Proof.
  intros Hz Hx Hy. unfold clamp.
  apply Qltb_true in Hz. apply Qltb_false in Hx, Hy.
  rewrite Hz, Hx, Hy. reflexivity.
Qed.

Lemma clamp_out_of_range (start x y z : Q) :
  600 < Qabs x \/ 600 < Qabs y \/ 600 < z ->
  clamp start (x, y, z) = (0, 0, start).
Proof.
  intros H. unfold clamp.
  destruct H as [H | [H | H]].
  - apply Qltb_true in H. rewrite H. reflexivity.
  - apply Qltb_true in H. rewrite H, orb_true_r. reflexivity.
  - assert (Bz : Qltb z 0 = false) by (apply Qltb_false; lra).
    rewrite Bz. apply Qltb_true in H. rewrite H, !orb_true_r. reflexivity.
Qed.

(** *** One pass of the loop *)

(** What a pass does, case by case on the register after each move. *)
Lemma random_walk_step_cases (ie : iter_env) (p : Q * Q * Q) (d : MotorTestDlg) :
  let d' := snd (random_walk_step ie p d) in
  let '(x, y, z) := clamp (start_z d) (displaced ie (number_tests d) p) in
  fst (random_walk_step ie p d) = (x, y, z)
  /\ start_z d' = start_z d
  /\ number_tests d' = S (number_tests d)
  /\ ((xy_move_failed ie d = true
       /\ (exists info,
             logfile d' = logfile d ++ [Position x y z; ErrorDuringXYMove info])
       /\ commands d' = commands d ++ [MoveStageToXY x y; ResetErrorState]
       /\ number_errors d' = S (number_errors d))
      \/ (xy_move_failed ie d = false
          /\ (exists info,
                logfile d' = logfile d ++ [Position x y z; ErrorDuringZMove info])
          /\ commands d' = commands d
               ++ [MoveStageToXY x y; MoveStageToZ z false; ResetErrorState]
          /\ number_errors d' = S (number_errors d))
      \/ (xy_move_failed ie d = false
          /\ logfile d' = logfile d ++ [Position x y z; OK]
          /\ commands d' = commands d
               ++ [MoveStageToXY x y; MoveStageToZ z false]
          /\ number_errors d' = number_errors d)).
Proof.
  cbv zeta. unfold random_walk_step, xy_move_failed.
  destruct (clamp (start_z d) (displaced ie (number_tests d) p)) as [[x y] z].
  destruct (xy_fault ie) as [[cxy ixy] |]; mt_simpl.
  - destruct (0 <? cxy)%Z eqn:Exy; mt_simpl.
    + repeat split; try lia. left. repeat split; try lia.
      * eexists. rewrite <- app_assoc. reflexivity.
      * rewrite <- app_assoc. reflexivity.
    + destruct (z_fault ie) as [[cz iz] |]; mt_simpl;
        [destruct (0 <? cz)%Z eqn:Ez | rewrite Exy]; mt_simpl;
        repeat split; try lia; right;
        first [ left; repeat split; try lia;
                [eexists; rewrite <- app_assoc; reflexivity
                | rewrite <- !app_assoc; reflexivity]
              | right; repeat split; try lia;
                rewrite <- ?app_assoc; reflexivity ].
  - destruct (0 <? error_state d)%Z eqn:Exy; mt_simpl.
    + repeat split; try lia. left. repeat split; try lia.
      * eexists. rewrite <- app_assoc. reflexivity.
      * rewrite <- app_assoc. reflexivity.
    + destruct (z_fault ie) as [[cz iz] |]; mt_simpl;
        [destruct (0 <? cz)%Z eqn:Ez | rewrite Exy]; mt_simpl;
        repeat split; try lia; right;
        first [ left; repeat split; try lia;
                [eexists; rewrite <- app_assoc; reflexivity
                | rewrite <- !app_assoc; reflexivity]
              | right; repeat split; try lia;
                rewrite <- ?app_assoc; reflexivity ].
Qed.

Lemma count_app {A : Type} (f : A -> bool) (l1 l2 : list A) :
  count f (l1 ++ l2) = (count f l1 + count f l2)%nat.
Proof. unfold count. rewrite List.filter_app, length_app. reflexivity. Qed.

(** A pass writes one outcome line, and the error counter follows the
    error lines. *)
Lemma random_walk_step_counts (ie : iter_env) (p : Q * Q * Q) (d : MotorTestDlg) :
  let d' := snd (random_walk_step ie p d) in
  (number_errors d' + count is_error_line (logfile d)
   = number_errors d + count is_error_line (logfile d'))%nat
  /\ count is_outcome_line (logfile d') = S (count is_outcome_line (logfile d))
  /\ number_tests d' = S (number_tests d).
Proof.
  cbv zeta. pose proof (random_walk_step_cases ie p d) as H. cbv zeta in H.
  destruct (clamp (start_z d) (displaced ie (number_tests d) p)) as [[x y] z].
  destruct H as (_ & _ & T & [(_ & [i L] & _ & N) | [(_ & [i L] & _ & N)
                                                     | (_ & L & _ & N)]]);
    rewrite L, N, !count_app; cbn; lia.
Qed.

(** A pass keeps the log and the commands within the limits. *)
Lemma random_walk_step_in_range (ie : iter_env) (p : Q * Q * Q) (d : MotorTestDlg) :
  0 <= start_z d -> start_z d <= 600 ->
  let d' := snd (random_walk_step ie p d) in
  start_z d' = start_z d
  /\ (Forall line_in_range (logfile d) -> Forall line_in_range (logfile d'))
  /\ (Forall call_in_range (commands d) -> Forall call_in_range (commands d')).
Proof.
  intros H0 H600. cbv zeta.
  pose proof (random_walk_step_cases ie p d) as H. cbv zeta in H.
  pose proof (clamp_in_range (start_z d) (displaced ie (number_tests d) p)
                H0 H600) as R.
  destruct (clamp (start_z d) (displaced ie (number_tests d) p)) as [[x y] z].
  destruct R as (Rx & Ry & Rz0 & Rz6).
  destruct H as (_ & S & _ & [(_ & [i L] & C & _) | [(_ & [i L] & C & _)
                                                    | (_ & L & C & _)]]);
    rewrite L, C; (split; [exact S |]);
    split; intros F; apply Forall_app; (split; [exact F |]);
    repeat constructor; assumption.
Qed.

(** *** The loop and the thread *)

Lemma random_walk_loop_counts (envs : list iter_env) :
  forall (p : Q * Q * Q) (d : MotorTestDlg),
    let d' := random_walk_loop envs p d in
    (number_errors d' + count is_error_line (logfile d)
     = number_errors d + count is_error_line (logfile d'))%nat
    /\ count is_outcome_line (logfile d')
       = (count is_outcome_line (logfile d) + length envs)%nat
    /\ number_tests d' = (number_tests d + length envs)%nat.
Proof.
  induction envs as [| ie envs IH]; intros p d; cbn [random_walk_loop length].
  - cbv zeta. lia.
  - pose proof (random_walk_step_counts ie p d) as S. cbv zeta in S.
    destruct (random_walk_step ie p d) as [p1 d1]. cbn [snd] in S.
    specialize (IH p1 d1). cbv zeta in *. lia.
Qed.

Lemma random_walk_loop_in_range (envs : list iter_env) :
  forall (p : Q * Q * Q) (d : MotorTestDlg),
    0 <= start_z d -> start_z d <= 600 ->
    let d' := random_walk_loop envs p d in
    start_z d' = start_z d
    /\ (Forall line_in_range (logfile d) -> Forall line_in_range (logfile d'))
    /\ (Forall call_in_range (commands d) -> Forall call_in_range (commands d')).
Proof.
  induction envs as [| ie envs IH]; intros p d H0 H600; cbn [random_walk_loop].
  - cbv zeta. auto.
  - pose proof (random_walk_step_in_range ie p d H0 H600) as S. cbv zeta in S.
    destruct (random_walk_step ie p d) as [p1 d1]. cbn [snd] in S.
    destruct S as (S & L & C).
    destruct (IH p1 d1) as (S' & L' & C'); [rewrite S; assumption .. |].
    cbv zeta. split; [congruence |]. auto.
Qed.

Lemma test_finished_keeps_log (back_fault : option (Z * string))
    (d : MotorTestDlg) :
  logfile (test_finished back_fault d) = logfile d
  /\ number_errors (test_finished back_fault d) = number_errors d
  /\ number_tests (test_finished back_fault d) = number_tests d.
Proof.
  unfold test_finished.
  destruct back_fault as [[c i] |]; mt_simpl;
    match goal with |- context [(0 <? ?c)%Z] => destruct (0 <? c)%Z end;
    mt_simpl; destruct (aborted d); mt_simpl; auto.
Qed.

Lemma test_finished_commands (back_fault : option (Z * string))
    (d : MotorTestDlg) :
  commands (test_finished back_fault d) =
    commands d ++ [MoveStageToZ (start_z d) false]
  \/ commands (test_finished back_fault d) =
    commands d ++ [MoveStageToZ (start_z d) false; ResetErrorState].
Proof.
  unfold test_finished.
  destruct back_fault as [[c i] |]; mt_simpl;
    match goal with |- context [(0 <? ?c)%Z] => destruct (0 <? c)%Z end;
    mt_simpl; destruct (aborted d); mt_simpl; rewrite <- ?app_assoc; auto.
Qed.

Lemma random_walk_thread_in_range (envs : list iter_env) (d : MotorTestDlg) :
  0 <= start_z d -> start_z d <= 600 ->
  Forall call_in_range (commands d) ->
  let d' := random_walk_thread envs d in
  start_z d' = start_z d
  /\ Forall line_in_range (logfile d')
  /\ Forall call_in_range (commands d').
Proof.
  intros H0 H600 HC. cbv zeta. unfold random_walk_thread.
  destruct (random_walk_loop_in_range envs
              (0, 0, start_z (set_logfile [] (set_counters 0 0 d)))
              (set_logfile [] (set_counters 0 0 d)) H0 H600)
    as (S & L & C).
  mt_simpl. split; [exact S |]. split.
  - apply Forall_app. split; [apply L; constructor | repeat constructor].
  - apply C. exact HC.
Qed.

(** C4. In every motor test whose starting z lies in [0, 600], every
    position written to the log file and every position sent to the
    hardware, the final move back included, has |x| <= 600, |y| <= 600 and
    0 <= z <= 600.  The position a pass logs and sends is the clamped one:
    a negative z becomes 0, and a position with |x| > 600, |y| > 600 or
    z > 600 becomes (0, 0, start_z). *)
Theorem C4_positions_within_bounds
    (z : Q) (envs : list iter_env) (abort_clicked : bool)
    (back_fault : option (Z * string)) (d : MotorTestDlg) :
  0 <= z -> z <= 600 ->
  let d' := run_motor_test z envs abort_clicked back_fault d in
  Forall line_in_range (logfile d')
  /\ Forall call_in_range (commands d')
  /\ (forall ie p d0,
        fst (random_walk_step ie p d0)
        = clamp (start_z d0) (displaced ie (number_tests d0) p))
  /\ (forall x y z', z' < 0 -> Qabs x <= 600 -> Qabs y <= 600 ->
        clamp z (x, y, z') = (x, y, 0))
  /\ (forall x y z', 600 < Qabs x \/ 600 < Qabs y \/ 600 < z' ->
        clamp z (x, y, z') = (0, 0, z)).
Proof.
  intros H0 H600. cbv zeta.
  destruct (random_walk_thread_in_range envs (start_random_walk z d))
    as (S & L & C); try assumption; [constructor |].
  cbn [start_random_walk start_z] in S.
  split; [| split; [| split; [| split]]].
  - unfold run_motor_test.
    match goal with |- context [test_finished _ ?x] =>
      destruct (test_finished_keeps_log back_fault x) as (E & _) end.
    rewrite E. exact L.
  - unfold run_motor_test.
    match goal with |- context [test_finished _ ?x] =>
      destruct (test_finished_commands back_fault x) as [E | E] end;
      rewrite E; mt_simpl; rewrite S;
      (apply Forall_app; split; [exact C | repeat constructor; assumption]).
  - intros ie p d0.
    pose proof (random_walk_step_cases ie p d0) as H. cbv zeta in H.
    destruct (clamp (start_z d0) (displaced ie (number_tests d0) p))
      as [[x y] z'].
    apply H.
  - intros x y z'. apply clamp_negative_z.
  - intros x y z'. apply clamp_out_of_range.
Qed.

Lemma C4_positions_within_bounds_witness :
  Forall line_in_range
    (logfile (run_motor_test 10 sample_walk false None fresh_dialog)).
Proof.
  apply (C4_positions_within_bounds 10 sample_walk false None fresh_dialog);
    lra.
Defined.

Lemma random_walk_thread_counts (envs : list iter_env) (d : MotorTestDlg) :
  let d' := random_walk_thread envs d in
  exists body,
    logfile d' = body ++ [NumberOfErrors (number_errors d')]
    /\ number_errors d' = count is_error_line body
    /\ count is_outcome_line body = length envs
    /\ number_tests d' = length envs.
Proof.
  cbv zeta. unfold random_walk_thread.
  destruct (random_walk_loop_counts envs
              (0, 0, start_z (set_logfile [] (set_counters 0 0 d)))
              (set_logfile [] (set_counters 0 0 d))) as (E & O & T).
  set (dl := random_walk_loop envs _ _) in *.
  cbn [logfile number_errors number_tests set_logfile set_counters] in E, O, T.
  unfold count in E at 1. unfold count in O at 2.
  cbn [List.filter length] in E, O.
  exists (logfile dl). mt_simpl. repeat split; lia.
Qed.

(** C5. At the end of every motor test the log is the lines of the passes
    followed by the summary line, the summary line carries the error
    counter, and the error counter is the number of error lines (outcome
    lines other than OK) among the lines of the passes, one outcome line
    being written per pass. *)
Theorem C5_error_count_matches_log
    (z : Q) (envs : list iter_env) (abort_clicked : bool)
    (back_fault : option (Z * string)) (d : MotorTestDlg) :
  let d' := run_motor_test z envs abort_clicked back_fault d in
  exists body,
    logfile d' = body ++ [NumberOfErrors (number_errors d')]
    /\ number_errors d' = count is_error_line body
    /\ number_errors d' = count is_error_line (logfile d')
    /\ count is_outcome_line body = length envs
    /\ number_tests d' = length envs.
Proof.
  cbv zeta. unfold run_motor_test.
  match goal with |- context [test_finished _ ?x] =>
    destruct (test_finished_keeps_log back_fault x) as (L & N & T) end.
  rewrite L, N, T. cbn [logfile number_errors number_tests].
  destruct (random_walk_thread_counts envs (start_random_walk z d))
    as (body & B & E & O & T').
  cbv zeta in B, E, O, T'.
  exists body. rewrite B at 2. rewrite count_app. cbn.
  rewrite Nat.add_0_r. repeat split; assumption.
Qed.

(** C10. A pass of the loop appends the position and exactly one outcome
    line (OK, XY error or Z error) to the log and adds one to the error
    counter exactly when that line is an error line, so at most one; when
    the register shows an error after the XY move, the outcome is the XY
    error line and the only calls are the XY move and the reset: the Z move
    is not made. *)
Theorem C10_one_outcome_per_iteration
    (ie : iter_env) (p : Q * Q * Q) (d : MotorTestDlg) :
  let d' := snd (random_walk_step ie p d) in
  let '(x, y, z) := fst (random_walk_step ie p d) in
  (exists outcome,
      is_outcome_line outcome = true
      /\ logfile d' = logfile d ++ [Position x y z; outcome]
      /\ number_errors d'
         = (number_errors d + if is_error_line outcome then 1 else 0)%nat)
  /\ (number_errors d <= number_errors d' <= number_errors d + 1)%nat
  /\ (xy_move_failed ie d = true ->
      (exists info,
          logfile d' = logfile d ++ [Position x y z; ErrorDuringXYMove info])
      /\ exists calls,
          commands d' = commands d ++ calls
          /\ calls = [MoveStageToXY x y; ResetErrorState]
          /\ count is_move_z calls = 0%nat).
Proof.
  cbv zeta. pose proof (random_walk_step_cases ie p d) as H. cbv zeta in H.
  destruct (clamp (start_z d) (displaced ie (number_tests d) p)) as [[x y] z].
  destruct H as (F & _ & _ & H). rewrite F.
  destruct H as [(X & [i L] & C & N) | [(X & [i L] & C & N) | (X & L & C & N)]].
  - split; [| split].
    + eexists. split; [| split; [exact L |]]; [reflexivity | cbn; lia].
    + lia.
    + intros _. split; [eauto |]. eexists. split; [exact C |]. split; reflexivity.
  - split; [| split].
    + eexists. split; [| split; [exact L |]]; [reflexivity | cbn; lia].
    + lia.
    + rewrite X. discriminate.
  - split; [| split].
    + eexists. split; [| split; [exact L |]]; [reflexivity | cbn; lia].
    + lia.
    + rewrite X. discriminate.
Qed.

(** The sample walk from z = 0: the first pass computes z = -0.08 and logs
    0; the faulty passes log one error line each. *)
Example sample_walk_from_zero :
  logfile (run_motor_test 0 sample_walk false None fresh_dialog) =
  [ Position 120.00 0.00 0; OK;
    Position 120.0000 0.0000 0.025; ErrorDuringXYMove "XY timeout";
    Position 120.000000 0.000000 0.025000; ErrorDuringZMove "Z timeout";
    NumberOfErrors 2 ].
Proof. vm_compute. reflexivity. Qed.

Example sample_walk_commands :
  commands (run_motor_test 10 sample_walk false None fresh_dialog) =
  [ MoveStageToXY 120.00 0.00; MoveStageToZ 9.920 false;
    MoveStageToXY 120.0000 0.0000; ResetErrorState;
    MoveStageToXY 120.000000 0.000000; MoveStageToZ 9.945000000 false;
    ResetErrorState; MoveStageToZ 10 false ].
Proof. vm_compute. reflexivity. Qed.

Example clamp_resets_beyond_600 : clamp 10 (650, 0, 5) = (0, 0, 10).
Proof. reflexivity. Qed.

Example clamp_lifts_negative_z : clamp 10 (7, -3, -0.08) = (7, -3, 0).
Proof. reflexivity. Qed.

End MotorTestProperties.

Section DialogGuardProperties.

Import DialogGuards.

Lemma guarded_flag (self : gmap string pyval) (attr : string) (b : bool) :
  self !! attr = Some (PyBool b) ->
  guarded self attr = if b then StaysOpen else Closes.
Proof. intros H. unfold guarded. rewrite H. destruct b; reflexivity. Qed.

Lemma guarded_missing (self : gmap string pyval) (attr : string) :
  self !! attr = None -> guarded self attr = Raises "AttributeError" attr.
Proof. intros H. unfold guarded. rewrite H. reflexivity. Qed.

(** The stage calibration dialog: all three handlers follow [busy]. *)
Lemma StageCalibrationDlg_guards (self : gmap string pyval) (b : bool) :
  let self' := StageCalibrationDlg_set_busy b self in
  StageCalibrationDlg_accept self' = (if b then StaysOpen else Closes)
  /\ StageCalibrationDlg_reject self' = (if b then StaysOpen else Closes)
  /\ StageCalibrationDlg_closeEvent self' = (if b then StaysOpen else Closes).
Proof.
  cbv zeta.
  unfold StageCalibrationDlg_accept, StageCalibrationDlg_reject,
    StageCalibrationDlg_closeEvent, StageCalibrationDlg_set_busy.
  rewrite (guarded_flag _ "busy" b) by apply lookup_insert_eq. auto.
Qed.

(** The approach dialog: both handlers follow [approach_in_progress]. *)
Lemma ApproachDlg_guards (self : gmap string pyval) (b : bool) :
  let self' := ApproachDlg_set_in_progress b self in
  ApproachDlg_closeEvent self' = (if b then StaysOpen else Closes)
  /\ ApproachDlg_accept self' = (if b then StaysOpen else Closes).
Proof.
  cbv zeta.
  unfold ApproachDlg_closeEvent, ApproachDlg_accept,
    ApproachDlg_set_in_progress.
  rewrite (guarded_flag _ "approach_in_progress" b) by apply lookup_insert_eq.
  auto.
Qed.

(** The motor test dialog: the close request follows [test_in_progress]. *)
Lemma MotorTestDlg_closeEvent_guard (self : gmap string pyval) (b : bool) :
  MotorTestDlg_closeEvent (MotorTestDlg_set_in_progress b self)
  = if b then StaysOpen else Closes.
Proof.
  unfold MotorTestDlg_closeEvent, MotorTestDlg_set_in_progress.
  apply guarded_flag, lookup_insert_eq.
Qed.

(** Its [accept] reads a flag that raising and lowering the flag of the
    test never creates. *)
Lemma MotorTestDlg_accept_raises (self : gmap string pyval) (b : bool) :
  self !! "approach_in_progress" = None ->
  MotorTestDlg_accept (MotorTestDlg_set_in_progress b self)
  = Raises "AttributeError" "approach_in_progress".
Proof.
  intros H. unfold MotorTestDlg_accept, MotorTestDlg_set_in_progress.
  apply guarded_missing. rewrite lookup_insert_ne by discriminate. exact H.
Qed.

(** C6. The motor test dialog, no test in progress, OK pressed: [accept]
    reads [approach_in_progress], an attribute this dialog never has, and
    raises instead of closing, as it does while a test runs; the same
    handler of the approach dialog closes its dialog, and the close request
    of the motor test dialog is honoured. *)
Theorem C6_motor_test_accept_raises :
  MotorTestDlg_accept MotorTestDlg_init
    = Raises "AttributeError" "approach_in_progress"
  /\ (forall b,
        MotorTestDlg_accept (MotorTestDlg_set_in_progress b MotorTestDlg_init)
        = Raises "AttributeError" "approach_in_progress")
  /\ MotorTestDlg_closeEvent MotorTestDlg_init = Closes
  /\ ApproachDlg_accept ApproachDlg_init = Closes.
Proof.
  split; [reflexivity |]. split; [| split; reflexivity].
  intros b. apply MotorTestDlg_accept_raises. reflexivity.
Qed.

End DialogGuardProperties.

Section StageCalibrationMore.

Import StageCalibration.
Local Open Scope R_scope.

Lemma py_truediv_some (a b q : R) :
  py_truediv a b = Some q -> b <> 0 /\ q = a / b.
Proof.
  unfold py_truediv. destruct (Req_dec_T b 0) as [E | N]; [discriminate |].
  intros [= <-]. split; [exact N | reflexivity].
Qed.

Lemma atan_nonneg (x : R) : 0 <= x -> 0 <= atan x.
Proof.
  intros [L | <-].
  - left. rewrite <- atan_0. now apply atan_increasing.
  - rewrite atan_0. apply Rle_refl.
Qed.

Lemma quotient_of_abs_nonneg (a b q : R) :
  py_truediv (Rabs a) (Rabs b) = Some q -> 0 <= q.
Proof.
  intros H. apply py_truediv_some in H. destruct H as [N ->].
  pose proof (Rabs_pos a) as Ha. pose proof (Rabs_pos b) as Hb.
  apply Rmult_le_pos; [exact Ha |]. left. apply Rinv_0_lt_compat. lra.
Qed.

Lemma scale_positive (shift pixel_size : Z) (n s : R) :
  (0 < shift)%Z -> (0 < pixel_size)%Z -> 0 <= n ->
  py_truediv (IZR shift) (n * IZR pixel_size / 1000) = Some s -> 0 < s.
Proof.
  intros Hs Hp Hn H. apply py_truediv_some in H. destruct H as [N ->].
  apply IZR_lt in Hs, Hp.
  assert (D : 0 <= n * IZR pixel_size / 1000).
  { apply Rmult_le_pos; [apply Rmult_le_pos; lra | lra]. }
  apply Rdiv_lt_0_compat; lra.
Qed.

(** When all four quotients have a nonzero divisor, the angles and the
    scale factors are in range. *)
Lemma parameters_in_range_when_defined
    (shift pixel_size : Z) (xv yv : R * R) (p : StageParams) :
  calculate_stage_parameters shift pixel_size xv yv = Some p ->
  0 <= rot_x p < PI / 2
  /\ 0 <= rot_y p < PI / 2
  /\ ((0 < shift)%Z -> (0 < pixel_size)%Z -> 0 < scale_x p /\ 0 < scale_y p).
Proof.
  unfold calculate_stage_parameters.
  destruct (py_truediv (Rabs (snd xv)) (Rabs (fst xv))) as [qx |] eqn:Ex;
    [| discriminate].
  destruct (py_truediv (Rabs (fst yv)) (Rabs (snd yv))) as [qy |] eqn:Ey;
    [| discriminate].
  cbn [mbind option_bind].
  destruct (py_truediv (IZR shift)
              (sqrt (Rabs (fst xv) ^ 2 + Rabs (snd xv) ^ 2)
               * IZR pixel_size / 1000)) as [sx |] eqn:Esx; [| discriminate].
  destruct (py_truediv (IZR shift)
              (sqrt (Rabs (fst yv) ^ 2 + Rabs (snd yv) ^ 2)
               * IZR pixel_size / 1000)) as [sy |] eqn:Esy; [| discriminate].
  cbn [mbind option_bind]. intros [= <-]. cbn [rot_x rot_y scale_x scale_y].
  apply quotient_of_abs_nonneg in Ex, Ey.
  repeat split.
  - now apply atan_nonneg.
  - apply atan_bound.
  - now apply atan_nonneg.
  - apply atan_bound.
  - apply (scale_positive shift pixel_size _ sx H H0 (sqrt_pos _) Esx).
  - apply (scale_positive shift pixel_size _ sy H H0 (sqrt_pos _) Esy).
Qed.

(** X1.  For shift vectors whose primary components are not zero and a
    pixel size that is not zero, the computation proposes parameters, both
    rotation angles are in [0, pi/2), and, for a positive shift and a
    positive pixel size, both scale factors are positive.  (With a zero
    primary component the quotient has a zero divisor: the automatic path,
    whose vectors are numpy floats, then goes on with inf; that run is not
    covered here.) *)
Theorem proposed_parameters_in_range
    (shift pixel_size : Z) (xv yv : R * R) :
  fst xv <> 0 -> snd yv <> 0 -> (pixel_size <> 0)%Z ->
  exists p,
    calculate_stage_parameters shift pixel_size xv yv = Some p
    /\ 0 <= rot_x p < PI / 2
    /\ 0 <= rot_y p < PI / 2
    /\ ((0 < shift)%Z -> (0 < pixel_size)%Z -> 0 < scale_x p /\ 0 < scale_y p).
Proof.
  intros Hx Hy Hp. destruct xv as [xx xy], yv as [yx yy]. cbn [fst snd] in *.
  eexists. split.
  - apply calculate_stage_parameters_defined; assumption.
  - apply (parameters_in_range_when_defined shift pixel_size (xx, xy) (yx, yy)).
    apply calculate_stage_parameters_defined; assumption.
Qed.

Lemma proposed_parameters_in_range_witness :
  fst (3, 4) <> 0 /\ snd (4, 3) <> 0 /\ (10 <> 0)%Z
  /\ exists p,
       calculate_stage_parameters 10 10 (3, 4) (4, 3) = Some p
       /\ 0 <= rot_x p < PI / 2
       /\ 0 <= rot_y p < PI / 2
       /\ ((0 < 10)%Z -> (0 < 10)%Z -> 0 < scale_x p /\ 0 < scale_y p).
Proof.
  assert (Hx : fst (3, 4) <> 0) by (cbn; lra).
  assert (Hy : snd (4, 3) <> 0) by (cbn; lra).
  assert (Hp : (10 <> 0)%Z) by lia.
  split; [exact Hx |]. split; [exact Hy |]. split; [exact Hp |].
  exact (proposed_parameters_in_range 10 10 (3, 4) (4, 3) Hx Hy Hp).
Defined.

(** X2.  The two paths agree: pixel positions typed in by hand give what the
    automatic path gives for the vectors between them, whatever their signs,
    as long as the manual path does not reject them. *)
Theorem manual_and_automatic_paths_agree
    (shift pixel_size x1x x1y x2x x2y y1x y1y y2x y2y : Z) :
  (x1x <> x2x)%Z -> (y1y <> y2y)%Z ->
  calculate_stage_parameters_from_user_input shift pixel_size
    x1x x1y x2x x2y y1x y1y y2x y2y
  = process_results shift pixel_size None
      (IZR (x1x - x2x), IZR (x1y - x2y)) (IZR (y1x - y2x), IZR (y1y - y2y)).
Proof.
  intros Hx Hy. unfold calculate_stage_parameters_from_user_input.
  destruct (Z.eqb_spec (Z.abs (x1x - x2x)) 0) as [E | _]; [lia |].
  destruct (Z.eqb_spec (Z.abs (y1y - y2y)) 0) as [E | _]; [lia |].
  cbn [orb]. unfold process_results, run_calculation,
    calculate_stage_parameters. cbn [fst snd].
  rewrite !abs_IZR, !Rabs_Rabsolu. reflexivity.
Qed.

Lemma manual_and_automatic_paths_agree_witness :
  calculate_stage_parameters_from_user_input 10 10 0 0 3 4 0 0 4 3
  = process_results 10 10 None
      (IZR (0 - 3), IZR (0 - 4)) (IZR (0 - 4), IZR (0 - 3)).
Proof.
  apply (manual_and_automatic_paths_agree 10 10 0 0 3 4 0 0 4 3); lia.
Defined.

(** X3.  With a nonzero pixel size the manual path never reaches a division by
    zero: it rejects exactly the inputs with a zero primary distance and
    proposes parameters for all others. *)
Theorem manual_path_rejects_or_proposes
    (shift pixel_size x1x x1y x2x x2y y1x y1y y2x y2y : Z) :
  (pixel_size <> 0)%Z ->
  let outcome := calculate_stage_parameters_from_user_input shift pixel_size
                   x1x x1y x2x x2y y1x y1y y2x y2y in
  ((x1x = x2x \/ y1y = y2y)%Z /\ outcome = InputRejected)
  \/ ((x1x <> x2x /\ y1y <> y2y)%Z /\ exists p, outcome = Proposed p).
Proof.
  intros Hp. cbv zeta.
  destruct (Z.eq_dec x1x x2x) as [Ex | Nx].
  { left. split; [auto |]. apply user_input_zero_primary_rejected. lia. }
  destruct (Z.eq_dec y1y y2y) as [Ey | Ny].
  { left. split; [auto |]. apply user_input_zero_primary_rejected. lia. }
  right. split; [auto |].
  unfold calculate_stage_parameters_from_user_input.
  destruct (Z.eqb_spec (Z.abs (x1x - x2x)) 0) as [E | _]; [lia |].
  destruct (Z.eqb_spec (Z.abs (y1y - y2y)) 0) as [E | _]; [lia |].
  cbn [orb]. unfold run_calculation.
  rewrite calculate_stage_parameters_defined;
    [eauto | apply not_0_IZR; lia | apply not_0_IZR; lia | exact Hp].
Qed.

Lemma manual_path_rejects_or_proposes_witness :
  let outcome :=
    calculate_stage_parameters_from_user_input 10 10 0 0 3 4 0 0 4 3 in
  ((0 = 3 \/ 0 = 3)%Z /\ outcome = InputRejected)
  \/ ((0 <> 3 /\ 0 <> 3)%Z /\ exists p, outcome = Proposed p).
Proof.
  apply (manual_path_rejects_or_proposes 10 10 0 0 3 4 0 0 4 3). lia.
Defined.

End StageCalibrationMore.

Section ApproachMore.

Import Approach.
Local Open Scope Q_scope.

Ltac dlg_cbn :=
  cbn [spinBox_numberSlices spinBox_thickness slice_counter max_slices
       thickness approach_in_progress aborted z_mismatch error_state trace
       set_slice_counter set_max_slices set_thickness
       set_approach_in_progress set_aborted set_z_mismatch set_error_state
       emit hw reset_error_state add_to_log queue_put box update_progress
       abort_approach when get_stage_z fst snd negb].

Lemma count_events_app (f : event -> bool) (l1 l2 : list event) :
  count_events f (l1 ++ l2) = (count_events f l1 + count_events f l2)%nat.
Proof.
  unfold count_events. rewrite List.filter_app, length_app. reflexivity.
Qed.

Lemma trace_hw (c : hw_call) (fault : option Z) (d : ApproachDlg) :
  trace (hw c fault d) = trace d ++ [Hw c]
  /\ slice_counter (hw c fault d) = slice_counter d
  /\ max_slices (hw c fault d) = max_slices d
  /\ approach_in_progress (hw c fault d) = approach_in_progress d.
Proof. destruct fault; repeat split. Qed.

Lemma keeps_refl (d : ApproachDlg) : keeps d d.
Proof. unfold keeps. auto. Qed.

Lemma keeps_trans (d1 d2 d3 : ApproachDlg) :
  keeps d1 d2 -> keeps d2 d3 -> keeps d1 d3.
Proof.
  intros (S1 & P1 & C1 & Z1) (S2 & P2 & C2 & Z2). unfold keeps.
  repeat split; congruence.
Qed.

(** A statement that appends events which are neither cuts nor Z moves. *)
Lemma keeps_by_trace (d d' : ApproachDlg) (evs : list event) :
  slice_counter d' = slice_counter d ->
  approach_in_progress d' = approach_in_progress d ->
  trace d' = trace d ++ evs ->
  count_events is_cut evs = 0%nat -> count_events is_z_move evs = 0%nat ->
  keeps d d'.
Proof.
  intros S P T C Z. unfold keeps. rewrite T, !count_events_app, C, Z.
  repeat split; auto.
Qed.

Lemma keeps_when_abort (b : bool) (d : ApproachDlg) :
  keeps d (when b abort_approach d).
Proof. unfold keeps. destruct b; repeat split. Qed.

Lemma read_z_position_keeps (e : env) (d : ApproachDlg) :
  keeps d (snd (read_z_position e d)).
Proof.
  unfold read_z_position.
  destruct (z_read_1 e) as [z1 f1], (z_read_2 e) as [z2 f2].
  cbn [get_stage_z fst snd].
  destruct (unreadable z1); [destruct (unreadable z2) |]; cbn [snd].
  - apply (keeps_by_trace _ _
             [Hw (GetStageZ 1); Hw (GetStageZ 2);
              Log (Text "CTRL: Error reading Z position. Approach aborted.");
              Hw ResetErrorState]);
      destruct f1, f2; dlg_cbn; rewrite <- ?app_assoc; reflexivity.
  - apply (keeps_by_trace _ _ [Hw (GetStageZ 1); Hw (GetStageZ 2)]);
      destruct f1, f2; dlg_cbn; rewrite <- ?app_assoc; reflexivity.
  - apply (keeps_by_trace _ _ [Hw (GetStageZ 1)]);
      destruct f1; dlg_cbn; reflexivity.
Qed.

Lemma check_z_mismatch_keeps (d : ApproachDlg) : keeps d (check_z_mismatch d).
Proof.
  unfold check_z_mismatch. destruct (error_state d =? 206)%Z.
  - apply (keeps_by_trace _ _
             [Hw ResetErrorState;
              Log (Text "CTRL: Z position mismatch. Approach aborted.");
              QueuePut "UPDATE Z"]);
      dlg_cbn; rewrite <- ?app_assoc; reflexivity.
  - apply (keeps_by_trace _ _ [QueuePut "UPDATE Z"]); reflexivity.
Qed.

Lemma move_knife_near_keeps (e : env) (d : ApproachDlg) :
  keeps d (move_knife_near e d).
Proof.
  unfold move_knife_near.
  destruct (negb (aborted d)); [| apply keeps_refl].
  match goal with |- context [if (0 <? error_state ?x)%Z then _ else _] =>
    destruct (0 <? error_state x)%Z end.
  - apply (keeps_by_trace _ _
             [Hw NearKnife;
              Log (Text "3VIEW: Moving knife to near position.");
              Log (Text "CTRL: Error moving knife to near position. Approach aborted.");
              Hw ResetErrorState]);
      destruct (near_fault e); dlg_cbn; rewrite <- ?app_assoc; reflexivity.
  - apply (keeps_by_trace _ _
             [Hw NearKnife;
              Log (Text "3VIEW: Moving knife to near position.")]);
      destruct (near_fault e); dlg_cbn; rewrite <- ?app_assoc; reflexivity.
Qed.

(** The start of the thread raises the flag of the run, zeroes the counter,
    and neither cuts nor moves in Z. *)
Lemma approach_startup_keeps (e : env) (d : ApproachDlg) :
  let ds := snd (approach_startup e d) in
  slice_counter ds = 0%nat
  /\ approach_in_progress ds = true
  /\ count_events is_cut (trace ds) = count_events is_cut (trace d)
  /\ count_events is_z_move (trace ds) = count_events is_z_move (trace d).
Proof.
  cbv zeta. unfold approach_startup.
  assert (I : slice_counter (init_run d) = 0%nat
              /\ approach_in_progress (init_run d) = true
              /\ trace (init_run d) = trace d ++ [ProgressTrigger])
    by (repeat split).
  destruct I as (S0 & P0 & T0).
  assert (C0 : count_events is_cut (trace (init_run d))
               = count_events is_cut (trace d)
               /\ count_events is_z_move (trace (init_run d))
                  = count_events is_z_move (trace d)).
  { rewrite T0, !count_events_app. cbn. lia. }
  destruct C0 as (C0 & Z0). clear T0.
  generalize dependent (init_run d). intros d0 S0 P0 C0 Z0.
  pose proof (read_z_position_keeps e d0) as K1.
  destruct (read_z_position e d0) as [z d1]. cbn [fst snd] in *.
  pose proof (check_z_mismatch_keeps d1) as K2.
  generalize dependent (check_z_mismatch d1). intros d2 K2.
  pose proof (keeps_when_abort (abort_before_near e) d2) as K3.
  generalize dependent (when (abort_before_near e) abort_approach d2).
  intros d3 K3.
  pose proof (move_knife_near_keeps e d3) as K4.
  generalize dependent (move_knife_near e d3). intros d4 K4.
  pose proof (keeps_when_abort (abort_before_loop e) d4) as K5.
  generalize dependent (when (abort_before_loop e) abort_approach d4).
  intros d5 K5.
  destruct (keeps_trans _ _ _ K1
              (keeps_trans _ _ _ K2
                (keeps_trans _ _ _ K3 (keeps_trans _ _ _ K4 K5))))
    as (S & P & C & Z).
  repeat split; congruence.
Qed.

(** The loop, however it ends: the counter stays within [max_slices]; each
    pass makes one Z move and at most one cut, and only a pass with a cut is
    counted. *)
Lemma approach_loop_counts (fuel : nat) (e : env) :
  forall (z_position : option Q) (d : ApproachDlg),
    (slice_counter d <= max_slices d)%nat ->
    let d' := state_of (approach_loop fuel e z_position d) in
    (slice_counter d' <= max_slices d')%nat
    /\ max_slices d' = max_slices d
    /\ approach_in_progress d' = approach_in_progress d
    /\ (count_events is_z_move (trace d') + slice_counter d
        <= count_events is_z_move (trace d) + max_slices d)%nat
    /\ (count_events is_cut (trace d') + count_events is_z_move (trace d)
        <= count_events is_cut (trace d) + count_events is_z_move (trace d'))%nat
    /\ (slice_counter d' + count_events is_cut (trace d)
        <= slice_counter d + count_events is_cut (trace d'))%nat.
Proof.
  induction fuel as [| fuel IH]; intros z_position d Hle; cbv zeta;
    cbn [approach_loop].
  - destruct ((slice_counter d <? max_slices d)%nat && negb (aborted d));
      cbn [state_of]; repeat split; lia.
  - destruct ((slice_counter d <? max_slices d)%nat && negb (aborted d)) eqn:C;
      [| cbn [state_of]; repeat split; lia].
    apply andb_prop in C. destruct C as [C _]. apply Nat.ltb_lt in C.
    destruct z_position as [z |].
    2:{ cbn [state_of]. dlg_cbn. rewrite !count_events_app. cbn.
        repeat split; lia. }
    set (c := cycle e (slice_counter d)).
    set (z' := z + inject_Z (thickness d) / 1000).
    match goal with |- context [if (0 <? error_state ?x)%Z then _ else _] =>
      set (d1 := x) end.
    assert (F1 : trace d1 = trace d
                   ++ [Log (MoveToNewZ z'); Hw (MoveStageToZ z');
                       QueuePut "UPDATE Z"]
                 /\ slice_counter d1 = slice_counter d
                 /\ max_slices d1 = max_slices d
                 /\ approach_in_progress d1 = approach_in_progress d).
    { subst d1. destruct (move_fault c); dlg_cbn; rewrite <- ?app_assoc;
        repeat split. }
    destruct F1 as (T1 & S1 & M1 & P1). clearbody d1.
    destruct (0 <? error_state d1)%Z.
    { cbn [state_of]. dlg_cbn. rewrite T1, S1, M1, P1, !count_events_app.
      cbn. repeat split; lia. }
    match goal with |- context [emit (PyRaise "ValueError") ?x] =>
      set (dc := x) end.
    assert (Fc : trace dc = trace d1
                   ++ [Log (CuttingInProgress (thickness d1));
                       Hw DoFullApproachCut]
                 /\ slice_counter dc = slice_counter d1
                 /\ max_slices dc = max_slices d1
                 /\ approach_in_progress dc = approach_in_progress d1).
    { subst dc. destruct (cut_fault c); dlg_cbn; rewrite <- ?app_assoc;
        repeat split. }
    destruct Fc as (Tc & Sc & Mc & Pc). clearbody dc.
    destruct (full_cut_duration e - 5 <? 0)%Z.
    { cbn [state_of]. dlg_cbn.
      rewrite Tc, T1, Sc, S1, Mc, M1, Pc, P1, !count_events_app.
      cbn. repeat split; lia. }
    match goal with |- context [if (0 <? error_state ?x)%Z then _ else _] =>
      set (d2 := x) end.
    assert (F2 : trace d2 = trace dc ++ [Sleep (full_cut_duration e - 5)]
                 /\ slice_counter d2 = slice_counter dc
                 /\ max_slices d2 = max_slices dc
                 /\ approach_in_progress d2 = approach_in_progress dc).
    { subst d2. repeat split. }
    destruct F2 as (T2 & S2 & M2 & P2). clearbody d2.
    destruct (0 <? error_state d2)%Z.
    { cbn [state_of]. dlg_cbn.
      rewrite T2, Tc, T1, S2, Sc, S1, M2, Mc, M1, P2, Pc, P1,
        !count_events_app.
      cbn. repeat split; lia. }
    match goal with |- context [approach_loop fuel e (Some z') ?x] =>
      set (d3 := x) end.
    assert (F3 : trace d3 = trace d2
                   ++ [Log (Text "3VIEW: Approach cut completed.");
                       ProgressTrigger]
                 /\ slice_counter d3 = S (slice_counter d2)
                 /\ max_slices d3 = max_slices d2
                 /\ approach_in_progress d3 = approach_in_progress d2).
    { subst d3. destruct (abort_clicked c); dlg_cbn; rewrite <- ?app_assoc;
        repeat split; lia. }
    destruct F3 as (T3 & S3 & M3 & P3). clearbody d3.
    assert (Hle3 : (slice_counter d3 <= max_slices d3)%nat) by lia.
    specialize (IH (Some z') d3 Hle3). cbv zeta in IH.
    destruct IH as (L & M & P & Zm & Cz & Scs).
    rewrite T3, T2, Tc, T1 in Zm, Cz, Scs.
    rewrite !count_events_app in Zm. rewrite !count_events_app in Cz.
    rewrite !count_events_app in Scs. cbn in Zm, Cz, Scs.
    repeat split; try congruence; lia.
Qed.

(** The thread as a whole, however it ends. *)
Lemma approach_thread_counts (e : env) (d : ApproachDlg) :
  let d1 := approach_thread e d in
  max_slices d1 = spinBox_numberSlices d
  /\ approach_in_progress d1 = true
  /\ (slice_counter d1 <= max_slices d1)%nat
  /\ (count_events is_z_move (trace d1)
      <= count_events is_z_move (trace d) + max_slices d1)%nat
  /\ (count_events is_cut (trace d1) + count_events is_z_move (trace d)
      <= count_events is_cut (trace d) + count_events is_z_move (trace d1))%nat
  /\ (slice_counter d1 + count_events is_cut (trace d)
      <= count_events is_cut (trace d1))%nat.
Proof.
  cbv zeta. unfold approach_thread.
  destruct (approach_startup_facts e d) as (_ & _ & M & _).
  destruct (approach_startup_keeps e d) as (S & P & C & Z).
  destruct (approach_startup e d) as [z ds]. cbn [fst snd] in *.
  assert (Hle : (slice_counter ds <= max_slices ds)%nat) by lia.
  pose proof (approach_loop_counts (max_slices ds) e z ds Hle) as K.
  cbv zeta in K.
  destruct (approach_loop (max_slices ds) e z ds) as [dl | dr];
    cbn [state_of] in K; destruct K as (L & M' & P' & Zm & Cz & Sc).
  - repeat split; try congruence; lia.
  - dlg_cbn. rewrite !count_events_app. cbn.
    repeat split; try congruence; lia.
Qed.

(** The thread when it ends by the finish trigger. *)
Lemma approach_thread_summary (e : env) (d : ApproachDlg) :
  (5 <= full_cut_duration e)%Z
  \/ aborted (snd (approach_startup e d)) = true ->
  exists d',
    approach_thread e d = emit FinishTrigger d'
    /\ max_slices d' = spinBox_numberSlices d
    /\ thickness d' = spinBox_thickness d
    /\ approach_in_progress d' = true
    /\ (slice_counter d' <= max_slices d')%nat
    /\ (slice_counter d' <? max_slices d')%nat && negb (aborted d') = false.
Proof.
  intros H.
  destruct (approach_thread_finishes e d H) as (d' & E & _ & M & T & X).
  destruct (approach_thread_counts e d) as (_ & P & L & _).
  rewrite E in P, L. exists d'. repeat split; assumption.
Qed.

(** X4.  With a full cut of five seconds or more, the number of slices shown
    to the user is the number of slices cut: a run reported as finished has
    cut all [max_slices] slices, an aborted one reports the count the thread
    reached, never more than [max_slices]. *)
Theorem reported_slices_are_the_slices_cut (e : env) (d : ApproachDlg) :
  (5 <= full_cut_duration e)%Z ->
  let d1 := approach_thread e d in
  (slice_counter d1 <= spinBox_numberSlices d)%nat
  /\ (aborted d1 = false -> slice_counter d1 = spinBox_numberSlices d)
  /\ (forall n t, outcome_box d1 = InfoApproachFinished n t ->
        slice_counter d1 = n /\ n = spinBox_numberSlices d)
  /\ (forall n t, outcome_box d1 = WarnApproachAborted n t ->
        slice_counter d1 = n /\ (n <= spinBox_numberSlices d)%nat).
Proof.
  intros Hdur. cbv zeta.
  destruct (approach_thread_summary e d (or_introl Hdur))
    as (d' & -> & M & _ & _ & L & X).
  unfold outcome_box. dlg_cbn.
  assert (F : aborted d' = false -> slice_counter d' = spinBox_numberSlices d).
  { intros A. rewrite A in X. cbn [negb] in X. rewrite andb_true_r in X.
    apply Nat.ltb_ge in X. lia. }
  split; [lia |]. split; [exact F |].
  destruct (aborted d') eqn:A; cbn [negb].
  - split; [destruct (z_mismatch d'); discriminate |].
    intros n t. destruct (z_mismatch d'); [discriminate |].
    intros [= <- _]. split; [reflexivity | lia].
  - split; [| discriminate].
    intros n t [= <- _]. split; [| exact M]. rewrite M. auto.
Qed.

Lemma reported_slices_are_the_slices_cut_witness :
  (5 <= full_cut_duration abort_in_cycle_2)%Z
  /\ (slice_counter (approach_thread abort_in_cycle_2 five_slices)
      <= spinBox_numberSlices five_slices)%nat
  /\ (forall n t,
        outcome_box (approach_thread abort_in_cycle_2 five_slices)
        = WarnApproachAborted n t ->
        slice_counter (approach_thread abort_in_cycle_2 five_slices) = n
        /\ (n <= spinBox_numberSlices five_slices)%nat).
Proof.
  assert (H : (5 <= full_cut_duration abort_in_cycle_2)%Z) by (cbn; lia).
  split; [exact H |].
  destruct (reported_slices_are_the_slices_cut abort_in_cycle_2 five_slices H)
    as (L & _ & _ & A).
  split; [exact L | exact A].
Defined.

Lemma finish_events_no_motion (e : env) (d : ApproachDlg) (f : event -> bool) :
  f = is_cut \/ f = is_z_move ->
  count_events f (if clear_failed e d then clear_failure_events else [])
    = 0%nat
  /\ count_events f (report_events d) = 0%nat.
Proof.
  intros [-> | ->]; unfold report_events;
    destruct (clear_failed e d), (aborted d), (z_mismatch d); split;
    reflexivity.
Qed.

(** X5.  A run never asks for more than was set, whether the thread ends by
    the finish trigger or dies of the [ValueError] of [sleep]: at most
    [numberSlices] Z moves and at most as many cuts as Z moves are sent to
    the microtome, and every counted slice has had its cut. *)
Theorem never_more_cuts_than_requested (e : env) (d0 : ApproachDlg) :
  let tr := trace (run_approach e d0) in
  let d1 := approach_thread e (start_approach d0) in
  (count_events is_z_move tr <= spinBox_numberSlices d0)%nat
  /\ (count_events is_cut tr <= count_events is_z_move tr)%nat
  /\ (slice_counter d1 <= count_events is_cut tr)%nat.
Proof.
  cbv zeta.
  destruct (approach_thread_counts e (start_approach d0))
    as (M & _ & _ & Zm & Cz & Sc).
  cbn [start_approach trace spinBox_numberSlices] in M, Zm, Cz, Sc.
  change (count_events is_z_move [QueuePut "STATUS BUSY APPROACH"])
    with 0%nat in *.
  change (count_events is_cut [QueuePut "STATUS BUSY APPROACH"])
    with 0%nat in *.
  destruct (approach_thread_outcome e (start_approach d0))
    as [(d' & E & X & _) | (_ & _ & d'' & E & X)].
  - destruct (run_approach_finished_thread e d0 d' E X) as (_ & _ & _ & _ & T).
    rewrite T, !count_events_app.
    destruct (finish_events_no_motion e
                (approach_thread e (start_approach d0)) is_cut)
      as (C1 & C2); [auto |].
    destruct (finish_events_no_motion e
                (approach_thread e (start_approach d0)) is_z_move)
      as (Z1 & Z2); [auto |].
    rewrite C1, C2, Z1, Z2. cbn. lia.
  - destruct (run_approach_dead_thread e d0 d'' E X) as (-> & _). lia.
Qed.

(** X6.  With a full cut of five seconds or more, when the finish slot
    returns the run is over for good: the flag of the run, raised by the
    thread, is lowered again, and the error register is clear whatever the
    microtome reported on the way. *)
Theorem run_leaves_dialog_idle_and_register_clear (e : env) (d0 : ApproachDlg) :
  (5 <= full_cut_duration e)%Z ->
  let d1 := approach_thread e (start_approach d0) in
  let d2 := run_approach e d0 in
  approach_in_progress d1 = true
  /\ approach_in_progress d2 = false
  /\ (error_state d2 <= 0)%Z
  /\ (clear_failed e d1 = true -> error_state d2 = 0%Z).
Proof.
  intros Hdur. cbv zeta.
  destruct (run_approach_trace e d0 (or_introl Hdur)) as (-> & _).
  destruct (approach_thread_summary e (start_approach d0) (or_introl Hdur))
    as (d' & -> & _ & _ & P & _).
  generalize (emit FinishTrigger d')
    (eq_refl : approach_in_progress (emit FinishTrigger d')
               = approach_in_progress d').
  intros d1 P1. rewrite P in P1. split; [exact P1 |].
  unfold finish_approach, clear_failed.
  destruct (clear_fault e) as [code |]; dlg_cbn;
    match goal with |- context [(0 <? ?c)%Z] =>
      destruct (Z.ltb_spec 0 c) end;
    dlg_cbn; destruct (aborted d1), (z_mismatch d1); dlg_cbn;
    repeat split; intros; try discriminate; lia.
Qed.

Lemma run_leaves_dialog_idle_and_register_clear_witness :
  (5 <= full_cut_duration mismatch_at_start)%Z
  /\ approach_in_progress
       (approach_thread mismatch_at_start (start_approach five_slices)) = true
  /\ approach_in_progress (run_approach mismatch_at_start five_slices) = false
  /\ (error_state (run_approach mismatch_at_start five_slices) <= 0)%Z.
Proof.
  assert (H : (5 <= full_cut_duration mismatch_at_start)%Z) by (cbn; lia).
  split; [exact H |].
  destruct (run_leaves_dialog_idle_and_register_clear
              mismatch_at_start five_slices H) as (P1 & P2 & R & _).
  split; [exact P1 |]. split; [exact P2 | exact R].
Defined.

(** One pass of the loop when the cut takes less than five seconds and the
    move goes well: the cut is made and [sleep] raises. *)
Lemma approach_loop_short_cut (fuel : nat) (e : env) (z : Q) (d : ApproachDlg) :
  (full_cut_duration e < 5)%Z ->
  aborted d = false -> (slice_counter d < max_slices d)%nat ->
  (error_state d <= 0)%Z ->
  (forall code, move_fault (cycle e (slice_counter d)) = Some code ->
                (code <= 0)%Z) ->
  exists dc evs,
    approach_loop (S fuel) e (Some z) d = inl (emit (PyRaise "ValueError") dc)
    /\ trace dc = trace d ++ evs
    /\ forallb quiet evs = true
    /\ count_events is_cut evs = 1%nat
    /\ slice_counter dc = slice_counter d
    /\ approach_in_progress dc = approach_in_progress d.
Proof.
  intros Hdur Ha Hs He Hmv. cbn [approach_loop].
  assert (C : (slice_counter d <? max_slices d)%nat && negb (aborted d) = true).
  { rewrite Ha. cbn [negb]. rewrite andb_true_r. apply Nat.ltb_lt. exact Hs. }
  rewrite C.
  assert (Ls : (full_cut_duration e - 5 <? 0)%Z = true)
    by (apply Z.ltb_lt; lia).
  rewrite Ls.
  set (z' := z + inject_Z (thickness d) / 1000).
  match goal with |- context [if (0 <? error_state ?x)%Z then _ else _] =>
    set (d1 := x) end.
  assert (F1 : (error_state d1 <= 0)%Z
               /\ trace d1 = trace d
                    ++ [Log (MoveToNewZ z'); Hw (MoveStageToZ z');
                        QueuePut "UPDATE Z"]
               /\ slice_counter d1 = slice_counter d
               /\ approach_in_progress d1 = approach_in_progress d).
  { subst d1. destruct (move_fault (cycle e (slice_counter d))) as [code |];
      dlg_cbn; rewrite <- ?app_assoc; repeat split; auto. }
  destruct F1 as (E1 & T1 & S1 & P1). clearbody d1.
  destruct (Z.ltb_spec 0 (error_state d1)) as [L | _]; [lia |].
  match goal with |- context [emit (PyRaise "ValueError") ?x] =>
    set (dc := x) end.
  exists dc,
    [Log (MoveToNewZ z'); Hw (MoveStageToZ z'); QueuePut "UPDATE Z";
     Log (CuttingInProgress (thickness d1)); Hw DoFullApproachCut].
  split; [reflexivity |].
  subst dc. destruct (cut_fault (cycle e (slice_counter d))); dlg_cbn;
    rewrite T1, <- ?app_assoc; repeat split; assumption.
Qed.

(** X20.  When the full cut takes less than five seconds, a run that reaches
    the loop and whose first Z move goes well does not survive its first
    cut: [sleep] raises [ValueError] in the thread, the finish trigger is
    never emitted and so the finish slot never runs.  One cut has been made,
    the knife is not cleared, no message is shown, no slice is counted, and
    the dialog keeps the flag of a run in progress. *)
Theorem short_cut_duration_kills_thread (e : env) (d0 : ApproachDlg) :
  (full_cut_duration e < 5)%Z ->
  aborted (snd (approach_startup e (start_approach d0))) = false ->
  (1 <= spinBox_numberSlices d0)%nat ->
  (forall code, move_fault (cycle e 0) = Some code -> (code <= 0)%Z) ->
  let d2 := run_approach e d0 in
  d2 = approach_thread e (start_approach d0)
  /\ (exists evs,
        forallb quiet evs = true
        /\ trace d2 =
           QueuePut "STATUS BUSY APPROACH" :: evs ++ [PyRaise "ValueError"])
  /\ count_events is_cut (trace d2) = 1%nat
  /\ List.filter is_clear_knife (trace d2) = []
  /\ boxes (trace d2) = []
  /\ slice_counter d2 = 0%nat
  /\ approach_in_progress d2 = true.
Proof.
  intros Hdur Hloop Hn Hmv. cbv zeta.
  destruct (approach_startup_facts e (start_approach d0)) as (X & _).
  destruct (approach_startup_keeps e (start_approach d0)) as (_ & P & Cs & _).
  destruct (approach_startup_reaches_loop e (start_approach d0) Hloop)
    as (z & ds & E & S0 & A & _ & Er & M & _).
  rewrite E in X, P, Cs. cbn [fst snd] in X, P, Cs.
  cbn [start_approach spinBox_numberSlices trace] in M, Cs.
  change (count_events is_cut [QueuePut "STATUS BUSY APPROACH"])
    with 0%nat in Cs.
  assert (Hfuel : exists f, max_slices ds = S f).
  { exists (pred (max_slices ds)). lia. }
  destruct Hfuel as (f & Hf).
  assert (Hs : (slice_counter ds < max_slices ds)%nat) by lia.
  assert (Hmv' : forall code,
             move_fault (cycle e (slice_counter ds)) = Some code ->
             (code <= 0)%Z) by (rewrite S0; exact Hmv).
  destruct (approach_loop_short_cut f e z ds Hdur A Hs Er Hmv')
    as (dc & evs & L & T & Q & C1 & Sc & Pc).
  assert (Et : approach_thread e (start_approach d0)
               = emit (PyRaise "ValueError") dc).
  { unfold approach_thread. rewrite E, Hf, L. reflexivity. }
  assert (Xc : extends_quietly (start_approach d0) dc).
  { eapply extends_quietly_trans; [exact X |]. exists evs. auto. }
  destruct (run_approach_dead_thread e d0 dc Et Xc) as (D & evs' & Q' & T').
  split; [exact D |]. split; [exists evs'; auto |].
  split.
  { rewrite D, Et. dlg_cbn. rewrite T, !count_events_app, Cs, C1.
    reflexivity. }
  split.
  { rewrite T'.
    change (QueuePut "STATUS BUSY APPROACH" :: evs' ++ [PyRaise "ValueError"])
      with ([QueuePut "STATUS BUSY APPROACH"] ++ evs'
              ++ [PyRaise "ValueError"]).
    rewrite !List.filter_app, (quiet_no_clear evs' Q'). reflexivity. }
  split.
  { rewrite T'.
    change (QueuePut "STATUS BUSY APPROACH" :: evs' ++ [PyRaise "ValueError"])
      with ([QueuePut "STATUS BUSY APPROACH"] ++ evs'
              ++ [PyRaise "ValueError"]).
    rewrite !boxes_app, (quiet_no_boxes evs' Q'). reflexivity. }
  rewrite D, Et. dlg_cbn. split; congruence.
Qed.

Lemma short_cut_duration_kills_thread_witness :
  (full_cut_duration cut_of_three_seconds < 5)%Z
  /\ run_approach cut_of_three_seconds five_slices
     = approach_thread cut_of_three_seconds (start_approach five_slices)
  /\ approach_in_progress (run_approach cut_of_three_seconds five_slices)
     = true.
Proof.
  assert (H : (full_cut_duration cut_of_three_seconds < 5)%Z) by (cbn; lia).
  split; [exact H |].
  destruct (short_cut_duration_kills_thread cut_of_three_seconds five_slices H)
    as (D & _ & _ & _ & _ & _ & P).
  - vm_compute. reflexivity.
  - cbn. lia.
  - intros code F. discriminate F.
  - split; [exact D | exact P].
Defined.

End ApproachMore.

Section MotorTestMore.

Import MotorTest.
Local Open Scope Q_scope.

Ltac mt_cbn :=
  cbn [start_z aborted number_tests number_errors error_state error_info
       logfile commands shown set_counters set_register set_logfile
       logfile_write box hw reset_error_state fst snd].

(** What a pass leaves untouched, and the register after it. *)
Lemma random_walk_step_frame (ie : iter_env) (p : Q * Q * Q) (d : MotorTestDlg) :
  let d' := snd (random_walk_step ie p d) in
  aborted d' = aborted d
  /\ shown d' = shown d
  /\ start_z d' = start_z d
  /\ (error_state d' <= 0)%Z.
Proof.
  cbv zeta. unfold random_walk_step.
  destruct (clamp (start_z d) (displaced ie (number_tests d) p)) as [[x y] z].
  destruct (xy_fault ie) as [[cxy ixy] |]; mt_cbn;
    match goal with |- context [(0 <? ?c)%Z] =>
      destruct (Z.ltb_spec 0 c) end; mt_cbn;
    try (repeat split; lia);
    destruct (z_fault ie) as [[cz iz] |]; mt_cbn;
    match goal with |- context [(0 <? ?c)%Z] =>
      destruct (Z.ltb_spec 0 c) end; mt_cbn;
    repeat split; lia.
Qed.

(** With a clear register and positive codes, a pass is counted as an error
    exactly when one of the moves it makes fails. *)
Lemma random_walk_step_faulty (ie : iter_env) (p : Q * Q * Q) (d : MotorTestDlg) :
  (error_state d <= 0)%Z -> positive_codes ie ->
  number_errors (snd (random_walk_step ie p d))
  = (number_errors d + if faulty ie then 1 else 0)%nat.
Proof.
  intros He [Hxy Hz]. unfold random_walk_step, faulty.
  destruct (clamp (start_z d) (displaced ie (number_tests d) p)) as [[x y] z].
  destruct (xy_fault ie) as [[cxy ixy] |]; mt_cbn.
  - specialize (Hxy cxy ixy eq_refl).
    destruct (Z.ltb_spec 0 cxy); [| lia]. mt_cbn. reflexivity.
  - destruct (Z.ltb_spec 0 (error_state d)); [lia |].
    destruct (z_fault ie) as [[cz iz] |]; mt_cbn.
    + specialize (Hz cz iz eq_refl).
      destruct (Z.ltb_spec 0 cz); [| lia]. mt_cbn. reflexivity.
    + destruct (Z.ltb_spec 0 (error_state d)); [lia |]. mt_cbn. lia.
Qed.

Lemma random_walk_loop_frame (envs : list iter_env) :
  forall (p : Q * Q * Q) (d : MotorTestDlg),
    let d' := random_walk_loop envs p d in
    aborted d' = aborted d
    /\ shown d' = shown d
    /\ start_z d' = start_z d
    /\ ((error_state d <= 0)%Z \/ envs <> [] -> (error_state d' <= 0)%Z).
Proof.
  induction envs as [| ie envs IH]; intros p d; cbn [random_walk_loop].
  - cbv zeta. repeat split. intros [H | H]; [exact H | now destruct H].
  - pose proof (random_walk_step_frame ie p d) as F. cbv zeta in F.
    destruct (random_walk_step ie p d) as [p1 d1]. cbn [snd] in F.
    destruct F as (A & S & Z & E).
    destruct (IH p1 d1) as (A' & S' & Z' & E'). cbv zeta.
    repeat split; try congruence. intros _. apply E'. left. exact E.
Qed.

Lemma random_walk_loop_faulty (envs : list iter_env) :
  forall (p : Q * Q * Q) (d : MotorTestDlg),
    (error_state d <= 0)%Z -> Forall positive_codes envs ->
    number_errors (random_walk_loop envs p d)
    = (number_errors d + count faulty envs)%nat.
Proof.
  induction envs as [| ie envs IH]; intros p d He Hp; cbn [random_walk_loop].
  - unfold count. cbn. lia.
  - apply Forall_cons_iff in Hp. destruct Hp as [Hie Hp].
    pose proof (random_walk_step_faulty ie p d He Hie) as N.
    pose proof (random_walk_step_frame ie p d) as F. cbv zeta in F.
    destruct (random_walk_step ie p d) as [p1 d1]. cbn [snd] in N, F.
    rewrite IH by (try apply F; assumption). rewrite N.
    unfold count. cbn [List.filter]. destruct (faulty ie); cbn [length]; lia.
Qed.

(** The thread, as far as the fields the finish slot reads are concerned. *)
Lemma random_walk_thread_frame (envs : list iter_env) (d : MotorTestDlg) :
  let d' := random_walk_thread envs d in
  aborted d' = aborted d
  /\ shown d' = shown d
  /\ start_z d' = start_z d
  /\ ((error_state d <= 0)%Z \/ envs <> [] -> (error_state d' <= 0)%Z).
Proof.
  cbv zeta. unfold random_walk_thread.
  destruct (random_walk_loop_frame envs
              (0, 0, start_z (set_logfile [] (set_counters 0 0 d)))
              (set_logfile [] (set_counters 0 0 d))) as (A & S & Z & E).
  mt_cbn. auto.
Qed.

(** X7.  After every run the register is clear: each error of a pass is reset
    within the pass, and an error of the move back to the starting Z is
    reset before the result is shown. *)
Theorem motor_test_leaves_register_clear
    (z : Q) (envs : list iter_env) (abort_clicked : bool)
    (back_fault : option (Z * string)) (d : MotorTestDlg) :
  (error_state (run_motor_test z envs abort_clicked back_fault d) <= 0)%Z
  /\ forall ie p d0, (error_state (snd (random_walk_step ie p d0)) <= 0)%Z.
Proof.
  split; [| intros ie p d0; apply random_walk_step_frame].
  unfold run_motor_test, test_finished.
  destruct back_fault as [[c i] |]; mt_cbn;
    match goal with |- context [(0 <? ?c)%Z] =>
      destruct (Z.ltb_spec 0 c) end; mt_cbn;
    destruct (abort_clicked || _); mt_cbn; lia.
Qed.

(** X8.  With a clear register at the start and positive error codes, the error
    counter of a run is the number of passes in which a move failed. *)
Theorem error_counter_counts_faulty_passes
    (z : Q) (envs : list iter_env) (abort_clicked : bool)
    (back_fault : option (Z * string)) (d : MotorTestDlg) :
  (error_state d <= 0)%Z -> Forall positive_codes envs ->
  number_errors (run_motor_test z envs abort_clicked back_fault d)
  = count faulty envs.
Proof.
  intros He Hp. unfold run_motor_test.
  match goal with |- context [test_finished _ ?x] =>
    destruct (test_finished_keeps_log back_fault x) as (_ & N & _) end.
  rewrite N. cbn [number_errors]. unfold random_walk_thread. mt_cbn.
  rewrite random_walk_loop_faulty by assumption. reflexivity.
Qed.

Lemma error_counter_counts_faulty_passes_witness :
  number_errors (run_motor_test 10 sample_walk false None fresh_dialog)
  = count faulty sample_walk.
Proof.
  apply (error_counter_counts_faulty_passes 10 sample_walk false None
           fresh_dialog).
  - cbn. lia.
  - repeat constructor; intros code info [=]; lia.
Defined.

(** X9.  The end of a run: after the walk the stage is sent back to the starting
    Z, with safe mode off, whether or not the user aborted; if the register
    then shows an error it is reset and a warning precedes the result; the
    result box is the abort notice after an abort and otherwise states the
    number of passes and the error counter. *)
Theorem motor_test_ends_with_move_back
    (z : Q) (envs : list iter_env) (abort_clicked : bool)
    (back_fault : option (Z * string)) (d : MotorTestDlg) :
  let dt := random_walk_thread envs (start_random_walk z d) in
  let d' := run_motor_test z envs abort_clicked back_fault d in
  let failed := move_back_failed back_fault dt in
  commands d' = commands dt ++ MoveStageToZ z false
                  :: (if failed then [ResetErrorState] else [])
  /\ shown d' = (if failed then [WarnMovingBack] else [])
                ++ [if abort_clicked then InfoAborted z
                    else InfoComplete (length envs) (number_errors dt) z].
Proof.
  cbv zeta.
  destruct (random_walk_thread_frame envs (start_random_walk z d))
    as (A & S & Z & _).
  destruct (random_walk_thread_counts envs (start_random_walk z d))
    as (_ & _ & _ & _ & T).
  cbv zeta in T. cbn [start_random_walk aborted shown start_z] in A, S, Z.
  unfold run_motor_test, test_finished, move_back_failed.
  generalize dependent (random_walk_thread envs (start_random_walk z d)).
  intros dt A S Z T.
  destruct back_fault as [[c i] |]; mt_cbn;
    match goal with |- context [(0 <? ?c)%Z] => destruct (0 <? c)%Z end;
    mt_cbn; rewrite A, S, Z, T, orb_false_r;
    destruct abort_clicked; mt_cbn; rewrite ?S, ?Z, ?T;
    rewrite <- ?app_assoc; split; reflexivity.
Qed.

End MotorTestMore.

Section PyStrFacts.

Import Stdlib.Strings.Ascii.
Import PyStr.
Local Open Scope string_scope.

Lemma contains_replace_self (a b : ascii) (s : string) :
  a <> b -> contains_char a (replace_char a b s) = false.
Proof.
  intros Hab. induction s as [|c s IH]; [reflexivity|].
  cbn. rewrite IH, orb_false_r.
  destruct (Ascii.eqb_spec c a) as [->|Hc].
  - apply Ascii.eqb_neq. congruence.
  - apply Ascii.eqb_neq. exact Hc.
Qed.

Lemma contains_replace_other (c a b : ascii) (s : string) :
  c <> b -> contains_char c s = false ->
  contains_char c (replace_char a b s) = false.
Proof.
  intros Hcb. induction s as [|x s IH]; [reflexivity|].
  cbn. intros H. apply orb_false_iff in H as [Hx Hs].
  rewrite (IH Hs), orb_false_r.
  destruct (Ascii.eqb_spec x a) as [->|Hxa]; [|exact Hx].
  apply Ascii.eqb_neq. congruence.
Qed.

Lemma replace_absent (a b : ascii) (s : string) :
  contains_char a s = false -> replace_char a b s = s.
Proof.
  induction s as [|x s IH]; [reflexivity|].
  cbn. intros H. apply orb_false_iff in H as [Hx Hs].
  rewrite Hx, (IH Hs). reflexivity.
Qed.

Lemma last_char_cons (x : ascii) (s : string) :
  last_char (String x s) = match s with "" => Some x | _ => last_char s end.
Proof. destruct s; reflexivity. Qed.

Lemma last_char_replace (a b : ascii) (s : string) :
  last_char (replace_char a b s)
  = match last_char s with
    | Some c => Some (if (c =? a)%char then b else c)
    | None => None
    end.
Proof.
  induction s as [|x s IH]; [reflexivity|].
  cbn [replace_char]. rewrite !last_char_cons.
  destruct s as [|y s]; [reflexivity|]. exact IH.
Qed.

Lemma rstrip_cons (cs : list ascii) (c : ascii) (s : string) :
  rstrip cs (String c s)
  = match rstrip cs s with
    | "" => if mem_char c cs then "" else String c ""
    | r => String c r
    end.
Proof. reflexivity. Qed.

(** What [rstrip] leaves does not end in a stripped character. *)
Lemma rstrip_ends_clean (cs : list ascii) (s : string) :
  ends_in cs (rstrip cs s) = false.
Proof.
  unfold ends_in. induction s as [|c s IH]; [reflexivity|].
  rewrite rstrip_cons. destruct (rstrip cs s) as [|y r] eqn:E.
  - destruct (mem_char c cs) eqn:M; cbn; [reflexivity|exact M].
  - rewrite last_char_cons. exact IH.
Qed.

(** A string that does not end in a stripped character is left as it is. *)
Lemma rstrip_fixed (cs : list ascii) (s : string) :
  ends_in cs s = false -> rstrip cs s = s.
Proof.
  unfold ends_in. induction s as [|c s IH]; [reflexivity|].
  rewrite last_char_cons, rstrip_cons. destruct s as [|y s].
  - cbn. intros ->. reflexivity.
  - intros H. rewrite (IH H). reflexivity.
Qed.

Lemma append_nil (t : string) : "" ++ t = t.
Proof. reflexivity. Qed.

Lemma append_cons (c : ascii) (s t : string) :
  String c s ++ t = String c (s ++ t).
Proof. reflexivity. Qed.

Lemma append_snoc (p : string) (c : ascii) (t : string) :
  (p ++ String c "") ++ t = p ++ String c t.
Proof.
  induction p as [|x p IH]; [reflexivity|].
  rewrite !append_cons, IH. reflexivity.
Qed.

(** [rstrip] only removes a suffix of stripped characters. *)
Lemma rstrip_prefix (cs : list ascii) (s : string) :
  exists t, s = rstrip cs s ++ t /\ all_chars (fun c => mem_char c cs) t = true.
Proof.
  induction s as [|c s (t & Es & Ht)].
  - exists "". split; reflexivity.
  - rewrite rstrip_cons. destruct (rstrip cs s) as [|y r] eqn:E.
    + rewrite append_nil in Es. subst t.
      destruct (mem_char c cs) eqn:M.
      * exists (String c s). rewrite append_nil. cbn. rewrite M, Ht.
        split; reflexivity.
      * exists s. rewrite append_cons, append_nil. split; [reflexivity|exact Ht].
    + exists t. split; [|exact Ht]. rewrite append_cons. congruence.
Qed.

Lemma rfind_from_last_index (c : ascii) (s : string) (i found : Z) :
  rfind_from c s i found
  = match last_index c s with
    | Some k => (i + Z.of_nat k)%Z
    | None => found
    end.
Proof.
  revert i found. induction s as [|x s IH]; intros i found; [reflexivity|].
  cbn. rewrite IH. destruct (last_index c s) as [k|].
  - lia.
  - destruct (x =? c)%char; [lia|reflexivity].
Qed.

Lemma last_index_none (c : ascii) (s : string) :
  last_index c s = None -> contains_char c s = false.
Proof.
  induction s as [|x s IH]; [reflexivity|].
  cbn. destruct (last_index c s); [discriminate|].
  destruct (x =? c)%char; [discriminate|]. intros _. apply IH. reflexivity.
Qed.

(** After the last index of [c] there is no [c], and just before it the
    string is cut behind a [c]. *)
Lemma last_index_split (c : ascii) (s : string) (k : nat) :
  last_index c s = Some k ->
  contains_char c (drop (S k) s) = false
  /\ s = take k s ++ String c (drop (S k) s).
Proof.
  revert k. induction s as [|x s IH]; intros k; [discriminate|].
  cbn [last_index]. destruct (last_index c s) as [j|] eqn:E.
  - intros [= <-]. destruct (IH j eq_refl) as [H1 H2]. split.
    + exact H1.
    + cbn [take]. change (drop (S (S j)) (String x s)) with (drop (S j) s).
      rewrite append_cons. congruence.
  - destruct (Ascii.eqb_spec x c) as [->|]; [|discriminate].
    intros [= <-]. cbn [take drop]. rewrite append_nil.
    split; [apply last_index_none; exact E|reflexivity].
Qed.

Lemma span_all (f : ascii -> bool) (s : string) :
  all_chars f s = true -> span f s = (s, "").
Proof.
  induction s as [|x s IH]; [reflexivity|].
  cbn. intros H. apply andb_true_iff in H as [Hx Hs].
  rewrite Hx, (IH Hs). reflexivity.
Qed.

End PyStrFacts.

Section AcqSettingsProperties.

Import Stdlib.Strings.Ascii.
Import PyStr.
Import AcqSettings.
Local Open Scope string_scope.

Lemma modified_dir_ends_clean (s : string) :
  ends_in trailing (modified_dir s) = false.
Proof.
  unfold modified_dir, ends_in. rewrite !last_char_replace.
  pose proof (rstrip_ends_clean trailing s) as H. unfold ends_in in H.
  destruct (last_char (rstrip trailing s)) as [c|]; [|reflexivity].
  cbn in H. apply orb_false_iff in H as [H1 H].
  apply orb_false_iff in H as [H2 H]. apply orb_false_iff in H as [H3 _].
  rewrite H3, H2. cbn. rewrite H1, H2, H3. reflexivity.
Qed.

Lemma modified_dir_no_space (s : string) :
  contains_char " " (modified_dir s) = false.
Proof.
  unfold modified_dir. apply contains_replace_other; [discriminate|].
  apply contains_replace_self. discriminate.
Qed.

Lemma modified_dir_no_slash (s : string) :
  contains_char "/" (modified_dir s) = false.
Proof. unfold modified_dir. apply contains_replace_self. discriminate. Qed.

Lemma modified_dir_idempotent (s : string) :
  modified_dir (modified_dir s) = modified_dir s.
Proof.
  set (m := modified_dir s). unfold modified_dir.
  rewrite (rstrip_fixed trailing m (modified_dir_ends_clean s)).
  rewrite (replace_absent " " "_" m (modified_dir_no_space s)).
  apply replace_absent, modified_dir_no_slash.
Qed.

(** X10.  The base directory [AcqSettingsDlg.accept] works with is in normal
    form: it contains no space and no forward slash, it does not end in a
    backslash, and normalising it again changes nothing, so a second OK
    never shows the 'Base directory name modified' box again. *)
Theorem modified_dir_normal_form (selected_dir : string) :
  let m := modified_dir selected_dir in
  contains_char " " m = false
  /\ contains_char "/" m = false
  /\ last_char m <> Some "\"%char
  /\ modified_dir m = m.
Proof.
  cbn zeta. repeat split.
  - apply modified_dir_no_space.
  - apply modified_dir_no_slash.
  - pose proof (modified_dir_ends_clean selected_dir) as H.
    unfold ends_in in H. intros E. rewrite E in H. discriminate H.
  - apply modified_dir_idempotent.
Qed.

Lemma has_drive_letter_shape (m : string) :
  has_drive_letter m = true ->
  exists c rest,
    is_letter c = true /\ m = String c (String ":" (String "\" rest)).
Proof.
  unfold has_drive_letter.
  destruct m as [|c [|c1 [|c2 rest]]]; cbn; try discriminate.
  intros H. apply andb_true_iff in H as [H H2].
  apply andb_true_iff in H as [H0 H1].
  apply Ascii.eqb_eq in H1, H2. subst. exists c, rest. split; [exact H0|reflexivity].
Qed.

Lemma closes_app (l1 l2 : list event) :
  closes (l1 ++ l2) = closes l1 || closes l2.
Proof. apply existsb_app. Qed.

Lemma closes_emit_if (b : bool) (evs : list event) :
  closes evs = false -> closes (emit_if b evs) = false.
Proof. destruct b; [trivial|reflexivity]. Qed.

(** The dialog closes exactly when the three tests pass. *)
Lemma accept_closes (cfg : gmap (string * string) string) (f : form) (w : world) :
  closes (snd (accept cfg f w))
  = has_drive_letter (modified_dir (lineEdit_baseDir f))
    && (match makedirs_raises w with None => true | Some _ => false end)
    && negb (too_large f).
Proof.
  unfold accept, too_large.
  destruct (has_drive_letter _), (makedirs_raises w), (checkBox_sendMetaData f),
    ((0 <? spinBox_numberSlices f)%Z
     && (spinBox_numberSlices f <? spinBox_sliceCounter f)%Z);
    cbn [negb andb snd fst];
    rewrite ?closes_app, ?closes_emit_if by reflexivity; reflexivity.
Qed.

Lemma accept_base_dir (cfg : gmap (string * string) string) (f : form) (w : world) :
  fst (accept cfg f w) !! ("acq", "base_dir")
  = if closes (snd (accept cfg f w))
    then Some (modified_dir (lineEdit_baseDir f))
    else cfg !! ("acq", "base_dir").
Proof.
  rewrite accept_closes. unfold accept, too_large.
  destruct (has_drive_letter _), (makedirs_raises w), (checkBox_sendMetaData f),
    ((0 <? spinBox_numberSlices f)%Z
     && (spinBox_numberSlices f <? spinBox_sliceCounter f)%Z);
    cbn [negb andb snd fst];
    rewrite ?lookup_insert_eq, ?lookup_insert_ne by discriminate; reflexivity.
Qed.

(** X11.  When [AcqSettingsDlg.accept] closes the dialog, the base directory
    it stores is the normalised one and has the shape letter, colon,
    backslash, then a non-empty rest: a bare drive root is never accepted,
    since its trailing backslash is stripped before the drive letter test.
    The workspace directory could be created, and the slice counter does not
    exceed a positive target number of slices. *)
Theorem accepted_base_dir_has_drive_and_folder
    (cfg : gmap (string * string) string) (f : form) (w : world) :
  closes (snd (accept cfg f w)) = true ->
  let m := modified_dir (lineEdit_baseDir f) in
  (exists c rest, is_letter c = true /\ rest <> ""
                  /\ m = String c (String ":" (String "\" rest)))
  /\ fst (accept cfg f w) !! ("acq", "base_dir") = Some m
  /\ makedirs_raises w = None
  /\ (spinBox_numberSlices f <= 0
      \/ spinBox_sliceCounter f <= spinBox_numberSlices f)%Z.
Proof.
  intros H. cbn zeta. pose proof (accept_base_dir cfg f w) as B.
  rewrite H in B. rewrite accept_closes in H.
  apply andb_true_iff in H as [H Hl]. apply andb_true_iff in H as [Hd Hm].
  repeat split.
  - destruct (has_drive_letter_shape _ Hd) as (c & rest & Hc & E).
    exists c, rest. repeat split; [exact Hc| |exact E].
    intros ->. pose proof (modified_dir_ends_clean (lineEdit_baseDir f)) as C.
    rewrite E in C. discriminate C.
  - exact B.
  - destruct (makedirs_raises w); [discriminate|reflexivity].
  - unfold too_large in Hl. apply negb_true_iff, andb_false_iff in Hl.
    destruct Hl as [Hl|Hl]; [left|right]; lia.
Qed.

Lemma accepted_base_dir_has_drive_and_folder_witness :
  let f := mkForm "D:\my data/" 50 100 0 0%Q true false "" "" in
  let w := mkWorld None true in
  closes (snd (accept ∅ f w)) = true
  /\ fst (accept ∅ f w) !! ("acq", "base_dir") = Some "D:\my_data".
Proof.
  cbn zeta. split; [vm_compute; reflexivity|].
  apply (accepted_base_dir_has_drive_and_folder ∅
           (mkForm "D:\my data/" 50 100 0 0%Q true false "" "")
           (mkWorld None true)).
  vm_compute. reflexivity.
Defined.

(** X12.  [AcqSettingsDlg.accept] stores the other settings before it
    decides: the target number of slices and the total Z difference are
    sent to the stack and the two check boxes are written to the
    configuration whether or not the dialog closes, while the base
    directory of the configuration changes only when it closes. *)
Theorem settings_stored_even_when_rejected
    (cfg : gmap (string * string) string) (f : form) (w : world) :
  let '(cfg', evs) := accept cfg f w in
  In (SetNumberSlices (spinBox_numberSlices f)) evs
  /\ In (SetTotalZDiff (doubleSpinBox_zDiff f)) evs
  /\ cfg' !! ("acq", "eht_off_after_stack")
     = Some (str_of_bool (checkBox_EHTOff f))
  /\ cfg' !! ("sys", "send_metadata")
     = Some (str_of_bool (checkBox_sendMetaData f))
  /\ cfg' !! ("acq", "base_dir")
     = (if closes evs then Some (modified_dir (lineEdit_baseDir f))
        else cfg !! ("acq", "base_dir")).
Proof.
  pose proof (accept_base_dir cfg f w) as B.
  destruct (accept cfg f w) as [cfg' evs] eqn:E. cbn [fst snd] in B.
  split; [|split; [|split; [|split]]]; [| | | |exact B];
    clear B; revert E; unfold accept;
    destruct (has_drive_letter _), (makedirs_raises w),
      (checkBox_sendMetaData f),
      ((0 <? spinBox_numberSlices f)%Z
       && (spinBox_numberSlices f <? spinBox_sliceCounter f)%Z);
    cbn [negb andb]; intros [= <- <-];
    repeat first [rewrite in_app_iff | progress cbn [In]];
    rewrite ?lookup_insert_eq, ?lookup_insert_ne by discriminate;
    rewrite ?lookup_insert_eq;
    first [reflexivity | auto 20].
Qed.

(** X13.  The stack name [update_stack_name] displays is the last component
    of the base directory with its trailing slashes and spaces removed: it
    contains no backslash, what precedes it is empty or ends in a
    backslash, and it is not empty unless the whole directory is. *)
Theorem stack_name_is_last_component (lineEdit_baseDir : string) :
  let base_dir := rstrip trailing lineEdit_baseDir in
  contains_char "\" (stack_name lineEdit_baseDir) = false
  /\ (exists prefix,
        base_dir = prefix ++ stack_name lineEdit_baseDir
        /\ (prefix = "" \/ last_char prefix = Some "\"%char))
  /\ (base_dir <> "" -> stack_name lineEdit_baseDir <> "").
Proof.
  cbn zeta. unfold stack_name, rfind.
  set (b := rstrip trailing lineEdit_baseDir).
  assert (Hb : ends_in trailing b = false) by apply rstrip_ends_clean.
  rewrite rfind_from_last_index.
  destruct (last_index "\" b) as [k|] eqn:E.
  - replace (Z.to_nat (0 + Z.of_nat k + 1)) with (S k) by lia.
    destruct (last_index_split _ _ _ E) as [H1 H2].
    split; [exact H1|]. split.
    + exists (take k b ++ String "\" ""). split.
      * rewrite append_snoc. exact H2.
      * right. clear. induction (take k b) as [|x p IH]; [reflexivity|].
        rewrite append_cons, last_char_cons.
        destruct p; [reflexivity|exact IH].
    + intros _ Hn. rewrite Hn in H2. unfold ends_in in Hb.
      rewrite H2 in Hb. clear - Hb.
      induction (take k b) as [|x p IH].
      * discriminate Hb.
      * apply IH. rewrite append_cons, last_char_cons in Hb.
        destruct p; exact Hb.
  - change (Z.to_nat (-1 + 1)) with O.
    assert (D : drop 0 b = b) by (destruct b; reflexivity). rewrite D.
    split; [apply last_index_none; exact E|]. split.
    + exists "". split; [reflexivity|left; reflexivity].
    + trivial.
Qed.

End AcqSettingsProperties.

Section SaveConfigProperties.

Import Stdlib.Strings.Ascii.
Import PyStr.
Import SaveConfig.
Local Open Scope string_scope.

Lemma replace_plain_allowed (text : string) :
  all_chars plain text = true ->
  all_chars allowed (replace_char " " "_" text) = true.
Proof.
  induction text as [|c s IH]; [reflexivity|].
  cbn [all_chars replace_char]. intros H. apply andb_true_iff in H as [Hc Hs].
  rewrite (IH Hs), andb_true_r. unfold plain in Hc.
  destruct (Ascii.eqb_spec c " ") as [->|Hn]; [reflexivity|].
  rewrite orb_false_r in Hc. exact Hc.
Qed.

Lemma contains_append (c : ascii) (s t : string) :
  contains_char c (s ++ t) = contains_char c s || contains_char c t.
Proof.
  induction s as [|x s IH]; [reflexivity|].
  rewrite append_cons. cbn [contains_char]. rewrite IH, orb_assoc. reflexivity.
Qed.

(** X14.  [SaveConfigDlg.accept] accepts every non-empty name made of
    letters, digits, underscores, hyphens and spaces: the file name it
    stores is the name with underscores for spaces followed by '.ini', and
    contains no space.  No such name is refused, the name 'default'
    included: the test meant to protect default.ini compares the method
    [lower] with a string and so never fails. *)
Theorem save_config_accepts_plain_names (text : string) :
  text <> "" ->
  all_chars plain text = true ->
  let name := replace_char " " "_" text in
  accept text = (Some (name ++ ".ini"), [SetText name; SuperAccept])
  /\ contains_char " " (name ++ ".ini") = false.
Proof.
  intros Hne Hall. cbn zeta. split.
  - unfold accept, name_matches.
    rewrite (span_all _ _ (replace_plain_allowed _ Hall)).
    destruct text as [|c s]; [congruence|]. reflexivity.
  - rewrite contains_append, contains_replace_self by discriminate.
    reflexivity.
Qed.

Lemma save_config_accepts_plain_names_witness :
  "default" <> ""
  /\ all_chars plain "default" = true
  /\ accept "default" = (Some "default.ini", [SetText "default"; SuperAccept]).
Proof.
  split; [discriminate|]. split; [reflexivity|].
  apply (save_config_accepts_plain_names "default"); [discriminate|reflexivity].
Defined.

End SaveConfigProperties.

Section ExportListProperties.

Import Stdlib.Strings.Ascii.
Import PyStr.
Import ExportList.
Local Open Scope Z_scope.

Variable py_int : string -> string + Z.
Variable to_pixels : Z -> string + Z.

Lemma minima_ok_append (min_x min_y : Z) (data : list item) (it : item) :
  minima_ok min_x min_y data ->
  minima_ok (if item_x it <? min_x then item_x it else min_x)
            (if item_y it <? min_y then item_y it else min_y)
            (data ++ [it]).
Proof.
  intros (F & Ex & Ey & Lx & Ly). unfold minima_ok.
  rewrite Forall_app, !Exists_app, Forall_cons_iff, !Exists_cons.
  destruct (Z.ltb_spec (item_x it) min_x), (Z.ltb_spec (item_y it) min_y);
    (split; [split; [|split; [lia|constructor]]|repeat split]);
    try (eapply Forall_impl; [|exact F]; cbn; intros ? ?; lia);
    try lia; tauto.
Qed.

Lemma scan_line_keeps (target : string) (start_slice end_slice : Z)
    (line : string) (min_x min_y min_x' min_y' : Z) (entry : option item)
    (data : list item) :
  scan_line py_int to_pixels target start_slice end_slice line min_x min_y
    = inr (min_x', min_y', entry) ->
  minima_ok min_x min_y data ->
  minima_ok min_x' min_y'
    (match entry with Some it => data ++ [it] | None => data end).
Proof.
  unfold scan_line. intros H I.
  destruct (nth_error _ 4); [|discriminate].
  destruct (py_int s) as [|slice_number]; [discriminate|].
  destruct (_ && _ && _).
  - destruct (py_int (nth 1 _ _)) as [|x_nm]; [discriminate|].
    destruct (to_pixels x_nm) as [|x]; [discriminate|].
    destruct (py_int (nth 2 _ _)) as [|y_nm]; [discriminate|].
    destruct (to_pixels y_nm) as [|y]; [discriminate|].
    injection H as <- <- <-.
    exact (minima_ok_append min_x min_y data (mkItem _ x y slice_number) I).
  - injection H as <- <- <-. exact I.
Qed.

Lemma scan_keeps (target : string) (start_slice end_slice : Z)
    (lines : list string) (min_x min_y min_x' min_y' : Z)
    (data data' : list item) :
  scan py_int to_pixels target start_slice end_slice lines min_x min_y data
    = inr (min_x', min_y', data') ->
  minima_ok min_x min_y data ->
  minima_ok min_x' min_y' data'
  /\ (length data' <= length data + length lines)%nat.
Proof.
  revert min_x min_y data.
  induction lines as [|line lines IH]; intros min_x min_y data H I.
  - injection H as <- <- <-. split; [exact I|lia].
  - cbn [scan] in H.
    destruct (scan_line _ _ _ _ _ _ _ _) as [|[[mx my] entry]] eqn:E;
      [discriminate|].
    destruct (IH _ _ _ H (scan_line_keeps _ _ _ _ _ _ _ _ _ _ E I)) as [I' L].
    split; [exact I'|].
    destruct entry; [rewrite length_app in L|]; cbn [length] in *; lia.
Qed.

Lemma minima_ok_start : minima_ok 1000000 1000000 [].
Proof.
  repeat split; [constructor|left; reflexivity|left; reflexivity|lia|lia].
Qed.

(** X15.  Every entry [ExportDlg.export_list] writes has coordinates that
    are not negative, whatever the pixel size and the lines read, and at
    most one entry is written per line of the image lists. *)
Theorem exported_coordinates_nonnegative (target_grid_index : string)
    (start_slice end_slice : Z) (imagelist_str : list string)
    (write_ok : bool) (items : list item) :
  export_list py_int to_pixels target_grid_index start_slice end_slice
    imagelist_str write_ok = Exported items ->
  Forall (fun it => 0 <= item_x it /\ 0 <= item_y it) items
  /\ (length items <= length imagelist_str)%nat.
Proof.
  unfold export_list. destruct imagelist_str as [|l ls] eqn:El; [discriminate|].
  rewrite <- El. clear El.
  destruct (scan _ _ _ _ _ _ _ _ _) as [|[[mx my] data]] eqn:E; [discriminate|].
  destruct write_ok; [|discriminate]. intros [= <-].
  destruct (scan_keeps _ _ _ _ _ _ _ _ _ _ E minima_ok_start) as [(F & _) L].
  split.
  - unfold shift_to_origin. rewrite Forall_map.
    eapply Forall_impl; [|exact F]. cbn. intros it [? ?]. lia.
  - unfold shift_to_origin. rewrite length_map. exact L.
Qed.

(** X16.  The entries are shifted so that the bounding box starts at the
    origin, as long as a coordinate lies below the start value 1000000 of
    the minimum search: then some exported entry has x = 0 (and likewise
    y = 0).  If every x is 1000000 or more, the shift is 1000000. *)
Theorem export_origin_is_top_left (target_grid_index : string)
    (start_slice end_slice : Z) (imagelist_str : list string)
    (min_x min_y : Z) (data : list item) :
  scan py_int to_pixels target_grid_index start_slice end_slice
    imagelist_str 1000000 1000000 [] = inr (min_x, min_y, data) ->
  (Exists (fun it => item_x it < 1000000) data ->
   Exists (fun it => item_x it = 0) (shift_to_origin min_x min_y data))
  /\ (Exists (fun it => item_y it < 1000000) data ->
      Exists (fun it => item_y it = 0) (shift_to_origin min_x min_y data))
  /\ (Forall (fun it => 1000000 <= item_x it) data -> min_x = 1000000)
  /\ (Forall (fun it => 1000000 <= item_y it) data -> min_y = 1000000).
Proof.
  intros E.
  destruct (scan_keeps _ _ _ _ _ _ _ _ _ _ E minima_ok_start)
    as [(F & Ex & Ey & Lx & Ly) _].
  rewrite Forall_forall in F. unfold shift_to_origin.
  repeat split.
  - intros H. rewrite Exists_exists in H. destruct H as (it & Hin & Hlt).
    destruct Ex as [->|Ex]; [destruct (F _ Hin); lia|].
    rewrite Exists_exists in *. destruct Ex as (it' & Hin' & Heq).
    exists (mkItem (item_path it') (item_x it' - min_x)
              (item_y it' - min_y) (item_slice it')).
    split; [|cbn; lia]. apply in_map_iff. exists it'. split; [reflexivity|exact Hin'].
  - intros H. rewrite Exists_exists in H. destruct H as (it & Hin & Hlt).
    destruct Ey as [->|Ey]; [destruct (F _ Hin); lia|].
    rewrite Exists_exists in *. destruct Ey as (it' & Hin' & Heq).
    exists (mkItem (item_path it') (item_x it' - min_x)
              (item_y it' - min_y) (item_slice it')).
    split; [|cbn; lia]. apply in_map_iff. exists it'. split; [reflexivity|exact Hin'].
  - intros H. destruct Ex as [->|Ex]; [reflexivity|].
    rewrite Exists_exists in Ex. destruct Ex as (it' & Hin' & Heq).
    rewrite Forall_forall in H. specialize (H _ Hin'). lia.
  - intros H. destruct Ey as [->|Ey]; [reflexivity|].
    rewrite Exists_exists in Ey. destruct Ey as (it' & Hin' & Heq).
    rewrite Forall_forall in H. specialize (H _ Hin'). lia.
Qed.

Lemma scan_line_short (target : string) (start_slice end_slice : Z)
    (line : string) (min_x min_y : Z) :
  (length (split_on ";"%char line) < 5)%nat ->
  scan_line py_int to_pixels target start_slice end_slice line min_x min_y
    = inl "IndexError"%string.
Proof.
  intros H. unfold scan_line.
  destruct (nth_error (split_on ";"%char line) 4) eqn:E; [|reflexivity].
  assert (nth_error (split_on ";"%char line) 4 <> None) as N by congruence.
  apply nth_error_Some in N. lia.
Qed.

Lemma scan_short_line (target : string) (start_slice end_slice : Z)
    (lines : list string) (line : string) (min_x min_y : Z)
    (data : list item) :
  In line lines ->
  (length (split_on ";"%char line) < 5)%nat ->
  exists exc,
    scan py_int to_pixels target start_slice end_slice lines min_x min_y data
      = inl exc.
Proof.
  intros Hin Hs. revert min_x min_y data.
  induction lines as [|l lines IH]; intros min_x min_y data; [destruct Hin|].
  cbn [scan]. destruct Hin as [->|Hin].
  - rewrite scan_line_short by exact Hs. eauto.
  - destruct (scan_line _ _ _ _ _ _ _ _) as [exc|[[mx my] entry]]; [eauto|].
    apply (IH Hin).
Qed.

(** X17.  A line with fewer than five fields anywhere in the image lists,
    a blank line for instance, makes [ExportDlg.export_list] end in an
    exception: the slice number is read from the fifth field before the
    slice range is looked at.  Nothing is written, no message is shown, and
    the export button is not restored. *)
Theorem short_line_makes_export_raise (target_grid_index : string)
    (start_slice end_slice : Z) (imagelist_str : list string)
    (line : string) (write_ok : bool) :
  In line imagelist_str ->
  (length (split_on ";"%char line) < 5)%nat ->
  exists exc,
    export_list py_int to_pixels target_grid_index start_slice end_slice
      imagelist_str write_ok = Raised exc.
Proof.
  intros Hin Hs. unfold export_list.
  destruct imagelist_str as [|l ls] eqn:El; [destruct Hin|].
  rewrite <- El in *. clear El.
  destruct (scan_short_line target_grid_index start_slice end_slice
              imagelist_str line 1000000 1000000 [] Hin Hs) as [exc ->].
  exists exc. reflexivity.
Qed.

End ExportListProperties.

Section ExportListExamples.

Import Stdlib.Strings.Ascii.
Import PyStr.
Import ExportList.
Local Open Scope Z_scope.

Lemma exported_coordinates_nonnegative_witness :
  export_list sample_int sample_to_pixels "0001" 0 10 sample_lines true
  = Exported [mkItem "tiles\g0001\a.tif" 20 0 5;
              mkItem "tiles\g0001\b.tif" 0 20 6]
  /\ Forall (fun it => 0 <= item_x it /\ 0 <= item_y it)
       [mkItem "tiles\g0001\a.tif" 20 0 5; mkItem "tiles\g0001\b.tif" 0 20 6].
Proof.
  split; [vm_compute; reflexivity|].
  apply (exported_coordinates_nonnegative sample_int sample_to_pixels
           "0001" 0 10 sample_lines true).
  vm_compute. reflexivity.
Defined.

Lemma export_origin_is_top_left_witness :
  scan sample_int sample_to_pixels "0001" 0 10 sample_lines 1000000 1000000 []
  = inr (10, 20, [mkItem "tiles\g0001\a.tif" 30 20 5;
                  mkItem "tiles\g0001\b.tif" 10 40 6])
  /\ Exists (fun it => item_x it = 0)
       (shift_to_origin 10 20
          [mkItem "tiles\g0001\a.tif" 30 20 5;
           mkItem "tiles\g0001\b.tif" 10 40 6]).
Proof.
  assert (E : scan sample_int sample_to_pixels "0001" 0 10 sample_lines
                1000000 1000000 []
              = inr (10, 20, [mkItem "tiles\g0001\a.tif" 30 20 5;
                              mkItem "tiles\g0001\b.tif" 10 40 6]))
    by (vm_compute; reflexivity).
  split; [exact E|].
  apply (export_origin_is_top_left sample_int sample_to_pixels
           "0001" 0 10 sample_lines 10 20 _ E).
  apply Exists_cons_hd. cbn. lia.
Defined.

Lemma short_line_makes_export_raise_witness :
  exists exc,
    export_list sample_int sample_to_pixels "0001" 0 10
      (sample_lines ++ [""%string]) true = Raised exc.
Proof.
  apply (short_line_makes_export_raise sample_int sample_to_pixels
           "0001" 0 10 (sample_lines ++ [""%string]) ""%string true).
  - vm_compute. tauto.
  - vm_compute. lia.
Defined.

End ExportListExamples.

Section EHTProperties.

Import EHT.

Lemma eht_count_cons (f : event -> bool) (ev : event) (evs : list event) :
  count f (ev :: evs) = ((if f ev then 1 else 0) + count f evs)%nat.
Proof. unfold count. cbn. destruct (f ev); reflexivity. Qed.

Lemma eht_count_app (f : event -> bool) (l1 l2 : list event) :
  count f (l1 ++ l2) = (count f l1 + count f l2)%nat.
Proof. unfold count. rewrite List.filter_app, length_app. reflexivity. Qed.

(** The loop: at most [max_wait_time] sleeps, one call of the status
    function more than sleeps, and the sleeps end with the first positive
    answer. *)
Lemma wait_loop_facts (max_wait_time : nat) (answers : nat -> bool) (i : nat) :
  let '(evs, n) := wait_loop max_wait_time answers i in
  (count is_sleep evs <= max_wait_time)%nat
  /\ count is_poll evs = S (count is_sleep evs)
  /\ count is_command evs = O
  /\ n = (i + count is_poll evs)%nat
  /\ (forall k, (k <= max_wait_time)%nat -> answers (i + k)%nat = true ->
        (forall j, (j < k)%nat -> answers (i + j)%nat = false) ->
        count is_sleep evs = k)
  /\ ((forall k, (k <= max_wait_time)%nat -> answers (i + k)%nat = false) ->
        count is_sleep evs = max_wait_time).
Proof.
  revert i. induction max_wait_time as [|m IH]; intros i; cbn [wait_loop].
  - destruct (answers i) eqn:A; cbn; repeat split; try lia.
    all: try (intros k Hk Ak Hj; destruct k as [|k]; [|lia];
              first [reflexivity | rewrite Nat.add_0_r in Ak; congruence]).
    all: intros H; specialize (H O (le_n _)); rewrite Nat.add_0_r in H;
      congruence.
  - destruct (answers i) eqn:A.
    + cbn. repeat split; try lia.
      * intros k Hk Ak Hj. destruct k as [|k]; [reflexivity|].
        assert (Hlt : (0 < S k)%nat) by lia.
        specialize (Hj O Hlt). rewrite Nat.add_0_r in Hj. congruence.
      * intros H. specialize (H O (Nat.le_0_l _)). rewrite Nat.add_0_r in H.
        congruence.
    + specialize (IH (S i)). destruct (wait_loop m answers (S i)) as [evs n].
      destruct IH as (H1 & H2 & H3 & H4 & H5 & H6).
      rewrite !eht_count_cons. cbn [is_sleep is_poll is_command].
      repeat split; try lia.
      * intros k Hk Ak Hj. destruct k as [|k].
        -- rewrite Nat.add_0_r in Ak. congruence.
        -- assert (Hk' : (k <= m)%nat) by lia.
           assert (Ak' : answers (S i + k)%nat = true).
           { rewrite <- Ak. f_equal. lia. }
           rewrite (H5 k Hk' Ak'); [reflexivity|].
           intros j Hlt. assert (Hlt' : (S j < S k)%nat) by lia.
           rewrite <- (Hj (S j) Hlt'). f_equal. lia.
      * intros H. rewrite H6; [reflexivity|].
        intros k Hk. assert (Hk' : (S k <= S m)%nat) by lia.
        rewrite <- (H (S k) Hk'). f_equal. lia.
Qed.

(** X18.  Switching the beam on or off waits at most 15 seconds: the
    threads send the command once, sleep one second after every negative
    answer up to 15 times, stop sleeping at the first positive answer, and
    ask the microscope once more for the status they display, which is
    two calls more than seconds slept. *)
Theorem eht_wait_is_bounded (answers : nat -> bool) (is_eht_on : bool) :
  let on := send_on_cmd_and_wait answers in
  let off := send_off_cmd_and_wait answers is_eht_on in
  count is_command on = 1%nat /\ count is_command off = 1%nat
  /\ (count is_sleep on <= 15)%nat
  /\ count is_sleep off = count is_sleep on
  /\ count is_poll on = (count is_sleep on + 2)%nat
  /\ count is_poll off = (count is_sleep off + 2)%nat
  /\ (forall k, (k <= 15)%nat -> answers k = true ->
        (forall j, (j < k)%nat -> answers j = false) ->
        count is_sleep on = k)
  /\ ((forall k, (k <= 15)%nat -> answers k = false) ->
        count is_sleep on = 15%nat).
Proof.
  cbn zeta. unfold send_on_cmd_and_wait, send_off_cmd_and_wait.
  pose proof (wait_loop_facts 15 answers 0) as H.
  destruct (wait_loop 15 answers 0) as [evs n].
  destruct H as (H1 & H2 & H3 & H4 & H5 & H6).
  rewrite !eht_count_cons, !eht_count_app, !eht_count_cons.
  change (count is_sleep []) with O. change (count is_poll []) with O.
  change (count is_command []) with O.
  cbn [is_sleep is_poll is_command].
  repeat split; try lia.
  - intros k Hk Ak Hj. rewrite (H5 k Hk Ak Hj). lia.
  - intros H. rewrite (H6 H). lia.
Qed.

End EHTProperties.

Section FTMoveProperties.

Import FTMove.

(** Without the attributes [ovm] and [tile_number] the thread ends in an
    exception before the stage is moved. *)
Lemma move_and_wait_raises (self : gmap string attr) (w : world) :
  self !! "ovm" = None ->
  self !! "tile_number" = None ->
  exists exc what, move_and_wait self w = (Raises exc what, self, []).
Proof.
  intros Ho Ht. unfold move_and_wait, getattr, as_int. rewrite Ho, Ht.
  repeat match goal with
         | |- context [match ?x with _ => _ end] => destruct x
         end; eauto.
Qed.

(** X19.  The thread of the focus tool's move dialog never moves the stage:
    for every dialog as [__init__] and [start_move] leave it, and whatever
    the microtome and the managers answer, [move_and_wait] ends in an
    exception ([ovm] and [tile_number] are never assigned, and with both
    indices negative no target is bound) before [move_stage_to_xy] is
    called.  The finish trigger is not emitted, so the button stays
    disabled, and the dialog's attributes are unchanged. *)
Theorem focus_tool_move_never_moves (grid_index tile_index ov_index : Z)
    (w : world) :
  let self := start_move (FTMoveDlg_init grid_index tile_index ov_index) in
  exists exc what, move_and_wait self w = (Raises exc what, self, []).
Proof.
  cbn zeta. apply move_and_wait_raises; reflexivity.
Qed.

End FTMoveProperties.
